(** * Mega.nz file manager: tree walk, deletion and rename planning

    A shallow embedding of [mega_file_manager.py] (class [MegaFileManager])
    and the properties of its tree walker, folder lookup, inventory
    analysis, bulk deletion and bulk rename.

    Conventions of the embedding.
    - A Python [str] is a [string], read as its UTF-8 bytes: the order of
      two strings by bytes is their order by code point, and the
      characters the program looks for ([.], [/], digits, [pdf], [y]) are
      single bytes.  [lower] folds the ASCII letters only: no character
      outside ASCII lowercases to one of [.], [p], [d], [f] or [y], so the
      tests the program makes on lowercased text are the same.
    - [pathlib.Path] is taken in its POSIX flavour, with the definition of
      [suffix] of Python 3.4 to 3.12.
    - The listing returned by [get_files()] is a [dict] from node id to
      node; it is an association list in iteration order.  Every node has
      its parent ['p'], its type ['t'] and an attribute mapping ['a'],
      which may lack the name ['n'].
    - The recursion of [traverse] is bounded by a fuel argument; [None]
      means that the walk produced no result within that depth.
    - The remote primitives, the clock, the console input and the file
      system are explicit: an environment [Env] says which calls raise and
      what the clock and the user answer, and a [World] records what was
      done.  A call that raises raises an [Exception], which the loops
      catch.  The lines printed on the console and the progress bar are
      left out; the lines given to the logger are kept. *)

From Stdlib Require Import Bool Arith ZArith Lia List Ascii String.
From Stdlib Require Import Permutation Sorted OrderedTypeEx.
From Stdlib Require Import DecimalString DecimalNat.
Import ListNotations.

Local Open Scope string_scope.
Local Open Scope list_scope.
Local Open Scope nat_scope.

(** ** Python strings *)

Module PyStr.

(** [c.lower()] on one character (ASCII letters). *)
Definition lower_ascii (c : ascii) : ascii :=
  let k := nat_of_ascii c in
  if (65 <=? k) && (k <=? 90) then ascii_of_nat (k + 32) else c.

(** [s.lower()] *)
Fixpoint lower (s : string) : string :=
  match s with
  | EmptyString => EmptyString
  | String c s' => String (lower_ascii c) (lower s')
  end.

(** [s.endswith(suf)] *)
Definition endswith (s suf : string) : bool :=
  let ls := String.length s in
  let lf := String.length suf in
  (lf <=? ls) && String.eqb (substring (ls - lf) lf s) suf.

(** [sub in s] on strings. *)
Fixpoint contains (sub s : string) : bool :=
  prefix sub s ||
  match s with
  | EmptyString => false
  | String _ s' => contains sub s'
  end.

(** [s.rfind('.')]; [None] stands for Python's [-1]. *)
Fixpoint rfind_dot (s : string) : option nat :=
  match s with
  | EmptyString => None
  | String c s' =>
      match rfind_dot s' with
      | Some i => Some (S i)
      | None => if Ascii.eqb c "." then Some 0 else None
      end
  end.

(** [s.split(sep)] for a one-character separator. *)
Fixpoint split (sep : ascii) (s : string) : list string :=
  match s with
  | EmptyString => [EmptyString]
  | String c s' =>
      if Ascii.eqb c sep then EmptyString :: split sep s'
      else match split sep s' with
           | [] => [String c EmptyString]
           | h :: tl => String c h :: tl
           end
  end.

(** [s[i:]] *)
Definition slice_from (i : nat) (s : string) : string :=
  substring i (String.length s - i) s.

(** ['0' * k] *)
Fixpoint zeros (k : nat) : string :=
  match k with
  | 0 => EmptyString
  | S k' => String "0" (zeros k')
  end.

(** [str(i)] for a natural number. *)
Definition str_of_nat (i : nat) : string :=
  NilEmpty.string_of_uint (Nat.to_uint i).

(** [f"{i:03d}"]: decimal, padded with zeros on the left to width 3. *)
Definition format_03d (i : nat) : string :=
  let s := str_of_nat i in
  (zeros (3 - String.length s) ++ s)%string.

End PyStr.

(** ** [pathlib.Path] (POSIX flavour) *)

Module PyPath.

(** The parts kept by the path parser: components between [/], without
    the empty ones and without ["."]. *)
Definition parts (path : string) : list string :=
  filter (fun x => negb (String.eqb x "") && negb (String.eqb x "."))
         (PyStr.split "/" path).

(** [Path(path).name]: the last part, or [''] when there is none. *)
Definition name (path : string) : string :=
  last (parts path) "".

(** [Path(path).suffix]:
    [i = name.rfind('.')]; [name[i:]] if [0 < i < len(name) - 1] else ['']. *)
Definition suffix (path : string) : string :=
  let nm := name path in
  match PyStr.rfind_dot nm with
  | Some i =>
      if (0 <? i) && (i <? String.length nm - 1)
      then PyStr.slice_from i nm
      else ""
  | None => ""
  end.

End PyPath.

(** ** Nodes, listings and collected files *)

(** The attribute mapping ['a'] of a node.  The program reads its key ['n']
    only; [None] is a mapping without that key (the empty mapping too). *)
Record attrs := { attr_n : option string }.

(** A node of the listing: parent id ['p'], type ['t'] (0 is a file, 1 a
    folder, other values are the account's special nodes) and ['a']. *)
Record node := { node_p : string; node_t : Z; node_a : attrs }.

(** [files = self.mega_instance.get_files()], in iteration order. *)
Definition listing := list (string * node).

(** The dictionaries appended to [all_files]. *)
Record file_info := { file_id : string; file_name : string; file_data : node }.

(** [files.get(k)] *)
Fixpoint lookup (k : string) (files : listing) : option node :=
  match files with
  | [] => None
  | (k', nd) :: rest => if String.eqb k' k then Some nd else lookup k rest
  end.

(** ['n'] of the attributes when present, else ['unknown']. *)
Definition name_or_unknown (file_data : node) : string :=
  match attr_n (node_a file_data) with
  | Some nm => nm
  | None => "unknown"
  end.

Definition file_record (fid : string) (fdata : node) : file_info :=
  {| file_id := fid; file_name := name_or_unknown fdata; file_data := fdata |}.

(** ** [get_all_files_recursive] *)

(** The [for] loop of [traverse(parent_id)] over the items still to visit;
    [rec] is the recursive call and [all_files] the shared accumulator. *)
Fixpoint scan (rec : string -> list file_info -> option (list file_info))
    (parent_id : string) (items : listing) (all_files : list file_info)
  : option (list file_info) :=
  match items with
  | [] => Some all_files
  | (fid, fdata) :: rest =>
      if String.eqb (node_p fdata) parent_id then
        if (node_t fdata =? 0)%Z then
          scan rec parent_id rest (all_files ++ [file_record fid fdata])
        else if (node_t fdata =? 1)%Z then
          match rec fid all_files with
          | Some all_files' => scan rec parent_id rest all_files'
          | None => None
          end
        else scan rec parent_id rest all_files
      else scan rec parent_id rest all_files
  end.

Fixpoint traverse (fuel : nat) (files : listing) (parent_id : string)
    (all_files : list file_info) : option (list file_info) :=
  match fuel with
  | 0 => None
  | S k => scan (traverse k files) parent_id files all_files
  end.

Definition get_all_files_recursive (fuel : nat) (files : listing)
    (folder_id : string) : option (list file_info) :=
  traverse fuel files folder_id [].

(** ** Parent chains (used to state the properties of the walk) *)

(** The ids met when following parent links from [i], at most [k] of them,
    as long as they are ids of the listing. *)
Fixpoint parent_chain (k : nat) (files : listing) (i : string) : list string :=
  match k with
  | 0 => []
  | S k' =>
      match lookup i files with
      | None => []
      | Some nd => i :: parent_chain k' files (node_p nd)
      end
  end.

(** The [m]-th ancestor of [i] by parent links. *)
Fixpoint ancestor (m : nat) (files : listing) (i : string) : option string :=
  match m with
  | 0 => Some i
  | S m' =>
      match lookup i files with
      | None => None
      | Some nd => ancestor m' files (node_p nd)
      end
  end.

Fixpoint nodupb (l : list string) : bool :=
  match l with
  | [] => true
  | x :: l' => negb (existsb (String.eqb x) l') && nodupb l'
  end.

(** No node's parent chain revisits a node.  A chain without repetition has
    at most as many ids as the listing, so one more step than that is
    enough to look at. *)
Definition acyclic (files : listing) : bool :=
  forallb (fun e => nodupb (parent_chain (S (List.length files)) files (fst e)))
          files.

Definition is_folder (files : listing) (i : string) : bool :=
  match lookup i files with
  | Some nd => (node_t nd =? 1)%Z
  | None => false
  end.

(** The parent chain of [i] arrives at [root] in at most [k] links, every
    node strictly between [i] and [root] being a folder. *)
Fixpoint reaches (k : nat) (files : listing) (root i : string) : bool :=
  match k with
  | 0 => false
  | S k' =>
      match lookup i files with
      | None => false
      | Some nd =>
          String.eqb (node_p nd) root
          || (is_folder files (node_p nd) && reaches k' files root (node_p nd))
      end
  end.

(** The file nodes below [root], in listing order. *)
Definition files_below (files : listing) (root : string) : list file_info :=
  map (fun e => file_record (fst e) (snd e))
      (filter (fun e => (node_t (snd e) =? 0)%Z
                        && reaches (List.length files) files root (fst e))
              files).

(** ** [analyze_folder] *)

Record stats := {
  total_files : nat;
  pdf_files : nat;
  other_files : nat;
  file_types : list (string * nat)
}.

(** [d[ext] = d.get(ext, 0) + 1] on an insertion-ordered dictionary. *)
Fixpoint bump (ext : string) (d : list (string * nat)) : list (string * nat) :=
  match d with
  | [] => [(ext, 1)]
  | (k, v) :: d' =>
      if String.eqb k ext then (k, S v) :: d' else (k, v) :: bump ext d'
  end.

(** One turn of the loop of [analyze_folder]. *)
Definition analyze_step (st : stats) (f : file_info) : stats :=
  let ext := PyStr.lower (PyPath.suffix (file_name f)) in
  {| total_files := total_files st;
     pdf_files := if String.eqb ext ".pdf" then S (pdf_files st) else pdf_files st;
     other_files :=
       if String.eqb ext ".pdf" then other_files st else S (other_files st);
     file_types := bump ext (file_types st) |}.

Definition analyze_files (all_files : list file_info) : stats :=
  fold_left analyze_step all_files
    {| total_files := List.length all_files;
       pdf_files := 0; other_files := 0; file_types := [] |}.

Definition analyze_folder (fuel : nat) (files : listing) (folder_id : string)
  : option stats :=
  option_map analyze_files (get_all_files_recursive fuel files folder_id).

(** ** The outside world *)

Inductive remote_call :=
| Destroy (fid : string)
| Rename (fid new_name : string).

(** What a call did: it returned, or raised an [Exception] with a text. *)
Inductive outcome :=
| Returned
| Raised (e : string).

Inductive level := INFO | ERROR.

Record backup_entry := {
  entry_file_id : string;
  original_name : string;
  new_name : string
}.

Record backup_data := {
  timestamp : string;
  custom_name : string;
  backup_files : list backup_entry
}.

(** A reading of [datetime.now()]: its [isoformat()] and its
    [strftime('%Y%m%d_%H%M%S')]. *)
Record datetime := { isoformat : string; compact : string }.

Record World := {
  remote_trace : list (remote_call * outcome);
  log : list (level * string);
  disk : list (string * backup_data);
  clock_reads : nat;
  prompts : list string
}.

(** What the world answers.  [remote] decides a mutation call from the
    calls made so far; [open_w] says whether opening a file for writing
    raises; [now] is the clock by number of readings; [answers] is the line
    typed at each prompt, by number of prompts. *)
Record Env := {
  remote : list (remote_call * outcome) -> remote_call -> outcome;
  open_w : list (string * backup_data) -> string -> outcome;
  now : nat -> datetime;
  answers : nat -> string
}.

Definition logger (lv : level) (msg : string) (w : World) : World :=
  {| remote_trace := remote_trace w; log := log w ++ [(lv, msg)];
     disk := disk w; clock_reads := clock_reads w; prompts := prompts w |}.

(** [self.mega_instance.destroy(..)] or [.rename(..)]. *)
Definition call_remote (E : Env) (c : remote_call) (w : World)
  : outcome * World :=
  let r := remote E (remote_trace w) c in
  (r, {| remote_trace := remote_trace w ++ [(c, r)]; log := log w;
         disk := disk w; clock_reads := clock_reads w; prompts := prompts w |}).

(** [datetime.now()] *)
Definition read_clock (E : Env) (w : World) : datetime * World :=
  (now E (clock_reads w),
   {| remote_trace := remote_trace w; log := log w; disk := disk w;
      clock_reads := S (clock_reads w); prompts := prompts w |}).

(** [input(prompt)] *)
Definition input (E : Env) (prompt : string) (w : World) : string * World :=
  (answers E (List.length (prompts w)),
   {| remote_trace := remote_trace w; log := log w; disk := disk w;
      clock_reads := clock_reads w; prompts := prompts w ++ [prompt] |}).

(** Writing a file in mode ['w']: an existing file of that name is replaced. *)
Fixpoint store (fname : string) (content : backup_data)
    (d : list (string * backup_data)) : list (string * backup_data) :=
  match d with
  | [] => [(fname, content)]
  | (k, v) :: d' =>
      if String.eqb k fname then (k, content) :: d'
      else (k, v) :: store fname content d'
  end.

(** [with open(backup_file, 'w') as f: json.dump(backup_data, f, indent=4)] *)
Definition write_json (E : Env) (fname : string) (content : backup_data)
    (w : World) : outcome * World :=
  match open_w E (disk w) fname with
  | Returned =>
      (Returned,
       {| remote_trace := remote_trace w; log := log w;
          disk := store fname content (disk w);
          clock_reads := clock_reads w; prompts := prompts w |})
  | Raised e => (Raised e, w)
  end.

(** ** [delete_pdfs] *)

(** [f['name'].lower().endswith('.pdf')] *)
Definition is_pdf (f : file_info) : bool :=
  PyStr.endswith (PyStr.lower (file_name f)) ".pdf".

(** The loop of [delete_pdfs], with its [try]/[except] on each item. *)
Fixpoint delete_loop (E : Env) (dry_run : bool) (items : list file_info)
    (deleted_count : nat) (w : World) : nat * World :=
  match items with
  | [] => (deleted_count, w)
  | pdf_file :: rest =>
      if dry_run then
        delete_loop E dry_run rest (S deleted_count)
          (logger INFO ("[DRY RUN] Would delete: " ++ file_name pdf_file) w)
      else
        match call_remote E (Destroy (file_id pdf_file)) w with
        | (Returned, w1) =>
            delete_loop E dry_run rest (S deleted_count)
              (logger INFO ("Deleted PDF: " ++ file_name pdf_file) w1)
        | (Raised e, w1) =>
            delete_loop E dry_run rest deleted_count
              (logger ERROR
                 ("Error deleting " ++ file_name pdf_file ++ ": " ++ e) w1)
        end
  end.

(** [delete_pdfs] after the walk: the selected [pdf_files] and the count. *)
Definition delete_selected (E : Env) (all_files : list file_info)
    (dry_run : bool) (w : World) : nat * World :=
  let selected := filter is_pdf all_files in
  match selected with
  | [] => (0, w)
  | _ => delete_loop E dry_run selected 0 w
  end.

Definition delete_pdfs (E : Env) (fuel : nat) (files : listing)
    (folder_id : string) (dry_run : bool) (w : World) : option (nat * World) :=
  match get_all_files_recursive fuel files folder_id with
  | None => None
  | Some all_files => Some (delete_selected E all_files dry_run w)
  end.

(** ** [rename_files] *)

(** [list.sort(key=lambda x: x['name'])] is a stable sort; this is the
    stable insertion sort, which yields the same list. *)
Fixpoint insert_by_name (x : file_info) (l : list file_info) : list file_info :=
  match l with
  | [] => [x]
  | y :: l' =>
      if String.leb (file_name x) (file_name y) then x :: l
      else y :: insert_by_name x l'
  end.

Fixpoint sort_by_name (l : list file_info) : list file_info :=
  match l with
  | [] => []
  | x :: l' => insert_by_name x (sort_by_name l')
  end.

(** [f"{custom_name}_{idx:03d}{extension}"] *)
Definition planned_name (custom : string) (idx : nat) (original : string)
  : string :=
  (custom ++ "_" ++ PyStr.format_03d idx ++ PyPath.suffix original)%string.

(** The loop of [rename_files] over [enumerate(files_to_rename, 1)];
    [entries] is [backup_data['files']]. *)
Fixpoint rename_loop (E : Env) (custom : string) (dry_run : bool)
    (items : list file_info) (idx : nat) (entries : list backup_entry)
    (renamed_count : nat) (w : World) : list backup_entry * nat * World :=
  match items with
  | [] => (entries, renamed_count, w)
  | f :: rest =>
      let original := file_name f in
      let new := planned_name custom idx original in
      let entries' :=
        entries ++ [{| entry_file_id := file_id f;
                       original_name := original; new_name := new |}] in
      if dry_run then
        rename_loop E custom dry_run rest (S idx) entries' (S renamed_count)
          (logger INFO
             ("[DRY RUN] Would rename: " ++ original ++ " -> " ++ new) w)
      else
        match call_remote E (Rename (file_id f) new) w with
        | (Returned, w1) =>
            rename_loop E custom dry_run rest (S idx) entries'
              (S renamed_count)
              (logger INFO ("Renamed: " ++ original ++ " -> " ++ new) w1)
        | (Raised e, w1) =>
            rename_loop E custom dry_run rest (S idx) entries' renamed_count
              (logger ERROR ("Error renaming " ++ original ++ ": " ++ e) w1)
        end
  end.

(** The block [# Save backup data]. *)
Definition save_backup (E : Env) (dry_run : bool) (renamed_count : nat)
    (backup : backup_data) (w : World) : World :=
  if negb dry_run && (0 <? renamed_count) then
    let (t, w1) := read_clock E w in
    let backup_file := ("backup_" ++ compact t ++ ".json")%string in
    match write_json E backup_file backup w1 with
    | (Returned, w2) => w2
    | (Raised e, w2) => logger ERROR ("Error saving backup: " ++ e) w2
    end
  else w.

(** [rename_files] after the walk.  Besides the returned count, the result
    shows the local [backup_data] ([None] on the early return). *)
Definition rename_selected (E : Env) (all_files : list file_info)
    (custom : string) (dry_run : bool) (w : World)
  : nat * option backup_data * World :=
  let files_to_rename := filter (fun f => negb (is_pdf f)) all_files in
  match files_to_rename with
  | [] => (0, None, w)
  | _ =>
      let sorted := sort_by_name files_to_rename in
      let (t, w1) := read_clock E w in
      let '(entries, renamed_count, w2) :=
        rename_loop E custom dry_run sorted 1 [] 0 w1 in
      let backup :=
        {| timestamp := isoformat t; custom_name := custom;
           backup_files := entries |} in
      (renamed_count, Some backup, save_backup E dry_run renamed_count backup w2)
  end.

Definition rename_files (E : Env) (fuel : nat) (files : listing)
    (folder_id custom : string) (dry_run : bool) (w : World)
  : option (nat * option backup_data * World) :=
  match get_all_files_recursive fuel files folder_id with
  | None => None
  | Some all_files => Some (rename_selected E all_files custom dry_run w)
  end.

(** The plan of a pass: the entries of its [backup_data]. *)
Definition plan_of (r : nat * option backup_data * World) : list backup_entry :=
  match snd (fst r) with
  | Some b => backup_files b
  | None => []
  end.

(** ** [find_folder] *)

(** First loop: a folder whose name is [folder_path]. *)
Fixpoint find_exact (folder_path : string) (items : listing)
  : option (string * node) :=
  match items with
  | [] => None
  | (fid, fdata) :: rest =>
      match attr_n (node_a fdata) with
      | Some nm =>
          if String.eqb nm folder_path && (node_t fdata =? 1)%Z
          then Some (fid, fdata)
          else find_exact folder_path rest
      | None => find_exact folder_path rest
      end
  end.

(** Second loop: folders whose name contains [folder_path], each one put
    to the user. *)
Fixpoint find_confirmed (E : Env) (folder_path : string) (items : listing)
    (w : World) : option (string * node) * World :=
  match items with
  | [] => (None, w)
  | (fid, fdata) :: rest =>
      match attr_n (node_a fdata) with
      | Some nm =>
          if PyStr.contains folder_path nm && (node_t fdata =? 1)%Z then
            let (confirm, w1) :=
              input E ("Found '" ++ nm ++ "'. Is this correct? (y/n): ") w in
            if String.eqb (PyStr.lower confirm) "y"
            then (Some (fid, fdata), w1)
            else find_confirmed E folder_path rest w1
          else find_confirmed E folder_path rest w
      | None => find_confirmed E folder_path rest w
      end
  end.

Definition find_folder (E : Env) (files : listing) (folder_path : string)
    (w : World) : option (string * node) * World :=
  match find_exact folder_path files with
  | Some r => (Some r, w)
  | None => find_confirmed E folder_path files w
  end.

(** ** Auxiliary definitions for the statements *)

(** The walk without its accumulator: what one call appends. *)
Fixpoint gather (rec : string -> option (list file_info))
    (parent_id : string) (items : listing) : option (list file_info) :=
  match items with
  | [] => Some []
  | (fid, fdata) :: rest =>
      if String.eqb (node_p fdata) parent_id then
        if (node_t fdata =? 0)%Z then
          option_map (cons (file_record fid fdata)) (gather rec parent_id rest)
        else if (node_t fdata =? 1)%Z then
          match rec fid with
          | Some sub => option_map (app sub) (gather rec parent_id rest)
          | None => None
          end
        else gather rec parent_id rest
      else gather rec parent_id rest
  end.

Fixpoint collect (fuel : nat) (files : listing) (parent_id : string)
  : option (list file_info) :=
  match fuel with
  | 0 => None
  | S k => gather (collect k files) parent_id files
  end.

(** The parent chain of [i] stays in the listing for [k] steps. *)
Fixpoint chain_stays (k : nat) (files : listing) (i : string) : bool :=
  match k with
  | 0 => true
  | S k' =>
      match lookup i files with
      | None => false
      | Some nd => chain_stays k' files (node_p nd)
      end
  end.

(** A [dict] has each key once. *)
Definition unique_ids (files : listing) : bool := nodupb (map fst files).

(** Every parent chain leaves the listing within as many steps as there
    are nodes. *)
Definition bounded (files : listing) : Prop :=
  forall i, chain_stays (S (List.length files)) files i = false.

Definition ids (l : list file_info) : list string := map file_id l.

(** ** Sample listings *)

Definition mk_node (parent : string) (type : Z) (nm : string) : node :=
  {| node_p := parent; node_t := type; node_a := {| attr_n := Some nm |} |}.

(** A folder [F] holding [b.txt], [a.txt], [x.pdf] and a sub-folder with
    one more file. *)
Definition sample : listing :=
  [ ("F", mk_node "root" 1 "Reports");
    ("f1", mk_node "F" 0 "b.txt");
    ("f2", mk_node "F" 0 "a.txt");
    ("f3", mk_node "F" 0 "x.pdf");
    ("G", mk_node "F" 1 "Reports 2020");
    ("f4", mk_node "G" 0 "old.TXT") ].

(** A file kept below another file: [v1]'s parent is the file [v2]. *)
Definition versioned : listing :=
  [ ("R", mk_node "top" 1 "docs");
    ("v2", mk_node "R" 0 "a.txt");
    ("v1", mk_node "v2" 0 "a.txt") ].

(** Two folders that are each other's parent. *)
Definition looped : listing :=
  [ ("R", mk_node "X" 1 "r"); ("X", mk_node "R" 1 "x") ].

(** ** Reading the statements of the rename plan *)

Definition is_digit (c : ascii) : bool :=
  let k := nat_of_ascii c in (48 <=? k) && (k <=? 57).

Fixpoint all_digits (s : string) : bool :=
  match s with
  | EmptyString => true
  | String c s' => is_digit c && all_digits s'
  end.

(** The number written by a string of decimal digits. *)
Definition decode (s : string) : option nat :=
  option_map Nat.of_uint (NilEmpty.uint_of_string s).

(** The empty string, or a string that starts with a dot. *)
Definition dot_or_empty (e : string) : Prop :=
  e = "" \/ exists t, e = String "." t.

Definition not_pdf (f : file_info) : bool := negb (is_pdf f).

Definition name_le (x y : file_info) : Prop :=
  String.leb (file_name x) (file_name y) = true.

(** The entry planned for file [f] at index [idx]. *)
Definition entry_for (custom : string) (idx : nat) (f : file_info)
  : backup_entry :=
  {| entry_file_id := file_id f;
     original_name := file_name f;
     new_name := (custom ++ "_" ++ PyStr.format_03d idx
                    ++ PyPath.suffix (file_name f))%string |}.

Definition is_raised (o : outcome) : bool :=
  match o with
  | Raised _ => true
  | Returned => false
  end.

(** The number of calls of a trace that raised. *)
Definition failures (tr : list (remote_call * outcome)) : nat :=
  List.length (filter (fun co => is_raised (snd co)) tr).

(** The trace after issuing [calls] one after the other, each of them
    whatever the earlier ones did. *)
Fixpoint issue (E : Env) (tr : list (remote_call * outcome))
    (calls : list remote_call) : list (remote_call * outcome) :=
  match calls with
  | [] => tr
  | c :: cs => issue E (tr ++ [(c, remote E tr c)]) cs
  end.

(** The entries for [items], numbered from [idx]. *)
Definition numbered (custom : string) (idx : nat) (items : list file_info)
  : list backup_entry :=
  map (fun kf => entry_for custom (fst kf) (snd kf))
      (combine (seq idx (List.length items)) items).

Definition rename_call (e : backup_entry) : remote_call :=
  Rename (entry_file_id e) (new_name e).

Definition destroy_call (f : file_info) : remote_call := Destroy (file_id f).

(** ** Sample inputs and environments *)

Definition mk_file (fid nm : string) : file_info :=
  file_record fid (mk_node "F" 0 nm).

(** The files of the folder [F] of the specification's scenario. *)
Definition scenario : list file_info :=
  [ mk_file "f1" "b.txt"; mk_file "f2" "a.txt"; mk_file "f3" "x.pdf" ].

Definition dotted : list file_info :=
  [ mk_file "g1" "a.tar.gz"; mk_file "g2" ".txt" ].

Definition noon : datetime :=
  {| isoformat := "2024-01-01T12:00:00"; compact := "20240101_120000" |}.

(** Every call returns; the user types [n]. *)
Definition calm : Env :=
  {| remote := fun _ _ => Returned;
     open_w := fun _ _ => Returned;
     now := fun _ => noon;
     answers := fun _ => "n" |}.

(** The remote raises on the file [f1] only. *)
Definition flaky : Env :=
  {| remote := fun _ c =>
       match c with
       | Destroy fid | Rename fid _ =>
           if String.eqb fid "f1" then Raised "timeout" else Returned
       end;
     open_w := fun _ _ => Returned;
     now := fun _ => noon;
     answers := fun _ => "n" |}.

(** Opening a file for writing raises. *)
Definition read_only : Env :=
  {| remote := fun _ _ => Returned;
     open_w := fun _ _ => Raised "Permission denied";
     now := fun _ => noon;
     answers := fun _ => "n" |}.

Definition start : World :=
  {| remote_trace := []; log := []; disk := [];
     clock_reads := 0; prompts := [] |}.

(** The name of the backup file written when the clock has been read
    [reads] times before the pass. *)
Definition backup_file_name (E : Env) (reads : nat) : string :=
  ("backup_" ++ compact (now E (S reads)) ++ ".json")%string.

Definition would_delete (f : file_info) : level * string :=
  (INFO, ("[DRY RUN] Would delete: " ++ file_name f)%string).

Definition would_rename (e : backup_entry) : level * string :=
  (INFO, ("[DRY RUN] Would rename: " ++ original_name e ++ " -> "
            ++ new_name e)%string).

(** The test of the analyzer: the lowercased suffix is [.pdf]. *)
Definition counted_as_pdf (f : file_info) : bool :=
  String.eqb (PyStr.lower (PyPath.suffix (file_name f))) ".pdf".

Definition stale : backup_data :=
  {| timestamp := "2023-12-31T00:00:00"; custom_name := "old";
     backup_files := [] |}.

(** A disk that already holds a backup file of the name to come. *)
Definition crowded : World :=
  {| remote_trace := []; log := [];
     disk := [("backup_20240101_120000.json", stale)];
     clock_reads := 0; prompts := [] |}.

(** ** The folder lookup in the words of its description *)

(** A folder whose name is the query. *)
Definition is_exact (folder_path : string) (e : string * node) : bool :=
  match attr_n (node_a (snd e)) with
  | Some nm => String.eqb nm folder_path && (node_t (snd e) =? 1)%Z
  | None => false
  end.

(** A folder whose name contains the query. *)
Definition is_candidate (folder_path : string) (e : string * node) : bool :=
  match attr_n (node_a (snd e)) with
  | Some nm => PyStr.contains folder_path nm && (node_t (snd e) =? 1)%Z
  | None => false
  end.

(** [confirm.lower() == 'y'] *)
Definition confirms (answer : string) : bool :=
  String.eqb (PyStr.lower answer) "y".

Definition prompt_for (e : string * node) : string :=
  ("Found '" ++ name_or_unknown (snd e) ++ "'. Is this correct? (y/n): ")%string.

(** Put the candidates to the user one after the other; the first one
    confirmed is the result. *)
Fixpoint ask (E : Env) (cands : listing) (w : World)
  : option (string * node) * World :=
  match cands with
  | [] => (None, w)
  | c :: rest =>
      let (answer, w1) := input E (prompt_for c) w in
      if confirms answer then (Some c, w1) else ask E rest w1
  end.

(** The user declines the first candidate and accepts the second. *)
Definition picky : Env :=
  {| remote := fun _ _ => Returned;
     open_w := fun _ _ => Returned;
     now := fun _ => noon;
     answers := fun k => match k with 0 => "n" | _ => "Y" end |}.

(** ** Further definitions for the statements *)

Fixpoint has_char (c : ascii) (s : string) : bool :=
  match s with
  | EmptyString => false
  | String d s' => Ascii.eqb d c || has_char c s'
  end.

(** A name without a path separator. *)
Definition no_slash (s : string) : bool := negb (has_char "/" s).



(** A child of [root] that is a folder. *)
Definition folder_child (root : string) (e : string * node) : bool :=
  String.eqb (node_p (snd e)) root && (node_t (snd e) =? 1)%Z.

(** A child of [root] that is a file. *)
Definition file_child (root : string) (e : string * node) : bool :=
  String.eqb (node_p (snd e)) root && (node_t (snd e) =? 0)%Z.

(** The line logged for one item of the live deletion. *)
Definition delete_line (fo : file_info * outcome) : level * string :=
  match snd fo with
  | Returned => (INFO, ("Deleted PDF: " ++ file_name (fst fo))%string)
  | Raised e =>
      (ERROR, ("Error deleting " ++ file_name (fst fo) ++ ": " ++ e)%string)
  end.

(** The line logged for one item of the live rename. *)
Definition rename_line (eo : backup_entry * outcome) : level * string :=
  match snd eo with
  | Returned =>
      (INFO, ("Renamed: " ++ original_name (fst eo) ++ " -> "
                ++ new_name (fst eo))%string)
  | Raised e =>
      (ERROR, ("Error renaming " ++ original_name (fst eo) ++ ": " ++ e)%string)
  end.

Definition returned (o : outcome) : bool := negb (is_raised o).

(** The whole name, lowercased, is [.pdf]. *)
Definition bare_pdf (f : file_info) : bool :=
  String.eqb (PyStr.lower (file_name f)) ".pdf".

(** [s[-1]], when there is one. *)
Fixpoint last_char (s : string) : option ascii :=
  match s with
  | EmptyString => None
  | String c s' =>
      match last_char s' with
      | Some d => Some d
      | None => Some c
      end
  end.

(** ** [display_stats]

    The lines printed, without the colour codes. *)

Definition nl : string := String (ascii_of_nat 10) EmptyString.

(** [sorted(items, key=lambda x: x[1], reverse=True)]: a stable sort by
    descending count; this is the stable insertion sort. *)
Fixpoint insert_by_count (x : string * nat) (l : list (string * nat))
  : list (string * nat) :=
  match l with
  | [] => [x]
  | y :: l' => if snd y <=? snd x then x :: l else y :: insert_by_count x l'
  end.

Fixpoint sort_by_count (l : list (string * nat)) : list (string * nat) :=
  match l with
  | [] => []
  | x :: l' => insert_by_count x (sort_by_count l')
  end.

(** [f"  {ext_display}: {count}"] *)
Definition breakdown_line (kv : string * nat) : string :=
  let ext_display :=
    if String.eqb (fst kv) "" then "(no extension)" else fst kv in
  ("  " ++ ext_display ++ ": " ++ PyStr.str_of_nat (snd kv))%string.

Definition display_stats (st : stats) : list string :=
  [ (nl ++ "=== FOLDER STATISTICS ===")%string;
    ("Total files: " ++ PyStr.str_of_nat (total_files st))%string;
    ("PDF files: " ++ PyStr.str_of_nat (pdf_files st)
       ++ " (will be deleted)")%string;
    ("Other files: " ++ PyStr.str_of_nat (other_files st)
       ++ " (will be renamed)")%string;
    (nl ++ "File types breakdown:")%string ]
  ++ map breakdown_line (sort_by_count (file_types st)).

Definition count_ge (x y : string * nat) : Prop := snd y <= snd x.

(** ** Sessions, login and the selection of an account

    Here and in [run] the texts of the prompts are without their colour
    codes.  [int], [str.strip], the rendering of a time and of a duration
    are given by the host. *)

(** An entry of [self.sessions]. *)
Record session := { password : string; last_used : string }.

(** What reading [mega_sessions.json] gives: the mapping it holds, or an
    exception (the file does not open or does not parse). *)
Inductive config :=
| Parsed (s : list (string * session))
| Unreadable (e : string).

Record Host := {
  env : Env;
  (** the listing answered to each call of [get_files()], by number *)
  get_files : nat -> listing;
  (** [self.mega.login(email, password)] *)
  mega_login : string -> string -> outcome;
  (** opening [mega_sessions.json] for writing *)
  config_open_w : option config -> outcome;
  (** [int(s)]; [None] is a [ValueError] *)
  int_of : string -> option Z;
  (** [s.strip()] *)
  strip : string -> string;
  (** [t.strftime('%Y-%m-%d %H:%M:%S')] *)
  long_stamp : datetime -> string;
  (** [f"{(end - start).total_seconds():.2f}"] *)
  duration_text : datetime -> datetime -> string;
  (** the recursion depth available to the walk *)
  depth : nat;
  (** the number of turns of the selection loop that are followed *)
  patience : nat
}.

(** The fields of the manager, the configuration file and the world. *)
Record Manager := {
  sessions : list (string * session);
  current_account : option string;
  mega_instance : option string;
  config_file : option config;
  fetches : nat;
  world : World
}.

Definition set_world (w : World) (m : Manager) : Manager :=
  {| sessions := sessions m; current_account := current_account m;
     mega_instance := mega_instance m; config_file := config_file m;
     fetches := fetches m; world := w |}.

(** [d[k] = v] on an insertion-ordered dictionary. *)
Fixpoint assign (k : string) (v : session) (d : list (string * session))
  : list (string * session) :=
  match d with
  | [] => [(k, v)]
  | (k', v') :: d' =>
      if String.eqb k' k then (k', v) :: d' else (k', v') :: assign k v d'
  end.

(** [d.get(k)] *)
Fixpoint session_of (k : string) (d : list (string * session))
  : option session :=
  match d with
  | [] => None
  | (k', v) :: d' => if String.eqb k' k then Some v else session_of k d'
  end.

Definition load_sessions (m : Manager) : list (string * session) * Manager :=
  match config_file m with
  | None => ([], m)
  | Some (Parsed s) => (s, m)
  | Some (Unreadable e) =>
      ([], set_world (logger ERROR ("Error loading sessions: " ++ e) (world m)) m)
  end.

(** [MegaFileManager()]: the manager as [__init__] leaves it. *)
Definition init (cfg : option config) (w : World) : Manager :=
  let m0 := {| sessions := []; current_account := None;
               mega_instance := None; config_file := cfg;
               fetches := 0; world := w |} in
  let (s, m1) := load_sessions m0 in
  {| sessions := s; current_account := current_account m1;
     mega_instance := mega_instance m1; config_file := config_file m1;
     fetches := fetches m1; world := world m1 |}.

Definition save_sessions (H : Host) (m : Manager) : Manager :=
  match config_open_w H (config_file m) with
  | Returned =>
      {| sessions := sessions m; current_account := current_account m;
         mega_instance := mega_instance m;
         config_file := Some (Parsed (sessions m));
         fetches := fetches m;
         world := logger INFO "Sessions saved successfully" (world m) |}
  | Raised e =>
      set_world (logger ERROR ("Error saving sessions: " ++ e) (world m)) m
  end.

Definition login (H : Host) (email pw : string) (m : Manager)
  : bool * Manager :=
  match mega_login H email pw with
  | Raised e =>
      (false,
       set_world (logger ERROR ("Login failed for " ++ email ++ ": " ++ e)
                         (world m)) m)
  | Returned =>
      let (t, w1) := read_clock (env H) (world m) in
      let m1 :=
        {| sessions :=
             assign email {| password := pw; last_used := long_stamp H t |}
                    (sessions m);
           current_account := current_account m;
           mega_instance := Some email;
           config_file := config_file m;
           fetches := fetches m; world := w1 |} in
      let m2 := save_sessions H m1 in
      (true,
       {| sessions := sessions m2; current_account := Some email;
          mega_instance := mega_instance m2; config_file := config_file m2;
          fetches := fetches m2;
          world := logger INFO ("Logged in to account: " ++ email) (world m2) |})
  end.

(** How the selection of an account ends: with credentials, with
    [sys.exit(0)], or still asking when the turns followed are used up. *)
Inductive selection :=
| Credentials (email pw : string)
| SystemExit0
| StillAsking.

Definition add_new_account (H : Host) (w : World) : selection * World :=
  let (email, w1) := input (env H) "Enter Mega email: " w in
  let (pw, w2) := input (env H) "Enter Mega password: " w1 in
  (Credentials (strip H email) pw, w2).

Definition use_account_prompt (email : string) : string :=
  ("Use account '" ++ email ++ "'? (y/n): ")%string.

(** The [while True] loop of [select_or_add_account]. *)
Fixpoint select_loop (H : Host) (turns : nat) (s : list (string * session))
    (w : World) : selection * World :=
  match turns with
  | 0 => (StillAsking, w)
  | S k =>
      let accounts := map fst s in
      let (choice, w1) := input (env H) (nl ++ "Select option: ") w in
      match int_of H (strip H choice) with
      | None => select_loop H k s w1
      | Some c =>
          if (c =? 0)%Z then (SystemExit0, w1)
          else if (1 <=? c)%Z && (c <=? Z.of_nat (List.length accounts))%Z then
            match nth_error accounts (Z.to_nat (c - 1)) with
            | Some email =>
                let (confirm, w2) := input (env H) (use_account_prompt email) w1 in
                if String.eqb (PyStr.lower confirm) "y" then
                  match session_of email s with
                  | Some se => (Credentials email (password se), w2)
                  | None => (StillAsking, w2)
                  end
                else select_loop H k s w2
            | None => (StillAsking, w1)
            end
          else if (c =? Z.of_nat (List.length accounts) + 1)%Z then
            add_new_account H w1
          else select_loop H k s w1
      end
  end.

Definition select_or_add_account (H : Host) (m : Manager)
  : selection * Manager :=
  match sessions m with
  | [] =>
      let (r, w) := add_new_account H (world m) in (r, set_world w m)
  | _ =>
      let (r, w) := select_loop H (patience H) (sessions m) (world m) in
      (r, set_world w m)
  end.

(** ** [run] *)

(** How [run] ends: with the summary, by one of its early returns, by
    [sys.exit(0)] in the selection of the account, still asking, or by an
    exception that leaves it (the walk running out of depth). *)
Inductive ending :=
| Summarized (renamed : nat)
| LoginFailed
| FolderNotFound
| NoFilesFound
| EmptyName
| NotProceeding
| NotConfirmed
| Exited0
| Asking
| Crashed.

(** [self.mega_instance.get_files()] *)
Definition fetch (H : Host) (m : Manager) : listing * Manager :=
  (get_files H (fetches m),
   {| sessions := sessions m; current_account := current_account m;
      mega_instance := mega_instance m; config_file := config_file m;
      fetches := S (fetches m); world := world m |}).

(** [self.delete_pdfs(folder['id'], dry_run)] inside [run]. *)
Definition run_delete (H : Host) (folder_id : string) (dry_run : bool)
    (m : Manager) : option nat * Manager :=
  let (files, m1) := fetch H m in
  match delete_pdfs (env H) (depth H) files folder_id dry_run (world m1) with
  | None => (None, m1)
  | Some (c, w) => (Some c, set_world w m1)
  end.

(** [self.rename_files(folder['id'], custom_name, dry_run)] inside [run]. *)
Definition run_rename (H : Host) (folder_id custom : string) (dry_run : bool)
    (m : Manager) : option nat * Manager :=
  let (files, m1) := fetch H m in
  match rename_files (env H) (depth H) files folder_id custom dry_run
                     (world m1) with
  | None => (None, m1)
  | Some (c, _, w) => (Some c, set_world w m1)
  end.

Definition ask_line (H : Host) (prompt : string) (m : Manager)
  : string * Manager :=
  let (a, w) := input (env H) prompt (world m) in (a, set_world w m).

Definition final_prompt : string :=
  "This will modify your Mega files. Continue? (y/n): ".

Definition proceed_prompt : string :=
  "Proceed with actual operation? (y/n): ".

Definition summary_line (H : Host) (st : stats) (renamed : nat)
    (t0 t1 : datetime) : level * string :=
  (INFO,
   ("Operation complete - Deleted: " ++ PyStr.str_of_nat (pdf_files st)
      ++ ", Renamed: " ++ PyStr.str_of_nat renamed
      ++ ", Duration: " ++ duration_text H t0 t1 ++ "s")%string).

(** The block [# Actual operation] after the final confirmation. *)
Definition run_live (H : Host) (folder_id custom : string) (st : stats)
    (m : Manager) : ending * Manager :=
  let (t0, w0) := read_clock (env H) (world m) in
  let m0 := set_world w0 m in
  let (deleted, m1) :=
    if 0 <? pdf_files st then run_delete H folder_id false m0
    else (Some 0, m0) in
  match deleted with
  | None => (Crashed, m1)
  | Some _ =>
      match run_rename H folder_id custom false m1 with
      | (None, m2) => (Crashed, m2)
      | (Some renamed, m2) =>
          let (t1, w1) := read_clock (env H) (world m2) in
          (Summarized renamed,
           set_world (logger (fst (summary_line H st renamed t0 t1))
                             (snd (summary_line H st renamed t0 t1)) w1) m2)
      end
  end.

(** The final confirmation and what follows. *)
Definition run_confirmed (H : Host) (folder_id custom : string) (st : stats)
    (m : Manager) : ending * Manager :=
  let (final_confirm, m1) := ask_line H final_prompt m in
  if String.eqb (PyStr.lower final_confirm) "y"
  then run_live H folder_id custom st m1
  else (NotConfirmed, m1).

(** The block [# Dry run option]. *)
Definition run_dry (H : Host) (folder_id custom : string) (st : stats)
    (m : Manager) : ending * Manager :=
  let (previewed, m1) :=
    if 0 <? pdf_files st then run_delete H folder_id true m
    else (Some 0, m) in
  match previewed with
  | None => (Crashed, m1)
  | Some _ =>
      match run_rename H folder_id custom true m1 with
      | (None, m2) => (Crashed, m2)
      | (Some _, m2) =>
          let (proceed, m3) := ask_line H proceed_prompt m2 in
          if String.eqb (PyStr.lower proceed) "y"
          then run_confirmed H folder_id custom st m3
          else (NotProceeding, m3)
      end
  end.

(** [run] from [# Get custom name] on, with the folder found and the
    statistics of the analysis. *)
Definition run_operation (H : Host) (folder_id : string) (st : stats)
    (m : Manager) : ending * Manager :=
  let (typed, m1) := ask_line H "Enter custom name for files: " m in
  let custom := strip H typed in
  if String.eqb custom "" then (EmptyName, m1)
  else
    let (dry_run_choice, m2) :=
      ask_line H "Perform dry run first? (recommended) (y/n): " m1 in
    if String.eqb (PyStr.lower dry_run_choice) "y"
    then run_dry H folder_id custom st m2
    else run_confirmed H folder_id custom st m2.

Definition run (H : Host) (m : Manager) : ending * Manager :=
  match select_or_add_account H m with
  | (SystemExit0, m1) => (Exited0, m1)
  | (StillAsking, m1) => (Asking, m1)
  | (Credentials email pw, m1) =>
      match login H email pw m1 with
      | (false, m2) => (LoginFailed, m2)
      | (true, m2) =>
          let (typed, m3) := ask_line H "Enter Mega folder path: " m2 in
          let (files, m4) := fetch H m3 in
          match find_folder (env H) files (strip H typed) (world m4) with
          | (None, w5) => (FolderNotFound, set_world w5 m4)
          | (Some folder, w5) =>
              let (files', m6) := fetch H (set_world w5 m4) in
              match analyze_folder (depth H) files' (fst folder) with
              | None => (Crashed, m6)
              | Some st =>
                  if total_files st =? 0 then (NoFilesFound, m6)
                  else run_operation H (fst folder) st m6
              end
          end
      end
  end.

(** Nothing was destroyed or renamed and no backup file was written
    between two states of the manager. *)
Definition quiet (m m' : Manager) : Prop :=
  remote_trace (world m') = remote_trace (world m)
  /\ disk (world m') = disk (world m).

(** The final confirmation was shown and answered [y] or [Y]. *)
Definition confirmed_at_end (H : Host) (m' : Manager) : Prop :=
  exists k,
    nth_error (prompts (world m')) k = Some final_prompt
    /\ confirms (answers (env H) k) = true.


(** A host on which everything succeeds; the user picks the first saved
    account, accepts it, names the folder [Reports] and the files [doc],
    declines the dry run and confirms. *)
Definition cooperative : Host :=
  {| env := {| remote := fun _ _ => Returned;
               open_w := fun _ _ => Returned;
               now := fun _ => noon;
               answers := fun k =>
                 match k with
                 | 0 => "1"
                 | 1 => "y"
                 | 2 => "Reports"
                 | 3 => "doc"
                 | 4 => "n"
                 | _ => "Y"
                 end |};
     get_files := fun _ => sample;
     mega_login := fun _ _ => Returned;
     config_open_w := fun _ => Returned;
     int_of := fun s => if String.eqb s "1" then Some 1%Z else None;
     strip := fun s => s;
     long_stamp := fun _ => "2024-01-01 12:00:00";
     duration_text := fun _ _ => "0.00";
     depth := 10;
     patience := 3 |}.

(** The same host with a login that is refused. *)
Definition refusing : Host :=
  {| env := env cooperative;
     get_files := get_files cooperative;
     mega_login := fun _ _ => Raised "bad password";
     config_open_w := config_open_w cooperative;
     int_of := int_of cooperative;
     strip := strip cooperative;
     long_stamp := long_stamp cooperative;
     duration_text := duration_text cooperative;
     depth := depth cooperative;
     patience := patience cooperative |}.

Definition saved : list (string * session) :=
  [("ann@example.org", {| password := "s3cret"; last_used := "2023-12-31 08:00:00" |})].

Definition manager0 : Manager := init (Some (Parsed saved)) start.

Definition select_prompt : string := (nl ++ "Select option: ")%string.

(** The world differs at most by prompts shown. *)
Definition only_prompted (w w' : World) : Prop :=
  remote_trace w' = remote_trace w /\ log w' = log w /\ disk w' = disk w
  /\ clock_reads w' = clock_reads w
  /\ exists extra, prompts w' = prompts w ++ extra.

(** What the result of a selection says about the prompts. *)
Definition selection_justified (H : Host) (s : list (string * session))
    (w w' : World) (r : selection) (turns : nat) : Prop :=
  match r with
  | Credentials email pw =>
      (exists se k,
          session_of email s = Some se /\ pw = password se
          /\ nth_error (prompts w') k = Some (use_account_prompt email)
          /\ confirms (answers (env H) k) = true)
      \/ (exists k,
            nth_error (prompts w') k = Some "Enter Mega email: "
            /\ nth_error (prompts w') (S k) = Some "Enter Mega password: "
            /\ email = strip H (answers (env H) k)
            /\ pw = answers (env H) (S k))
  | SystemExit0 =>
      exists k,
        nth_error (prompts w') k = Some select_prompt
        /\ int_of H (strip H (answers (env H) k)) = Some 0%Z
  | StillAsking => List.length (prompts w) + turns <= List.length (prompts w')
  end.


(** An ending by an early return or before the operation. *)
Definition early (e : ending) : bool :=
  match e with
  | Summarized _ | Crashed => false
  | _ => true
  end.

(** The gate of [run]: files are destroyed or renamed, or a backup is
    written, only after the final confirmation. *)
Definition gated (H : Host) (m : Manager) (r : ending * Manager) : Prop :=
  (quiet m (snd r) \/ confirmed_at_end H (snd r))
  /\ (early (fst r) = true -> quiet m (snd r))
  /\ (forall n, fst r = Summarized n -> confirmed_at_end H (snd r)).

(** * Properties *)

(** ** The walk and its accumulator *)

Lemma scan_gather rec rec' parent_id items :
  (forall i acc, rec i acc = option_map (app acc) (rec' i)) ->
  forall acc, scan rec parent_id items acc
              = option_map (app acc) (gather rec' parent_id items).
Proof.
  intros Hrec. induction items as [|[fid fdata] rest IH]; intros acc; simpl.
  - now rewrite app_nil_r.
  - destruct (String.eqb (node_p fdata) parent_id); [|apply IH].
    destruct (node_t fdata =? 0)%Z.
    + rewrite IH. destruct (gather rec' parent_id rest); simpl; [|reflexivity].
      now rewrite <- app_assoc.
    + destruct (node_t fdata =? 1)%Z; [|apply IH].
      rewrite Hrec. destruct (rec' fid) as [sub|]; simpl; [|reflexivity].
      rewrite IH. destruct (gather rec' parent_id rest); simpl; [|reflexivity].
      now rewrite app_assoc.
Qed.

Lemma traverse_collect fuel files :
  forall parent_id acc,
    traverse fuel files parent_id acc
    = option_map (app acc) (collect fuel files parent_id).
Proof.
  induction fuel as [|k IH]; intros parent_id acc; simpl; [reflexivity|].
  apply scan_gather. intros i acc'. apply IH.
Qed.

Lemma get_all_files_collect fuel files root :
  get_all_files_recursive fuel files root = collect fuel files root.
Proof.
  unfold get_all_files_recursive. rewrite traverse_collect.
  now destruct (collect fuel files root).
Qed.

(** ** Listings as dictionaries *)

Lemma nodupb_NoDup l : nodupb l = true -> NoDup l.
Proof.
  induction l as [|x l IH]; simpl; intros H; constructor.
  - apply andb_prop in H. destruct H as [H _].
    intros Hin. apply negb_true_iff in H.
    assert (existsb (String.eqb x) l = true) as E.
    { apply existsb_exists. exists x. split; [assumption|apply String.eqb_refl]. }
    congruence.
  - apply IH. now apply andb_prop in H.
Qed.

Lemma lookup_In i files nd : lookup i files = Some nd -> In (i, nd) files.
Proof.
  induction files as [|[k v] rest IH]; simpl; [discriminate|].
  destruct (String.eqb_spec k i) as [->|_].
  - intros [= ->]. now left.
  - intros H. right. now apply IH.
Qed.

Lemma In_lookup i files nd :
  NoDup (map fst files) -> In (i, nd) files -> lookup i files = Some nd.
Proof.
  induction files as [|[k v] rest IH]; simpl; [contradiction|].
  intros Hnd [[= -> ->]|Hin].
  - now rewrite String.eqb_refl.
  - inversion Hnd as [|? ? Hk Hrest]; subst.
    destruct (String.eqb_spec k i) as [->|_].
    + exfalso. apply Hk. apply (in_map fst) in Hin. exact Hin.
    + now apply IH.
Qed.

(** ** Parent chains *)

Lemma chain_stays_length k files :
  forall i, chain_stays k files i = true ->
            List.length (parent_chain k files i) = k.
Proof.
  induction k as [|k IH]; intros i; simpl; [reflexivity|].
  destruct (lookup i files) as [nd|]; [|discriminate].
  intros H. simpl. f_equal. now apply IH.
Qed.

Lemma parent_chain_incl k files :
  forall i, incl (parent_chain k files i) (map fst files).
Proof.
  induction k as [|k IH]; intros i; simpl; [apply incl_nil_l|].
  destruct (lookup i files) as [nd|] eqn:E; [|apply incl_nil_l].
  apply incl_cons; [|apply IH].
  apply lookup_In in E. now apply (in_map fst) in E.
Qed.

Lemma acyclic_bounded files : acyclic files = true -> bounded files.
Proof.
  intros Hac i. destruct (chain_stays _ files i) eqn:Hs; [exfalso|reflexivity].
  assert (exists nd, lookup i files = Some nd) as [nd Hl].
  { simpl in Hs. destruct (lookup i files) as [nd|]; [now exists nd|discriminate]. }
  unfold acyclic in Hac. rewrite forallb_forall in Hac.
  specialize (Hac _ (lookup_In _ _ _ Hl)). simpl fst in Hac.
  apply nodupb_NoDup in Hac.
  pose proof (NoDup_incl_length Hac (parent_chain_incl _ files i)) as Hlen.
  rewrite (chain_stays_length _ _ _ Hs), length_map in Hlen. lia.
Qed.

Lemma chain_stays_le k files :
  forall j i, j <= k -> chain_stays k files i = true ->
              chain_stays j files i = true.
Proof.
  induction k as [|k IH]; intros j i Hj H.
  - now replace j with 0 by lia.
  - destruct j as [|j]; [reflexivity|]. simpl in *.
    destruct (lookup i files); [|discriminate].
    apply IH; [lia|assumption].
Qed.

(** A set of ids closed under the parent link never leaves the listing. *)
Lemma closed_chain_stays files (C : string -> Prop) :
  (forall x, C x -> exists nd, lookup x files = Some nd /\ C (node_p nd)) ->
  forall k x, C x -> chain_stays k files x = true.
Proof.
  intros Hc. induction k as [|k IH]; intros x Hx; simpl; [reflexivity|].
  destruct (Hc x Hx) as (nd & -> & Hp). now apply IH.
Qed.

(** ** Termination of the walk *)

Lemma gather_defined rec parent_id items :
  (forall fid fdata, In (fid, fdata) items -> node_p fdata = parent_id ->
                     node_t fdata = 1%Z -> exists l, rec fid = Some l) ->
  exists l, gather rec parent_id items = Some l.
Proof.
  induction items as [|[fid fdata] rest IH]; intros H; simpl; [now exists []|].
  destruct IH as [l Hl]. { intros; eapply H; eauto; now right. }
  destruct (String.eqb_spec (node_p fdata) parent_id) as [Hp|_]; [|now exists l].
  destruct (node_t fdata =? 0)%Z; [rewrite Hl; simpl; eauto|].
  destruct (Z.eqb_spec (node_t fdata) 1) as [Ht|_]; [|now exists l].
  destruct (H fid fdata (or_introl eq_refl) Hp Ht) as [sub ->].
  rewrite Hl. simpl. eauto.
Qed.

Lemma collect_defined files :
  NoDup (map fst files) -> bounded files ->
  forall fuel k i, chain_stays k files i = true ->
                   List.length files < k + fuel ->
                   exists l, collect fuel files i = Some l.
Proof.
  intros Hu Hac.
  induction fuel as [|fuel IH]; intros k i Hs Hk.
  - exfalso. pose proof (Hac i) as Hb.
    rewrite (chain_stays_le k files (S (List.length files)) i) in Hb;
      [discriminate|lia|assumption].
  - simpl. apply gather_defined. intros fid fdata Hin Hp _.
    apply (IH (S k)); [|lia]. simpl.
    rewrite (In_lookup _ _ _ Hu Hin), Hp. exact Hs.
Qed.

Lemma gather_mono rec rec' parent_id items :
  (forall i l, rec i = Some l -> rec' i = Some l) ->
  forall l, gather rec parent_id items = Some l ->
            gather rec' parent_id items = Some l.
Proof.
  intros Hr. induction items as [|[fid fdata] rest IH]; simpl; [auto|].
  destruct (String.eqb (node_p fdata) parent_id); [|exact IH].
  destruct (node_t fdata =? 0)%Z.
  - intros l. destruct (gather rec parent_id rest) as [g|]; [|discriminate].
    now rewrite (IH g eq_refl).
  - destruct (node_t fdata =? 1)%Z; [|exact IH].
    intros l. destruct (rec fid) as [sub|] eqn:E; [|discriminate].
    rewrite (Hr _ _ E).
    destruct (gather rec parent_id rest) as [g|]; [|discriminate].
    now rewrite (IH g eq_refl).
Qed.

Lemma collect_S fuel files :
  forall i l, collect fuel files i = Some l -> collect (S fuel) files i = Some l.
Proof.
  induction fuel as [|k IH]; intros i l; [discriminate|].
  intros H. change (gather (collect (S k) files) i files = Some l).
  simpl in H. revert H. apply gather_mono. exact IH.
Qed.

Lemma collect_more fuel fuel' files i l :
  fuel <= fuel' -> collect fuel files i = Some l -> collect fuel' files i = Some l.
Proof.
  induction 1 as [|m _ IH]; [auto|]. intros H. apply collect_S. auto.
Qed.

Lemma collect_agree fuel fuel' files i l l' :
  collect fuel files i = Some l -> collect fuel' files i = Some l' -> l = l'.
Proof.
  intros H H'. destruct (Nat.le_ge_cases fuel fuel') as [Hle|Hle].
  - rewrite (collect_more _ _ _ _ _ Hle H) in H'. congruence.
  - rewrite (collect_more _ _ _ _ _ Hle H') in H. congruence.
Qed.

(** ** What one pass of the loop contributes *)

Lemma gather_In rec root items :
  forall l r, gather rec root items = Some l -> In r l ->
  exists fid fdata,
    In (fid, fdata) items /\ node_p fdata = root /\
    ((node_t fdata = 0%Z /\ r = file_record fid fdata) \/
     (node_t fdata = 1%Z /\ exists sub, rec fid = Some sub /\ In r sub)).
Proof.
  induction items as [|[fid fdata] rest IH]; simpl; intros l r H Hr.
  - injection H as <-. contradiction.
  - assert (forall l', gather rec root rest = Some l' -> In r l' ->
              exists fid0 fdata0,
                (( fid, fdata) = (fid0, fdata0) \/ In (fid0, fdata0) rest) /\
                node_p fdata0 = root /\
                ((node_t fdata0 = 0%Z /\ r = file_record fid0 fdata0) \/
                 (node_t fdata0 = 1%Z /\
                  exists sub, rec fid0 = Some sub /\ In r sub))) as Hrest.
    { intros l' Hl' Hin. destruct (IH _ _ Hl' Hin) as (f0 & d0 & Hi & Hd).
      exists f0, d0. split; [now right|exact Hd]. }
    destruct (String.eqb_spec (node_p fdata) root) as [Hp|_]; [|eauto].
    destruct (Z.eqb_spec (node_t fdata) 0) as [Ht|_].
    + destruct (gather rec root rest) as [g|]; [|discriminate].
      injection H as <-. destruct Hr as [<-|Hr]; [|eauto].
      exists fid, fdata. auto.
    + destruct (Z.eqb_spec (node_t fdata) 1) as [Ht1|_]; [|eauto].
      destruct (rec fid) as [sub|] eqn:E; [|discriminate].
      destruct (gather rec root rest) as [g|]; [|discriminate].
      injection H as <-. apply in_app_or in Hr. destruct Hr as [Hr|Hr]; [|eauto].
      exists fid, fdata. split; [now left|]. split; [assumption|].
      right. eauto.
Qed.

Lemma gather_file rec root items :
  forall l fid fdata,
    gather rec root items = Some l -> In (fid, fdata) items ->
    node_p fdata = root -> node_t fdata = 0%Z ->
    In (file_record fid fdata) l.
Proof.
  induction items as [|[f d] rest IH]; simpl; intros l fid fdata H Hin Hp Ht;
    [contradiction|].
  destruct Hin as [[= -> ->]|Hin].
  - rewrite Hp, String.eqb_refl, Ht in H. simpl in H.
    destruct (gather rec root rest); [|discriminate].
    injection H as <-. now left.
  - destruct (String.eqb (node_p d) root); [|eauto].
    destruct (node_t d =? 0)%Z.
    + destruct (gather rec root rest) as [g|]; [|discriminate].
      injection H as <-. right. eauto.
    + destruct (node_t d =? 1)%Z; [|eauto].
      destruct (rec f); [|discriminate].
      destruct (gather rec root rest) as [g|]; [|discriminate].
      injection H as <-. apply in_or_app. right. eauto.
Qed.

Lemma gather_folder rec root items :
  forall l fid fdata,
    gather rec root items = Some l -> In (fid, fdata) items ->
    node_p fdata = root -> node_t fdata = 1%Z ->
    exists sub, rec fid = Some sub /\ incl sub l.
Proof.
  induction items as [|[f d] rest IH]; simpl; intros l fid fdata H Hin Hp Ht;
    [contradiction|].
  destruct Hin as [[= -> ->]|Hin].
  - rewrite Hp, String.eqb_refl, Ht in H. simpl in H.
    destruct (rec fid) as [sub|]; [|discriminate].
    destruct (gather rec root rest); [|discriminate].
    injection H as <-. exists sub. split; [reflexivity|apply incl_appl, incl_refl].
  - destruct (String.eqb (node_p d) root); [|eauto].
    destruct (node_t d =? 0)%Z.
    + destruct (gather rec root rest) as [g|]; [|discriminate].
      injection H as <-. destruct (IH g fid fdata eq_refl Hin Hp Ht) as (s & ? & ?).
      exists s. split; [assumption|now apply incl_tl].
    + destruct (node_t d =? 1)%Z; [|eauto].
      destruct (rec f); [|discriminate].
      destruct (gather rec root rest) as [g|]; [|discriminate].
      injection H as <-. destruct (IH g fid fdata eq_refl Hin Hp Ht) as (s & ? & ?).
      exists s. split; [assumption|now apply incl_appr].
Qed.

(** ** Reaching the root through folders *)

Lemma reaches_S k files root :
  forall i, reaches k files root i = true -> reaches (S k) files root i = true.
Proof.
  induction k as [|k IH]; intros i; [discriminate|].
  intros H. simpl in H. change (reaches (S (S k)) files root i)
    with (match lookup i files with
          | None => false
          | Some nd => String.eqb (node_p nd) root
                       || (is_folder files (node_p nd)
                           && reaches (S k) files root (node_p nd))
          end).
  destruct (lookup i files) as [nd|]; [|discriminate].
  apply orb_true_iff in H. apply orb_true_iff. destruct H as [H|H]; [now left|].
  right. apply andb_true_iff in H. destruct H as [Hf H].
  apply andb_true_iff. split; [assumption|now apply IH].
Qed.

Lemma reaches_le k k' files root i :
  k <= k' -> reaches k files root i = true -> reaches k' files root i = true.
Proof. induction 1; [auto|]. intros. apply reaches_S. auto. Qed.

Lemma reaches_within k files root :
  forall d i, reaches k files root i = true ->
              chain_stays (S d) files i = false ->
              reaches d files root i = true.
Proof.
  induction k as [|k IH]; intros d i H Hs; [discriminate|].
  simpl in H, Hs. destruct (lookup i files) as [nd|] eqn:E; [|discriminate].
  destruct d as [|d]; [discriminate|]. simpl. rewrite E.
  apply orb_true_iff in H. apply orb_true_iff. destruct H as [H|H]; [now left|].
  right. apply andb_true_iff in H. destruct H as [Hf H].
  apply andb_true_iff. split; [assumption|]. now apply IH.
Qed.

Lemma reaches_extend files root j jd :
  lookup j files = Some jd -> node_t jd = 1%Z -> node_p jd = root ->
  forall k i, reaches k files j i = true -> reaches (S k) files root i = true.
Proof.
  intros Hj Ht Hp. induction k as [|k IH]; intros i H; [discriminate|].
  simpl in H.
  change (reaches (S (S k)) files root i)
    with (match lookup i files with
          | None => false
          | Some nd => String.eqb (node_p nd) root
                       || (is_folder files (node_p nd)
                           && reaches (S k) files root (node_p nd))
          end).
  destruct (lookup i files) as [nd|]; [|discriminate].
  apply orb_true_iff. right.
  apply orb_true_iff in H. destruct H as [H|H].
  - apply String.eqb_eq in H. rewrite H. unfold is_folder. rewrite Hj.
    simpl. rewrite Hj, Hp, String.eqb_refl, Ht. reflexivity.
  - apply andb_true_iff in H. destruct H as [Hf H].
    apply andb_true_iff. split; [assumption|now apply IH].
Qed.

(** The parent chain is one path: two ids it arrives at are one above the
    other. *)
Lemma reaches_linear files j j' :
  forall k k' i,
    reaches k files j i = true -> reaches k' files j' i = true ->
    j = j' \/ (exists m, reaches m files j' j = true)
    \/ (exists m, reaches m files j j' = true).
Proof.
  induction k as [|k IH]; intros k' i H H'; [discriminate|].
  destruct k' as [|k']; [discriminate|]. simpl in H, H'.
  destruct (lookup i files) as [nd|]; [|discriminate].
  apply orb_true_iff in H. apply orb_true_iff in H'.
  destruct H as [H|H], H' as [H'|H'].
  - apply String.eqb_eq in H, H'. left. congruence.
  - apply String.eqb_eq in H. apply andb_true_iff in H'. destruct H' as [_ H'].
    right. left. exists k'. now rewrite <- H.
  - apply String.eqb_eq in H'. apply andb_true_iff in H. destruct H as [_ H].
    right. right. exists k. now rewrite <- H'.
  - apply andb_true_iff in H. apply andb_true_iff in H'.
    destruct H as [_ H], H' as [_ H']. eapply IH; eauto.
Qed.

Lemma reaches_lookup k files root i :
  reaches k files root i = true -> exists nd, lookup i files = Some nd.
Proof.
  destruct k; [discriminate|]. simpl.
  destruct (lookup i files) as [nd|]; [eauto|discriminate].
Qed.

Lemma no_self_parent files y yd :
  bounded files -> lookup y files = Some yd -> node_p yd <> y.
Proof.
  intros Hb Hy Hp.
  assert (chain_stays (S (List.length files)) files y = true) as Hs.
  { apply (closed_chain_stays files (fun x => x = y)); [|reflexivity].
    intros x ->. exists yd. auto. }
  rewrite Hb in Hs. discriminate.
Qed.

Lemma no_loop files y yd k :
  bounded files -> lookup y files = Some yd ->
  reaches k files y (node_p yd) = false.
Proof.
  intros Hb Hy. destruct (reaches k files y (node_p yd)) eqn:Hr; [|reflexivity].
  exfalso.
  assert (chain_stays (S (List.length files)) files y = true) as Hs.
  { apply (closed_chain_stays files
             (fun x => x = y \/ exists m, reaches m files y x = true));
      [|now left].
    intros x [->|[m Hm]].
    - exists yd. split; [assumption|]. right. eauto.
    - destruct m as [|m]; [discriminate|]. simpl in Hm.
      destruct (lookup x files) as [xd|]; [|discriminate].
      exists xd. split; [reflexivity|].
      apply orb_true_iff in Hm. destruct Hm as [Hm|Hm].
      + left. now apply String.eqb_eq.
      + apply andb_true_iff in Hm. right. exists m. tauto. }
  rewrite Hb in Hs. discriminate.
Qed.

(** Two children of one node: neither is below the other. *)
Lemma siblings_apart files root j jd j' jd' m :
  bounded files ->
  lookup j files = Some jd -> node_p jd = root ->
  lookup j' files = Some jd' -> node_p jd' = root ->
  reaches m files j' j = false.
Proof.
  intros Hb Hj Hp Hj' Hp'.
  destruct (reaches m files j' j) eqn:Hr; [exfalso|reflexivity].
  destruct m as [|m]; [discriminate|]. simpl in Hr. rewrite Hj in Hr.
  apply orb_true_iff in Hr. destruct Hr as [Hr|Hr].
  - apply String.eqb_eq in Hr. apply (no_self_parent files j' jd' Hb Hj').
    congruence.
  - apply andb_true_iff in Hr. destruct Hr as [_ Hr].
    rewrite Hp, <- Hp' in Hr. rewrite (no_loop files j' jd' m Hb Hj') in Hr.
    discriminate.
Qed.

(** ** The walk returns the file nodes below the root, each once *)

Lemma collect_sound files :
  NoDup (map fst files) ->
  forall fuel root l r,
    collect fuel files root = Some l -> In r l ->
    exists fid fdata,
      In (fid, fdata) files /\ node_t fdata = 0%Z /\
      r = file_record fid fdata /\ reaches fuel files root fid = true.
Proof.
  intros Hu. induction fuel as [|k IH]; intros root l r H Hr; [discriminate|].
  simpl in H.
  destruct (gather_In _ _ _ _ _ H Hr) as (fid & fdata & Hin & Hp & [[Ht ->]|[Ht Hs]]).
  - exists fid, fdata. repeat split; try assumption.
    simpl. rewrite (In_lookup _ _ _ Hu Hin), Hp, String.eqb_refl. reflexivity.
  - destruct Hs as (sub & Hsub & Hrs).
    destruct (IH _ _ _ Hsub Hrs) as (f & d & Hfin & Hft & -> & Hreach).
    exists f, d. repeat split; try assumption.
    apply (reaches_extend files root fid fdata); auto using In_lookup.
Qed.

Lemma collect_descends files root :
  forall k q, reaches k files root q = true -> is_folder files q = true ->
  forall fuel l, collect fuel files root = Some l ->
  exists fuel2 l2, collect fuel2 files q = Some l2 /\ incl l2 l.
Proof.
  assert (forall parent q qd fuel l,
             lookup q files = Some qd -> node_t qd = 1%Z ->
             node_p qd = parent -> collect fuel files parent = Some l ->
             exists fuel2 l2, collect fuel2 files q = Some l2 /\ incl l2 l)
    as Hdirect.
  { intros parent q qd fuel l Hq Ht Hp H. destruct fuel as [|f]; [discriminate|].
    simpl in H.
    destruct (gather_folder _ _ _ _ _ _ H (lookup_In _ _ _ Hq) Hp Ht)
      as (sub & Hsub & Hincl).
    exists f, sub. auto. }
  induction k as [|k IH]; intros q Hr Hf fuel l H; [discriminate|].
  simpl in Hr. unfold is_folder in Hf.
  destruct (lookup q files) as [qd|] eqn:Hq; [|discriminate].
  apply Z.eqb_eq in Hf.
  apply orb_true_iff in Hr. destruct Hr as [Hr|Hr].
  - apply String.eqb_eq in Hr. eapply Hdirect; eauto.
  - apply andb_true_iff in Hr. destruct Hr as [Hpf Hr].
    destruct (IH _ Hr Hpf _ _ H) as (f2 & l2 & H2 & Hi2).
    destruct (Hdirect _ _ _ _ _ Hq Hf eq_refl H2) as (f3 & l3 & H3 & Hi3).
    exists f3, l3. split; [assumption|]. eapply incl_tran; eauto.
Qed.

Lemma collect_complete files root :
  forall k fid fdata fuel l,
    lookup fid files = Some fdata -> node_t fdata = 0%Z ->
    reaches k files root fid = true ->
    collect fuel files root = Some l ->
    In (file_record fid fdata) l.
Proof.
  intros k fid fdata fuel l Hl Ht Hr H.
  destruct k as [|k]; [discriminate|]. simpl in Hr. rewrite Hl in Hr.
  apply orb_true_iff in Hr. destruct Hr as [Hr|Hr].
  - apply String.eqb_eq in Hr. destruct fuel as [|f]; [discriminate|].
    simpl in H. eapply gather_file; eauto using lookup_In.
  - apply andb_true_iff in Hr. destruct Hr as [Hf Hr].
    destruct (collect_descends files root _ _ Hr Hf _ _ H) as (f2 & l2 & H2 & Hi).
    apply Hi. destruct f2 as [|f2]; [discriminate|]. simpl in H2.
    eapply gather_file; eauto using lookup_In.
Qed.

Lemma gather_NoDup rec root items (Q : string -> string -> Prop) :
  NoDup (map fst items) ->
  (forall fid fdata sub, In (fid, fdata) items -> rec fid = Some sub ->
                         NoDup (ids sub)) ->
  (forall fid fdata sub x,
      In (fid, fdata) items -> node_p fdata = root -> node_t fdata = 1%Z ->
      rec fid = Some sub -> In x (ids sub) -> Q fid x) ->
  (forall fid fdata fid' fdata',
      In (fid, fdata) items -> node_p fdata = root ->
      In (fid', fdata') items -> node_p fdata' = root -> ~ Q fid fid') ->
  (forall fid fdata fid' fdata' x,
      In (fid, fdata) items -> node_p fdata = root ->
      In (fid', fdata') items -> node_p fdata' = root ->
      Q fid x -> Q fid' x -> fid = fid') ->
  forall l, gather rec root items = Some l -> NoDup (ids l).
Proof.
  induction items as [|[fid fdata] rest IH]; intros Hu Hsub HQ Hfile Hsep l H.
  - injection H as <-. constructor.
  - simpl in Hu. inversion Hu as [|? ? Hk Hu']; subst.
    assert (forall g, gather rec root rest = Some g -> NoDup (ids g)) as IH'.
    { apply IH; auto.
      - intros f d s Hin Hr. apply (Hsub f d s); [now right|assumption].
      - intros f d s x Hin Hp Ht Hr Hx.
        apply (HQ f d s x); [now right|assumption..].
      - intros f d f' d' Hin Hp Hin' Hp'.
        apply (Hfile f d f' d'); [now right|assumption|now right|assumption].
      - intros f d f' d' x Hin Hp Hin' Hp'.
        apply (Hsep f d f' d' x); [now right|assumption|now right|assumption]. }
    (* an id of the rest is a key of the rest or below a folder of the rest *)
    assert (forall g x, gather rec root rest = Some g -> In x (ids g) ->
              exists f d, In (f, d) rest /\ node_p d = root /\
                          (x = f \/ Q f x)) as Hrest.
    { intros g x Hg Hx. unfold ids in Hx. apply in_map_iff in Hx.
      destruct Hx as (r & <- & Hr).
      destruct (gather_In _ _ _ _ _ Hg Hr) as (f & d & Hin & Hp & [[_ ->]|[Ht Hs]]).
      - exists f, d. auto.
      - destruct Hs as (sub & Hs & Hrs). exists f, d. repeat split; auto.
        right. eapply HQ; eauto; [now right|]. unfold ids. now apply in_map. }
    simpl in H.
    destruct (String.eqb_spec (node_p fdata) root) as [Hp|_]; [|auto].
    destruct (Z.eqb_spec (node_t fdata) 0) as [Ht|_].
    + destruct (gather rec root rest) as [g|] eqn:Hg; [|discriminate].
      injection H as <-. simpl. constructor; [|auto].
      intros Hx. destruct (Hrest _ _ eq_refl Hx) as (f & d & Hin & Hpd & [->|Hq]).
      * apply Hk. now apply (in_map fst) in Hin.
      * eapply (Hfile f d fid fdata); eauto; [now right|now left].
    + destruct (Z.eqb_spec (node_t fdata) 1) as [Ht1|_]; [|auto].
      destruct (rec fid) as [sub|] eqn:E; [|discriminate].
      destruct (gather rec root rest) as [g|] eqn:Hg; [|discriminate].
      injection H as <-. unfold ids. rewrite map_app. apply NoDup_app.
      * eapply Hsub; eauto. now left.
      * now apply IH'.
      * intros x Hx1 Hx2.
        assert (Q fid x) as Hqx by (eapply HQ; eauto; now left).
        destruct (Hrest _ _ eq_refl Hx2) as (f & d & Hin & Hpd & [->|Hq]).
        -- eapply (Hfile fid fdata f d); eauto; [now left|now right].
        -- assert (fid = f) as ->.
           { eapply (Hsep fid fdata f d); eauto; [now left|now right]. }
           apply Hk. now apply (in_map fst) in Hin.
Qed.

Lemma collect_NoDup files :
  NoDup (map fst files) -> bounded files ->
  forall fuel root l, collect fuel files root = Some l -> NoDup (ids l).
Proof.
  intros Hu Hb. induction fuel as [|k IH]; intros root l H; [discriminate|].
  simpl in H. revert l H.
  apply (gather_NoDup _ _ _ (fun j x => exists m, reaches m files j x = true));
    [assumption| | | |].
  - intros fid fdata sub _ Hs. eapply IH; eauto.
  - intros fid fdata sub x _ _ _ Hs Hx. unfold ids in Hx.
    apply in_map_iff in Hx. destruct Hx as (r & <- & Hr).
    destruct (collect_sound files Hu _ _ _ _ Hs Hr) as (f & d & _ & _ & -> & Hre).
    exists k. exact Hre.
  - intros fid fdata fid' fdata' Hin Hp Hin' Hp' [m Hm].
    rewrite (siblings_apart files root fid' fdata' fid fdata m) in Hm;
      auto using In_lookup. discriminate.
  - intros fid fdata fid' fdata' x Hin Hp Hin' Hp' [m Hm] [m' Hm'].
    destruct (reaches_linear files fid fid' _ _ _ Hm Hm') as [E|[[n Hn]|[n Hn]]];
      [assumption| |].
    + rewrite (siblings_apart files root fid fdata fid' fdata' n) in Hn;
        auto using In_lookup. discriminate.
    + rewrite (siblings_apart files root fid' fdata' fid fdata n) in Hn;
        auto using In_lookup. discriminate.
Qed.

Lemma NoDup_keys_filter (f : string * node -> bool) (l : listing) :
  NoDup (map fst l) -> NoDup (map fst (filter f l)).
Proof.
  induction l as [|e l IH]; simpl; intros H; [constructor|].
  inversion H as [|? ? Hk Hl]; subst. destruct (f e); simpl; [|auto].
  constructor; [|auto]. intros Hin. apply Hk.
  apply in_map_iff in Hin. destruct Hin as (x & Hx & Hf).
  apply filter_In in Hf. apply in_map_iff. exists x. tauto.
Qed.

(** The characterisation of the result, for any fuel that is enough. *)
Lemma collect_exact files root fuel l :
  NoDup (map fst files) -> bounded files ->
  collect fuel files root = Some l ->
  NoDup l /\
  forall r, In r l <->
            exists fid fdata,
              In (fid, fdata) files /\ node_t fdata = 0%Z /\
              (exists k, reaches k files root fid = true) /\
              r = file_record fid fdata.
Proof.
  intros Hu Hb H. split.
  - apply (NoDup_map_inv file_id). exact (collect_NoDup files Hu Hb _ _ _ H).
  - intros r. split.
    + intros Hr.
      destruct (collect_sound files Hu _ _ _ _ H Hr) as (f & d & ? & ? & ? & ?).
      exists f, d. eauto.
    + intros (f & d & Hin & Ht & [k Hk] & ->).
      eapply collect_complete; eauto using In_lookup.
Qed.

Lemma files_below_In files root r :
  bounded files ->
  In r (files_below files root) <->
  exists fid fdata,
    In (fid, fdata) files /\ node_t fdata = 0%Z /\
    (exists k, reaches k files root fid = true) /\ r = file_record fid fdata.
Proof.
  intros Hb. unfold files_below. rewrite in_map_iff. split.
  - intros ([f d] & <- & Hf). apply filter_In in Hf. destruct Hf as [Hin Hc].
    apply andb_true_iff in Hc. destruct Hc as [Ht Hr]. simpl in *.
    exists f, d. apply Z.eqb_eq in Ht. eauto 6.
  - intros (f & d & Hin & Ht & [k Hk] & ->). exists (f, d). split; [reflexivity|].
    apply filter_In. split; [assumption|]. simpl.
    rewrite Ht. simpl. eapply reaches_within; eauto.
Qed.

Lemma files_below_NoDup files root :
  NoDup (map fst files) -> NoDup (files_below files root).
Proof.
  intros Hu. apply (NoDup_map_inv file_id). unfold files_below.
  rewrite map_map. simpl. now apply NoDup_keys_filter.
Qed.

Lemma collect_files_below files root fuel l :
  NoDup (map fst files) -> bounded files ->
  collect fuel files root = Some l ->
  Permutation l (files_below files root).
Proof.
  intros Hu Hb H. destruct (collect_exact files root fuel l Hu Hb H) as [Hn Hc].
  apply NoDup_Permutation; [assumption|now apply files_below_NoDup|].
  intros r. rewrite Hc, files_below_In by assumption. reflexivity.
Qed.

(** ** The order of the listing *)

Lemma lookup_perm files files' i :
  NoDup (map fst files) -> Permutation files files' ->
  lookup i files' = lookup i files.
Proof.
  intros Hu Hp.
  assert (NoDup (map fst files')) as Hu'.
  { eapply Permutation_NoDup; [|exact Hu]. now apply Permutation_map. }
  destruct (lookup i files) as [nd|] eqn:E.
  - apply In_lookup; [assumption|]. eapply Permutation_in; eauto using lookup_In.
  - destruct (lookup i files') as [nd'|] eqn:E'; [|reflexivity].
    apply lookup_In in E'. apply Permutation_sym in Hp.
    apply (Permutation_in _ Hp) in E'. apply (In_lookup _ _ _ Hu) in E'.
    congruence.
Qed.

Lemma chain_stays_ext files files' :
  (forall i, lookup i files' = lookup i files) ->
  forall k i, chain_stays k files' i = chain_stays k files i.
Proof.
  intros He. induction k as [|k IH]; intros i; simpl; [reflexivity|].
  rewrite He. destruct (lookup i files); auto.
Qed.

Lemma reaches_ext files files' root :
  (forall i, lookup i files' = lookup i files) ->
  forall k i, reaches k files' root i = reaches k files root i.
Proof.
  intros He. induction k as [|k IH]; intros i; simpl; [reflexivity|].
  rewrite He. destruct (lookup i files) as [nd|]; [|reflexivity].
  unfold is_folder. now rewrite He, IH.
Qed.

Lemma bounded_perm files files' :
  NoDup (map fst files) -> Permutation files files' ->
  bounded files -> bounded files'.
Proof.
  intros Hu Hp Hb i.
  rewrite (chain_stays_ext files files') by (intros; now apply lookup_perm).
  rewrite <- (Permutation_length Hp). apply Hb.
Qed.

Lemma collect_total files root :
  NoDup (map fst files) -> bounded files ->
  exists l, forall fuel, List.length files < fuel ->
                         collect fuel files root = Some l.
Proof.
  intros Hu Hb.
  destruct (collect_defined files Hu Hb (S (List.length files)) 0 root eq_refl)
    as [l Hl]; [lia|].
  exists l. intros fuel Hf. eapply collect_more; [|exact Hl]. lia.
Qed.

Example walk_sample :
  map file_name
      (match get_all_files_recursive 3 sample "F" with Some l => l | None => [] end)
  = ["b.txt"; "a.txt"; "x.pdf"; "old.TXT"].
Proof. reflexivity. Qed.

Lemma looped_never_returns fuel :
  collect fuel looped "R" = None /\ collect fuel looped "X" = None.
Proof.
  induction fuel as [|k [IHr IHx]]; [split; reflexivity|].
  split; simpl; [rewrite IHx|rewrite IHr]; reflexivity.
Qed.

(** C8.  When the parent relation of the listing is acyclic, the walk from
    any root id returns, with one result for every recursion depth beyond
    the number of nodes.  The walk detects no cycle: on the listing
    [looped], whose two folders are each other's parent, it returns for no
    depth, so the precondition cannot be dropped. *)
Theorem traverse_terminates_when_acyclic :
  (forall files root,
      unique_ids files = true -> acyclic files = true ->
      exists l, forall fuel, List.length files < fuel ->
                             traverse fuel files root [] = Some l)
  /\ (unique_ids looped = true /\ acyclic looped = false /\
      forall fuel, traverse fuel looped "R" [] = None).
Proof.
  split.
  - intros files root Hu Hac.
    destruct (collect_total files root (nodupb_NoDup _ Hu)
                (acyclic_bounded _ Hac)) as [l Hl].
    exists l. intros fuel Hf.
    change (get_all_files_recursive fuel files root = Some l).
    rewrite get_all_files_collect. now apply Hl.
  - repeat split. intros fuel.
    change (get_all_files_recursive fuel looped "R" = None).
    rewrite get_all_files_collect. apply looped_never_returns.
Qed.

Lemma traverse_terminates_witness :
  unique_ids sample = true /\ acyclic sample = true /\
  exists l, forall fuel, List.length sample < fuel ->
                         traverse fuel sample "F" [] = Some l.
Proof.
  split; [reflexivity|]. split; [reflexivity|].
  apply (proj1 traverse_terminates_when_acyclic sample "F"); reflexivity.
Defined.

(** C2, as amended.  On a listing whose parent relation is acyclic, the
    collection from any root id returns, each once, exactly the type=file
    nodes whose parent chain arrives at the root through type=folder nodes
    only; no other node is in the result; and the files returned for a
    listing in another iteration order are the same up to order, so their
    number is the same. *)
Theorem collect_returns_files_below files root :
  unique_ids files = true -> acyclic files = true ->
  exists l,
    (forall fuel, List.length files < fuel ->
                  get_all_files_recursive fuel files root = Some l)
    /\ (forall fuel l0, get_all_files_recursive fuel files root = Some l0 ->
                        l0 = l)
    /\ Permutation l (files_below files root)
    /\ Forall (fun f => node_t (file_data f) = 0%Z) l
    /\ forall files', Permutation files files' ->
         exists l',
           (forall fuel, List.length files' < fuel ->
                         get_all_files_recursive fuel files' root = Some l')
           /\ Permutation l l' /\ List.length l' = List.length l.
Proof.
  intros Hu Hac. apply nodupb_NoDup in Hu. apply acyclic_bounded in Hac.
  destruct (collect_total files root Hu Hac) as [l Hl].
  pose proof (Hl _ (Nat.lt_succ_diag_r _)) as H0.
  destruct (collect_exact files root _ l Hu Hac H0) as [Hnd Hch].
  exists l. split; [|split; [|split; [|split]]].
  - intros fuel Hf. rewrite get_all_files_collect. now apply Hl.
  - intros fuel l0 H. rewrite get_all_files_collect in H.
    exact (collect_agree _ _ _ _ _ _ H H0).
  - eapply collect_files_below; eauto.
  - apply Forall_forall. intros f Hf. apply Hch in Hf.
    destruct Hf as (i & d & _ & Ht & _ & ->). exact Ht.
  - intros files' Hp.
    assert (NoDup (map fst files')) as Hu'.
    { eapply Permutation_NoDup; [|exact Hu]. now apply Permutation_map. }
    pose proof (bounded_perm _ _ Hu Hp Hac) as Hac'.
    destruct (collect_total files' root Hu' Hac') as [l' Hl'].
    pose proof (Hl' _ (Nat.lt_succ_diag_r _)) as H0'.
    destruct (collect_exact files' root _ l' Hu' Hac' H0') as [Hnd' Hch'].
    assert (Permutation l l') as Hll.
    { apply NoDup_Permutation; [assumption..|]. intros r.
      rewrite Hch, Hch'. split.
      - intros (i & d & Hin & Ht & [k Hk] & ->). exists i, d.
        split; [eapply Permutation_in; eauto|]. split; [assumption|].
        split; [|reflexivity]. exists k.
        rewrite (reaches_ext files files') by (intros; now apply lookup_perm).
        assumption.
      - intros (i & d & Hin & Ht & [k Hk] & ->). exists i, d.
        split; [eapply Permutation_in; [apply Permutation_sym|]; eauto|].
        split; [assumption|]. split; [|reflexivity]. exists k.
        rewrite <- (reaches_ext files files') by (intros; now apply lookup_perm).
        assumption. }
    exists l'. split; [|split].
    + intros fuel Hf. rewrite get_all_files_collect. now apply Hl'.
    + assumption.
    + symmetry. now apply Permutation_length.
Qed.

Lemma collect_returns_files_below_witness :
  unique_ids sample = true /\ acyclic sample = true /\
  exists l,
    (forall fuel, List.length sample < fuel ->
                  get_all_files_recursive fuel sample "F" = Some l)
    /\ (forall fuel l0, get_all_files_recursive fuel sample "F" = Some l0 ->
                        l0 = l)
    /\ Permutation l (files_below sample "F")
    /\ Forall (fun f => node_t (file_data f) = 0%Z) l
    /\ forall files', Permutation sample files' ->
         exists l',
           (forall fuel, List.length files' < fuel ->
                         get_all_files_recursive fuel files' "F" = Some l')
           /\ Permutation l l' /\ List.length l' = List.length l.
Proof.
  split; [reflexivity|]. split; [reflexivity|].
  apply (collect_returns_files_below sample "F"); reflexivity.
Defined.

(** C2 as stated fails twice.  In [versioned] the file [v1] has the file
    [v2] as parent and [v2] has the root [R]: the parent chain of [v1]
    reaches [R], yet no depth makes the walk return [v1].  In [looped] the
    root is in the listing and the walk returns for no depth. *)
Lemma collect_as_stated_fails :
  (In "R" (map fst versioned)
   /\ In ("v1", mk_node "v2" 0 "a.txt") versioned
   /\ ancestor 2 versioned "v1" = Some "R"
   /\ get_all_files_recursive 2 versioned "R"
      = Some [file_record "v2" (mk_node "R" 0 "a.txt")]
   /\ forall fuel l, get_all_files_recursive fuel versioned "R" = Some l ->
                     ~ In (file_record "v1" (mk_node "v2" 0 "a.txt")) l)
  /\ (In "R" (map fst looped)
      /\ forall fuel, get_all_files_recursive fuel looped "R" = None).
Proof.
  split; [|split].
  - split; [now left|]. split; [simpl; tauto|]. split; [reflexivity|].
    split; [reflexivity|]. intros fuel l H.
    rewrite get_all_files_collect in H.
    assert (collect 2 versioned "R"
            = Some [file_record "v2" (mk_node "R" 0 "a.txt")]) as H2
        by reflexivity.
    rewrite (collect_agree _ _ _ _ _ _ H H2). simpl.
    intros [E|[]]. discriminate E.
  - now left.
  - intros fuel. rewrite get_all_files_collect. apply looped_never_returns.
Qed.

(** ** Strings *)

Lemma append_cancel_l (a x y : string) :
  (a ++ x)%string = (a ++ y)%string -> x = y.
Proof. induction a as [|c a IH]; simpl; [auto|]. intros [= H]. auto. Qed.

Lemma append_length (a b : string) :
  String.length (a ++ b) = String.length a + String.length b.
Proof. induction a as [|c a IH]; simpl; [reflexivity|]. now rewrite IH. Qed.

Lemma substring_split (s : string) :
  forall i, i <= String.length s ->
            s = (substring 0 i s ++ PyStr.slice_from i s)%string.
Proof.
  unfold PyStr.slice_from.
  induction s as [|c s IH]; intros i Hi; simpl in Hi.
  - replace i with 0 by lia. reflexivity.
  - destruct i as [|i]; simpl.
    + f_equal. clear. induction s as [|d s IH]; simpl; [reflexivity|].
      now rewrite <- IH.
    + f_equal. apply IH. lia.
Qed.

Lemma rfind_dot_lt (s : string) :
  forall i, PyStr.rfind_dot s = Some i -> i < String.length s.
Proof.
  induction s as [|c s IH]; simpl; intros i; [discriminate|].
  destruct (PyStr.rfind_dot s) as [j|].
  - intros [= <-]. specialize (IH j eq_refl). lia.
  - destruct (Ascii.eqb c "."); [|discriminate]. intros [= <-]. lia.
Qed.

Lemma rfind_dot_slice (s : string) :
  forall i, PyStr.rfind_dot s = Some i ->
            exists t, PyStr.slice_from i s = String "." t.
Proof.
  unfold PyStr.slice_from.
  induction s as [|c s IH]; simpl; intros i; [discriminate|].
  destruct (PyStr.rfind_dot s) as [j|].
  - intros [= <-]. simpl. now apply IH.
  - destruct (Ascii.eqb_spec c "."); [|discriminate]. intros [= <-]. subst c.
    simpl. eauto.
Qed.

(** The suffix is empty or starts with its dot, and it is the end of the
    name, character for character. *)
Lemma suffix_dot_or_empty (path : string) : dot_or_empty (PyPath.suffix path).
Proof.
  unfold PyPath.suffix.
  destruct (PyStr.rfind_dot (PyPath.name path)) as [i|] eqn:E; [|now left].
  destruct ((0 <? i) && (i <? String.length (PyPath.name path) - 1));
    [|now left].
  right. now apply rfind_dot_slice.
Qed.

Lemma suffix_verbatim (path : string) :
  exists stem, PyPath.name path = (stem ++ PyPath.suffix path)%string.
Proof.
  unfold PyPath.suffix.
  destruct (PyStr.rfind_dot (PyPath.name path)) as [i|] eqn:E.
  - destruct ((0 <? i) && (i <? String.length (PyPath.name path) - 1)).
    + exists (substring 0 i (PyPath.name path)). apply substring_split.
      apply rfind_dot_lt in E. lia.
    + exists (PyPath.name path). clear.
      induction (PyPath.name path) as [|c s IH]; simpl; [reflexivity|].
      now rewrite <- IH.
  - exists (PyPath.name path). clear.
    induction (PyPath.name path) as [|c s IH]; simpl; [reflexivity|].
    now rewrite <- IH.
Qed.

(** ** The index format *)

Lemma string_of_uint_digits d : all_digits (NilEmpty.string_of_uint d) = true.
Proof. induction d; simpl; auto. Qed.

Lemma zeros_digits k : all_digits (PyStr.zeros k) = true.
Proof. induction k; simpl; auto. Qed.

Lemma all_digits_app a b :
  all_digits a = true -> all_digits b = true -> all_digits (a ++ b) = true.
Proof.
  induction a as [|c a IH]; simpl; [auto|]. intros H Hb.
  apply andb_true_iff in H. destruct H as [Hc Ha]. rewrite Hc. simpl. auto.
Qed.

Lemma format_03d_digits i : all_digits (PyStr.format_03d i) = true.
Proof.
  unfold PyStr.format_03d, PyStr.str_of_nat.
  apply all_digits_app; [apply zeros_digits|apply string_of_uint_digits].
Qed.

Lemma zeros_length k : String.length (PyStr.zeros k) = k.
Proof. induction k; simpl; auto. Qed.

Lemma format_03d_length i : 3 <= String.length (PyStr.format_03d i).
Proof.
  unfold PyStr.format_03d. rewrite append_length, zeros_length. lia.
Qed.

Lemma decode_zeros k s : decode (PyStr.zeros k ++ s) = decode s.
Proof.
  induction k as [|k IH]; simpl; [reflexivity|].
  rewrite <- IH. unfold decode. simpl.
  destruct (NilEmpty.uint_of_string (PyStr.zeros k ++ s)); reflexivity.
Qed.

Lemma decode_format_03d i : decode (PyStr.format_03d i) = Some i.
Proof.
  unfold PyStr.format_03d. rewrite decode_zeros.
  unfold decode, PyStr.str_of_nat. rewrite NilEmpty.usu. simpl.
  now rewrite Unsigned.of_to.
Qed.

Lemma format_03d_inj i j : PyStr.format_03d i = PyStr.format_03d j -> i = j.
Proof.
  intros H. pose proof (decode_format_03d i) as Hi.
  rewrite H, decode_format_03d in Hi. congruence.
Qed.

Lemma format_03d_below_1000 i :
  i < 1000 -> String.length (PyStr.format_03d i) = 3.
Proof.
  intros Hi.
  assert (forallb (fun k => String.length (PyStr.format_03d k) =? 3)
                  (seq 0 1000) = true) as H by (vm_compute; reflexivity).
  rewrite forallb_forall in H. apply Nat.eqb_eq. apply H. apply in_seq. lia.
Qed.

Lemma dot_not_digit : is_digit "." = false.
Proof. reflexivity. Qed.

(** Digits followed by a suffix: the digits are determined. *)
Lemma digits_then_suffix a :
  forall b e1 e2,
    all_digits a = true -> all_digits b = true ->
    dot_or_empty e1 -> dot_or_empty e2 ->
    (a ++ e1)%string = (b ++ e2)%string -> a = b.
Proof.
  induction a as [|c a IH]; intros b e1 e2 Ha Hb H1 H2 H.
  - destruct b as [|c' b]; [reflexivity|]. simpl in H, Hb.
    apply andb_true_iff in Hb. destruct Hb as [Hc _].
    destruct H1 as [->|[t ->]]; [discriminate|].
    injection H as <- _. rewrite dot_not_digit in Hc. discriminate.
  - simpl in H, Ha. apply andb_true_iff in Ha. destruct Ha as [Hc Ha].
    destruct b as [|c' b].
    + simpl in H. destruct H2 as [->|[t ->]]; [discriminate|].
      injection H as -> _. rewrite dot_not_digit in Hc. discriminate.
    + simpl in H, Hb. apply andb_true_iff in Hb. destruct Hb as [_ Hb].
      injection H as -> H. f_equal. apply (IH b e1 e2); assumption.
Qed.

Lemma planned_name_inj custom i j o1 o2 :
  planned_name custom i o1 = planned_name custom j o2 -> i = j.
Proof.
  unfold planned_name. intros H. apply append_cancel_l in H.
  apply (append_cancel_l "_") in H.
  apply format_03d_inj.
  eapply digits_then_suffix; eauto using format_03d_digits, suffix_dot_or_empty.
Qed.

(** ** The sort by name *)

Lemma leb_refl (s : string) : String.leb s s = true.
Proof. destruct (String.leb_total s s); assumption. Qed.

Lemma insert_by_name_perm x l : Permutation (x :: l) (insert_by_name x l).
Proof.
  induction l as [|y l IH]; simpl; [reflexivity|].
  destruct (String.leb (file_name x) (file_name y)); [reflexivity|].
  rewrite perm_swap. now constructor.
Qed.

Lemma sort_by_name_perm l : Permutation l (sort_by_name l).
Proof.
  induction l as [|x l IH]; simpl; [constructor|].
  rewrite <- insert_by_name_perm. now constructor.
Qed.

Lemma insert_by_name_sorted x l :
  Sorted name_le l -> Sorted name_le (insert_by_name x l).
Proof.
  induction l as [|y l IH]; simpl; intros Hs.
  - repeat constructor.
  - destruct (String.leb (file_name x) (file_name y)) eqn:E.
    + constructor; [assumption|]. constructor. exact E.
    + inversion Hs as [|? ? Hl Hhd]; subst. constructor; [auto|].
      assert (name_le y x) as Hyx.
      { destruct (String.leb_total (file_name x) (file_name y)) as [H|H];
          [congruence|exact H]. }
      destruct l as [|z l]; simpl; [now constructor|].
      destruct (String.leb (file_name x) (file_name z)); constructor;
        [assumption|]. now inversion Hhd.
Qed.

Lemma sort_by_name_sorted l : Sorted name_le (sort_by_name l).
Proof.
  induction l as [|x l IH]; simpl; [constructor|].
  now apply insert_by_name_sorted.
Qed.

(** Stability: the files of one name keep their order. *)
Lemma insert_by_name_stable nm x l :
  filter (fun f => String.eqb (file_name f) nm) (insert_by_name x l)
  = filter (fun f => String.eqb (file_name f) nm) (x :: l).
Proof.
  induction l as [|y l IH]; [reflexivity|]. simpl insert_by_name.
  destruct (String.leb (file_name x) (file_name y)) eqn:E; [reflexivity|].
  simpl in *. rewrite IH.
  destruct (String.eqb_spec (file_name x) nm) as [Hx|_]; [|reflexivity].
  destruct (String.eqb_spec (file_name y) nm) as [Hy|_]; [|reflexivity].
  rewrite Hx, Hy, leb_refl in E. discriminate.
Qed.

Lemma sort_by_name_stable nm l :
  filter (fun f => String.eqb (file_name f) nm) (sort_by_name l)
  = filter (fun f => String.eqb (file_name f) nm) l.
Proof.
  induction l as [|x l IH]; [reflexivity|]. simpl sort_by_name.
  rewrite insert_by_name_stable. simpl. now rewrite IH.
Qed.

Lemma sort_by_name_length l : List.length (sort_by_name l) = List.length l.
Proof. symmetry. apply Permutation_length, sort_by_name_perm. Qed.

(** ** The rename loop *)

Lemma numbered_cons custom idx f rest :
  numbered custom idx (f :: rest)
  = entry_for custom idx f :: numbered custom (S idx) rest.
Proof. reflexivity. Qed.

Lemma rename_loop_entries E custom dry items :
  forall idx entries n w,
    fst (fst (rename_loop E custom dry items idx entries n w))
    = entries ++ numbered custom idx items.
Proof.
  induction items as [|f rest IH]; intros idx entries n w; simpl.
  - now rewrite app_nil_r.
  - rewrite numbered_cons.
    destruct dry.
    + rewrite IH, <- app_assoc. reflexivity.
    + destruct (remote E (remote_trace w) _); rewrite IH, <- app_assoc;
        reflexivity.
Qed.

Lemma numbered_length custom idx items :
  List.length (numbered custom idx items) = List.length items.
Proof.
  unfold numbered. rewrite length_map, length_combine, length_seq. lia.
Qed.

Lemma numbered_nth custom items :
  forall idx k f, nth_error items k = Some f ->
                  nth_error (numbered custom idx items) k
                  = Some (entry_for custom (idx + k) f).
Proof.
  induction items as [|g rest IH]; intros idx k f H.
  - destruct k; discriminate.
  - rewrite numbered_cons. destruct k as [|k]; simpl in *.
    + injection H as ->. now rewrite Nat.add_0_r.
    + rewrite (IH (S idx) k f H). f_equal. f_equal. lia.
Qed.

Lemma numbered_In custom items :
  forall idx e, In e (numbered custom idx items) ->
                exists k f, nth_error items k = Some f
                            /\ e = entry_for custom (idx + k) f.
Proof.
  induction items as [|g rest IH]; intros idx e H; [contradiction|].
  rewrite numbered_cons in H. destruct H as [<-|H].
  - exists 0, g. now rewrite Nat.add_0_r.
  - destruct (IH _ _ H) as (k & f & Hk & ->). exists (S k), f.
    split; [assumption|]. f_equal. lia.
Qed.

Lemma numbered_new_names_NoDup custom items :
  forall idx, NoDup (map new_name (numbered custom idx items)).
Proof.
  induction items as [|g rest IH]; intros idx; [constructor|].
  rewrite numbered_cons. simpl. constructor; [|apply IH].
  intros Hin. apply in_map_iff in Hin. destruct Hin as (e & He & Hin).
  destruct (numbered_In _ _ _ _ Hin) as (k & f & _ & ->). simpl in He.
  apply planned_name_inj in He. lia.
Qed.

Lemma leb_iff a b : String.leb a b = true <-> String_as_OT.lt a b \/ a = b.
Proof.
  unfold String.leb. rewrite <- String_as_OT.cmp_lt, <- String_as_OT.cmp_eq.
  change (String_as_OT.cmp a b) with (String.compare a b).
  destruct (String.compare a b); intuition congruence.
Qed.

Lemma name_le_trans x y z : name_le x y -> name_le y z -> name_le x z.
Proof.
  unfold name_le. rewrite !leb_iff. intros [H|E] [H2|E2].
  - left. eapply String_as_OT.lt_trans; eauto.
  - left. now rewrite <- E2.
  - left. now rewrite E.
  - right. congruence.
Qed.

Lemma sort_by_name_strongly_sorted l : StronglySorted name_le (sort_by_name l).
Proof.
  apply Sorted_StronglySorted; [|apply sort_by_name_sorted].
  intros x y z. apply name_le_trans.
Qed.

Lemma rename_selected_plan E all_files custom dry w :
  plan_of (rename_selected E all_files custom dry w)
  = numbered custom 1 (sort_by_name (filter not_pdf all_files)).
Proof.
  unfold rename_selected, plan_of. fold not_pdf.
  destruct (filter not_pdf all_files) as [|f rest] eqn:Ef; [reflexivity|].
  unfold read_clock.
  set (w1 := {| remote_trace := remote_trace w; log := log w; disk := disk w;
                clock_reads := S (clock_reads w); prompts := prompts w |}).
  pose proof (rename_loop_entries E custom dry (sort_by_name (f :: rest))
                1 [] 0 w1) as H.
  destruct (rename_loop E custom dry (sort_by_name (f :: rest)) 1 [] 0 w1)
    as [[entries n] w2].
  exact H.
Qed.

Example scenario_plan :
  plan_of (rename_selected calm scenario "doc" true start)
  = [ {| entry_file_id := "f2"; original_name := "a.txt";
         new_name := "doc_001.txt" |};
      {| entry_file_id := "f1"; original_name := "b.txt";
         new_name := "doc_002.txt" |} ].
Proof. reflexivity. Qed.

(** C1.  The plan of a rename pass, in either mode: the files kept for
    renaming are put in the order of a stable sort by original name; the
    entry at position [k] of the plan is for the file at position [k] of
    that order and its new name is the custom name, an underscore, the
    index [k + 1] in decimal padded with zeros to three digits (an index
    from 1000 on is written with all its digits), and the suffix of the
    original name; the suffix is the end of the name as it is written; the
    new names of a plan are pairwise distinct. *)
Theorem rename_plan_names E all_files custom dry_run w :
  let kept := filter not_pdf all_files in
  let sorted := sort_by_name kept in
  let plan := plan_of (rename_selected E all_files custom dry_run w) in
  (Permutation kept sorted /\ StronglySorted name_le sorted /\
   forall nm, filter (fun f => String.eqb (file_name f) nm) sorted
              = filter (fun f => String.eqb (file_name f) nm) kept)
  /\ List.length plan = List.length sorted
  /\ (forall k f, nth_error sorted k = Some f ->
        nth_error plan k
        = Some {| entry_file_id := file_id f;
                  original_name := file_name f;
                  new_name := (custom ++ "_" ++ PyStr.format_03d (S k)
                                 ++ PyPath.suffix (file_name f))%string |})
  /\ NoDup (map new_name plan)
  /\ (forall i, decode (PyStr.format_03d i) = Some i
                /\ all_digits (PyStr.format_03d i) = true
                /\ 3 <= String.length (PyStr.format_03d i)
                /\ (i < 1000 -> String.length (PyStr.format_03d i) = 3))
  /\ (forall nm, dot_or_empty (PyPath.suffix nm)
                 /\ exists stem,
                      PyPath.name nm = (stem ++ PyPath.suffix nm)%string).
Proof.
  intros kept sorted plan.
  assert (plan = numbered custom 1 sorted) as Hplan
      by apply rename_selected_plan.
  split; [|split; [|split; [|split; [|split]]]].
  - split; [apply sort_by_name_perm|].
    split; [apply sort_by_name_strongly_sorted|].
    intros nm. apply sort_by_name_stable.
  - rewrite Hplan. apply numbered_length.
  - intros k f Hk. rewrite Hplan. exact (numbered_nth custom sorted 1 k f Hk).
  - rewrite Hplan. apply numbered_new_names_NoDup.
  - intros i. split; [apply decode_format_03d|].
    split; [apply format_03d_digits|].
    split; [apply format_03d_length|apply format_03d_below_1000].
  - intros nm. split; [apply suffix_dot_or_empty|apply suffix_verbatim].
Qed.

Lemma rename_plan_names_witness :
  nth_error (sort_by_name (filter not_pdf scenario)) 1
  = Some (mk_file "f1" "b.txt")
  /\ nth_error (plan_of (rename_selected calm scenario "doc" false start)) 1
     = Some {| entry_file_id := "f1"; original_name := "b.txt";
               new_name := "doc_002.txt" |}.
Proof.
  split; [reflexivity|].
  exact (proj1 (proj2 (proj2 (rename_plan_names calm scenario "doc" false start)))
               1 (mk_file "f1" "b.txt") eq_refl).
Defined.

(** C10.  Only the final dot-suffix of the original name goes into the new
    name.  For [a.tar.gz] it is [.gz], so the plan has [custom_NNN.gz]; for
    [.txt], a leading dot followed by letters, it is empty, so the plan has
    [custom_NNN] and no extension. *)
Theorem rename_keeps_final_suffix_only :
  (forall E all_files custom dry_run w e,
      In e (plan_of (rename_selected E all_files custom dry_run w)) ->
      exists idx,
        new_name e = (custom ++ "_" ++ PyStr.format_03d idx
                        ++ PyPath.suffix (original_name e))%string)
  /\ PyPath.suffix "a.tar.gz" = ".gz"
  /\ PyPath.suffix ".txt" = ""
  /\ (forall E dry_run w,
        map (fun e => (original_name e, new_name e))
            (plan_of (rename_selected E dotted "doc" dry_run w))
        = [(".txt", "doc_001"); ("a.tar.gz", "doc_002.gz")]).
Proof.
  split; [|split; [reflexivity|split; [reflexivity|]]].
  - intros E all_files custom dry_run w e He.
    rewrite rename_selected_plan in He.
    destruct (numbered_In _ _ _ _ He) as (k & f & _ & ->).
    exists (1 + k). reflexivity.
  - intros E dry_run w. rewrite rename_selected_plan. reflexivity.
Qed.

Lemma rename_keeps_final_suffix_only_witness :
  In {| entry_file_id := "g1"; original_name := "a.tar.gz";
        new_name := "doc_002.gz" |}
     (plan_of (rename_selected calm dotted "doc" false start))
  /\ exists idx,
       "doc_002.gz" = ("doc" ++ "_" ++ PyStr.format_03d idx
                         ++ PyPath.suffix "a.tar.gz")%string.
Proof.
  split; [right; left; reflexivity|].
  exact (proj1 rename_keeps_final_suffix_only calm dotted "doc" false start
           {| entry_file_id := "g1"; original_name := "a.tar.gz";
              new_name := "doc_002.gz" |} (or_intror (or_introl eq_refl))).
Defined.

(** ** Effects of the two loops *)

Lemma failures_snoc tr c o :
  failures (tr ++ [(c, o)]) = failures tr + (if is_raised o then 1 else 0).
Proof.
  unfold failures. rewrite filter_app, length_app. simpl.
  destruct (is_raised o); reflexivity.
Qed.

Lemma issue_calls E calls :
  forall tr, map fst (issue E tr calls) = map fst tr ++ calls.
Proof.
  induction calls as [|c cs IH]; intros tr; simpl.
  - now rewrite app_nil_r.
  - rewrite IH, map_app, <- app_assoc. reflexivity.
Qed.

Lemma delete_loop_dry E items :
  forall n w c w',
    delete_loop E true items n w = (c, w') ->
    c = n + List.length items
    /\ remote_trace w' = remote_trace w
    /\ disk w' = disk w
    /\ log w'
       = log w ++ map (fun f => (INFO, "[DRY RUN] Would delete: " ++ file_name f)%string)
                      items.
Proof.
  induction items as [|f rest IH]; intros n w c w' H; simpl in H.
  - injection H as <- <-. now rewrite Nat.add_0_r, app_nil_r.
  - apply IH in H. destruct H as (H1 & H2 & H3 & H4).
    simpl in *. rewrite H4, <- app_assoc. repeat split; auto. lia.
Qed.

Lemma delete_loop_live E items :
  forall n w c w',
    delete_loop E false items n w = (c, w') ->
    remote_trace w' = issue E (remote_trace w) (map destroy_call items)
    /\ c + failures (remote_trace w')
       = n + List.length items + failures (remote_trace w)
    /\ disk w' = disk w.
Proof.
  induction items as [|f rest IH]; intros n w c w' H; simpl in H.
  - injection H as <- <-. simpl. repeat split; lia.
  - simpl. change (destroy_call f) with (Destroy (file_id f)).
    destruct (remote E (remote_trace w) (Destroy (file_id f))) as [|e];
      apply IH in H; destruct H as (H1 & H2 & H3); simpl in *;
      rewrite failures_snoc in H2; simpl in H2;
      (split; [assumption|split; [lia|assumption]]).
Qed.

Lemma rename_loop_dry E custom items :
  forall idx entries n w es c w',
    rename_loop E custom true items idx entries n w = (es, c, w') ->
    c = n + List.length items
    /\ remote_trace w' = remote_trace w
    /\ disk w' = disk w
    /\ clock_reads w' = clock_reads w
    /\ log w'
       = log w ++ map (fun e => (INFO, "[DRY RUN] Would rename: "
                                         ++ original_name e ++ " -> "
                                         ++ new_name e)%string)
                      (numbered custom idx items).
Proof.
  induction items as [|f rest IH]; intros idx entries n w es c w' H;
    simpl in H.
  - injection H as <- <- <-. now rewrite Nat.add_0_r, app_nil_r.
  - apply IH in H. destruct H as (H1 & H2 & H3 & H4 & H5).
    rewrite numbered_cons. simpl in *. rewrite H5, <- app_assoc.
    repeat split; auto. lia.
Qed.

Lemma rename_loop_live E custom items :
  forall idx entries n w es c w',
    rename_loop E custom false items idx entries n w = (es, c, w') ->
    remote_trace w'
    = issue E (remote_trace w) (map rename_call (numbered custom idx items))
    /\ c + failures (remote_trace w')
       = n + List.length items + failures (remote_trace w)
    /\ disk w' = disk w
    /\ clock_reads w' = clock_reads w.
Proof.
  induction items as [|f rest IH]; intros idx entries n w es c w' H;
    simpl in H.
  - injection H as <- <- <-. simpl. repeat split; lia.
  - rewrite numbered_cons. simpl.
    change (rename_call (entry_for custom idx f))
      with (Rename (file_id f) (planned_name custom idx (file_name f))).
    destruct (remote E (remote_trace w)
                (Rename (file_id f) (planned_name custom idx (file_name f))))
      as [|e];
      apply IH in H; destruct H as (H1 & H2 & H3 & H4); simpl in *;
      rewrite failures_snoc in H2; simpl in H2;
      (split; [assumption|split; [lia|split; assumption]]).
Qed.

Lemma save_backup_trace E dry n b w :
  remote_trace (save_backup E dry n b w) = remote_trace w.
Proof.
  unfold save_backup. destruct (negb dry && (0 <? n)); [|reflexivity].
  unfold write_json. simpl. destruct (open_w E (disk w) _); reflexivity.
Qed.

(** ** The two operations after the walk *)

Lemma delete_selected_dry E all_files w :
  let r := delete_selected E all_files true w in
  fst r = List.length (filter is_pdf all_files)
  /\ remote_trace (snd r) = remote_trace w
  /\ disk (snd r) = disk w
  /\ log (snd r) = log w ++ map would_delete (filter is_pdf all_files).
Proof.
  unfold delete_selected. destruct (filter is_pdf all_files) as [|f sel] eqn:Es.
  - simpl. now rewrite app_nil_r.
  - destruct (delete_loop E true (f :: sel) 0 w) as [c w'] eqn:El.
    apply delete_loop_dry in El. simpl in *. tauto.
Qed.

Lemma delete_selected_live E all_files w :
  let r := delete_selected E all_files false w in
  remote_trace (snd r)
  = issue E (remote_trace w) (map destroy_call (filter is_pdf all_files))
  /\ fst r + failures (remote_trace (snd r))
     = List.length (filter is_pdf all_files) + failures (remote_trace w)
  /\ disk (snd r) = disk w.
Proof.
  unfold delete_selected. destruct (filter is_pdf all_files) as [|f sel] eqn:Es.
  - simpl. auto.
  - destruct (delete_loop E false (f :: sel) 0 w) as [c w'] eqn:El.
    apply delete_loop_live in El. simpl in *. tauto.
Qed.

(** The pass as the loop followed by the save. *)
Lemma rename_selected_shape E all_files custom dry w :
  let kept := filter not_pdf all_files in
  (kept = [] /\ rename_selected E all_files custom dry w = (0, None, w))
  \/ (kept <> [] /\
      exists es c w2,
        rename_loop E custom dry (sort_by_name kept) 1 [] 0
                    (snd (read_clock E w)) = (es, c, w2)
        /\ rename_selected E all_files custom dry w
           = (c,
              Some {| timestamp := isoformat (now E (clock_reads w));
                      custom_name := custom; backup_files := es |},
              save_backup E dry c
                {| timestamp := isoformat (now E (clock_reads w));
                   custom_name := custom; backup_files := es |} w2)).
Proof.
  intros kept. unfold rename_selected. fold not_pdf. fold kept.
  destruct kept as [|f rest] eqn:Ek; [left; auto|right].
  split; [discriminate|]. unfold read_clock.
  set (w1 := {| remote_trace := remote_trace w; log := log w; disk := disk w;
                clock_reads := S (clock_reads w); prompts := prompts w |}).
  simpl snd.
  destruct (rename_loop E custom dry (sort_by_name (f :: rest)) 1 [] 0 w1)
    as [[es c] w2].
  exists es, c, w2. auto.
Qed.

Lemma save_backup_skipped E dry n b w :
  negb dry && (0 <? n) = false -> save_backup E dry n b w = w.
Proof. unfold save_backup. now intros ->. Qed.

Lemma rename_selected_dry E all_files custom w :
  let r := rename_selected E all_files custom true w in
  fst (fst r) = List.length (filter not_pdf all_files)
  /\ remote_trace (snd r) = remote_trace w
  /\ disk (snd r) = disk w
  /\ log (snd r) = log w ++ map would_rename (plan_of r).
Proof.
  pose proof (rename_selected_plan E all_files custom true w) as Hplan.
  destruct (rename_selected_shape E all_files custom true w)
    as [[Hk Hr]|[Hk (es & c & w2 & Hl & Hr)]]; fold not_pdf in *.
  - cbv zeta. rewrite Hr. simpl. rewrite Hk, app_nil_r. auto.
  - cbv zeta. rewrite Hplan. rewrite Hr. simpl fst. simpl snd.
    rewrite save_backup_skipped by reflexivity.
    apply rename_loop_dry in Hl. destruct Hl as (H1 & H2 & H3 & H4 & H5).
    simpl in *. rewrite sort_by_name_length in H1. auto.
Qed.

Lemma rename_selected_live E all_files custom w :
  let r := rename_selected E all_files custom false w in
  remote_trace (snd r)
  = issue E (remote_trace w) (map rename_call (plan_of r))
  /\ fst (fst r) + failures (remote_trace (snd r))
     = List.length (filter not_pdf all_files) + failures (remote_trace w).
Proof.
  pose proof (rename_selected_plan E all_files custom false w) as Hplan.
  destruct (rename_selected_shape E all_files custom false w)
    as [[Hk Hr]|[Hk (es & c & w2 & Hl & Hr)]]; fold not_pdf in *.
  - cbv zeta. rewrite Hr. simpl. rewrite Hk. auto.
  - cbv zeta. rewrite Hplan. rewrite Hr. simpl fst. simpl snd.
    rewrite save_backup_trace.
    apply rename_loop_live in Hl. destruct Hl as (H1 & H2 & H3 & H4).
    simpl in *. rewrite sort_by_name_length in H2. auto.
Qed.

Lemma failures_issue E calls :
  forall tr, failures tr <= failures (issue E tr calls).
Proof.
  induction calls as [|c cs IH]; intros tr; simpl; [lia|].
  etransitivity; [|apply IH]. rewrite failures_snoc. lia.
Qed.

(** C5.  In live mode every selected item is attempted, in order, whatever
    the earlier calls did, and the returned count is the number of selected
    items minus the number of calls that raised; in dry-run mode the count
    is the number of selected items. *)
Theorem continue_on_error E all_files custom w :
  let sel := filter is_pdf all_files in
  let kept := filter not_pdf all_files in
  let d := delete_selected E all_files false w in
  let r := rename_selected E all_files custom false w in
  (remote_trace (snd d) = issue E (remote_trace w) (map destroy_call sel)
   /\ map fst (remote_trace (snd d))
      = map fst (remote_trace w) ++ map destroy_call sel
   /\ fst d = List.length sel
              - (failures (remote_trace (snd d)) - failures (remote_trace w)))
  /\ (remote_trace (snd r)
      = issue E (remote_trace w) (map rename_call (plan_of r))
      /\ map fst (remote_trace (snd r))
         = map fst (remote_trace w) ++ map rename_call (plan_of r)
      /\ List.length (plan_of r) = List.length kept
      /\ fst (fst r)
         = List.length kept
           - (failures (remote_trace (snd r)) - failures (remote_trace w)))
  /\ fst (delete_selected E all_files true w) = List.length sel
  /\ fst (fst (rename_selected E all_files custom true w)) = List.length kept.
Proof.
  intros sel kept d r.
  destruct (delete_selected_live E all_files w) as (Hd1 & Hd2 & _).
  destruct (rename_selected_live E all_files custom w) as (Hr1 & Hr2).
  fold d sel in Hd1, Hd2. fold r kept in Hr1, Hr2.
  pose proof (failures_issue E (map destroy_call sel) (remote_trace w)) as Fd.
  pose proof (failures_issue E (map rename_call (plan_of r)) (remote_trace w))
    as Fr.
  rewrite <- Hd1 in Fd. rewrite <- Hr1 in Fr.
  split; [|split; [|split]].
  - split; [assumption|]. split; [rewrite Hd1; apply issue_calls|lia].
  - split; [assumption|]. split; [rewrite Hr1; apply issue_calls|].
    split; [|lia]. unfold r. rewrite rename_selected_plan, numbered_length.
    apply sort_by_name_length.
  - apply delete_selected_dry.
  - apply rename_selected_dry.
Qed.

Example flaky_counts :
  fst (delete_selected flaky
         [mk_file "f1" "a.pdf"; mk_file "f2" "b.pdf"; mk_file "f3" "c.pdf"]
         false start) = 2
  /\ fst (fst (rename_selected flaky scenario "doc" false start)) = 1
  /\ map fst (remote_trace (snd (rename_selected flaky scenario "doc" false start)))
     = [Rename "f2" "doc_001.txt"; Rename "f1" "doc_002.txt"].
Proof. repeat split. Qed.

(** C3.  On one listing, a dry run and a live run select the same files
    for deletion and build the same rename plan: the dry run logs one line
    for each file that the live run passes to the remote delete primitive,
    in the same order, and the plans of the two rename passes are equal.
    The dry run leaves the trace of remote calls and the disk as they were. *)
Theorem dry_run_same_plan_no_effect E fuel files folder_id custom w :
  match get_all_files_recursive fuel files folder_id with
  | None =>
      delete_pdfs E fuel files folder_id true w = None
      /\ delete_pdfs E fuel files folder_id false w = None
      /\ rename_files E fuel files folder_id custom true w = None
      /\ rename_files E fuel files folder_id custom false w = None
  | Some all_files =>
      exists dd dl rd rl,
        delete_pdfs E fuel files folder_id true w = Some dd
        /\ delete_pdfs E fuel files folder_id false w = Some dl
        /\ rename_files E fuel files folder_id custom true w = Some rd
        /\ rename_files E fuel files folder_id custom false w = Some rl
        /\ log (snd dd) = log w ++ map would_delete (filter is_pdf all_files)
        /\ map fst (remote_trace (snd dl))
           = map fst (remote_trace w)
             ++ map destroy_call (filter is_pdf all_files)
        /\ plan_of rd = plan_of rl
        /\ log (snd rd) = log w ++ map would_rename (plan_of rd)
        /\ map fst (remote_trace (snd rl))
           = map fst (remote_trace w) ++ map rename_call (plan_of rl)
        /\ remote_trace (snd dd) = remote_trace w
        /\ disk (snd dd) = disk w
        /\ remote_trace (snd rd) = remote_trace w
        /\ disk (snd rd) = disk w
  end.
Proof.
  unfold delete_pdfs, rename_files.
  destruct (get_all_files_recursive fuel files folder_id) as [all_files|];
    [|auto].
  exists (delete_selected E all_files true w),
         (delete_selected E all_files false w),
         (rename_selected E all_files custom true w),
         (rename_selected E all_files custom false w).
  destruct (delete_selected_dry E all_files w) as (_ & Hd2 & Hd3 & Hd4).
  destruct (delete_selected_live E all_files w) as (Hl1 & _ & _).
  destruct (rename_selected_dry E all_files custom w) as (_ & Hr2 & Hr3 & Hr4).
  destruct (rename_selected_live E all_files custom w) as (Hrl & _).
  repeat (split; [reflexivity|]).
  split; [assumption|]. split; [rewrite Hl1; apply issue_calls|].
  split; [now rewrite !rename_selected_plan|].
  split; [assumption|]. split; [rewrite Hrl; apply issue_calls|].
  auto.
Qed.

Lemma numbered_of_file custom items :
  forall idx f, In f items ->
    exists e, In e (numbered custom idx items)
              /\ entry_file_id e = file_id f /\ original_name e = file_name f.
Proof.
  induction items as [|g rest IH]; intros idx f H; [contradiction|].
  rewrite numbered_cons. destruct H as [->|H].
  - exists (entry_for custom idx f). split; [now left|auto].
  - destruct (IH (S idx) f H) as (e & He & H1 & H2). exists e.
    split; [now right|auto].
Qed.

Lemma plan_entry_origin E all_files custom dry w e :
  In e (plan_of (rename_selected E all_files custom dry w)) ->
  exists f, In f all_files /\ is_pdf f = false
            /\ original_name e = file_name f.
Proof.
  intros He. rewrite rename_selected_plan in He.
  destruct (numbered_In _ _ _ _ He) as (k & f & Hk & ->).
  apply nth_error_In in Hk.
  apply (Permutation_in _ (Permutation_sym (sort_by_name_perm _))) in Hk.
  apply filter_In in Hk. destruct Hk as [Hin Hp]. exists f.
  unfold not_pdf in Hp. apply negb_true_iff in Hp. auto.
Qed.

Lemma plan_names_not_pdf E all_files custom dry w :
  Forall (fun e => PyStr.endswith (PyStr.lower (original_name e)) ".pdf"
                   = false)
         (plan_of (rename_selected E all_files custom dry w)).
Proof.
  apply Forall_forall. intros e He.
  destruct (plan_entry_origin _ _ _ _ _ _ He) as (f & _ & Hp & ->). exact Hp.
Qed.

(** C4.  The files selected for deletion and the files of the rename plan
    are the two parts of the collected files: every entry of the plan has
    an original name that does not end in [.pdf] when lowercased; a
    collected file whose name does is selected for deletion and has no
    entry in the plan; a collected file whose name does not has an entry
    and is not selected for deletion; and the two returned counts together
    never exceed the number of collected files. *)
Theorem delete_and_rename_disjoint E all_files custom dry dry' w w' :
  let sel := filter is_pdf all_files in
  let plan := plan_of (rename_selected E all_files custom dry w) in
  Forall (fun e => PyStr.endswith (PyStr.lower (original_name e)) ".pdf"
                   = false) plan
  /\ Forall (fun f =>
       if is_pdf f
       then In f sel
            /\ ~ exists e, In e plan /\ entry_file_id e = file_id f
                           /\ original_name e = file_name f
       else ~ In f sel
            /\ exists e, In e plan /\ entry_file_id e = file_id f
                         /\ original_name e = file_name f) all_files
  /\ fst (delete_selected E all_files dry' w')
     + fst (fst (rename_selected E all_files custom dry w))
     <= List.length all_files.
Proof.
  intros sel plan.
  assert (plan = numbered custom 1 (sort_by_name (filter not_pdf all_files)))
    as Hplan by apply rename_selected_plan.
  assert (forall e, In e plan ->
            exists f, In f all_files /\ is_pdf f = false
                      /\ original_name e = file_name f) as Hentry
      by (intros e; apply plan_entry_origin).
  split; [|split].
  - apply plan_names_not_pdf.
  - apply Forall_forall. intros f Hf. destruct (is_pdf f) eqn:Hp.
    + split; [apply filter_In; auto|].
      intros (e & He & _ & Hn). destruct (Hentry e He) as (g & _ & Hg & Hn').
      unfold is_pdf in Hp, Hg. congruence.
    + split; [intros Hin; apply filter_In in Hin; destruct Hin; congruence|].
      rewrite Hplan. apply numbered_of_file.
      apply (Permutation_in _ (sort_by_name_perm _)).
      apply filter_In. split; [assumption|]. unfold not_pdf. now rewrite Hp.
  - assert (fst (delete_selected E all_files dry' w') <= List.length sel) as Hd.
    { destruct dry'.
      - destruct (delete_selected_dry E all_files w') as (H & _). fold sel in H.
        lia.
      - destruct (delete_selected_live E all_files w') as (H1 & H2 & _).
        pose proof (failures_issue E (map destroy_call sel) (remote_trace w')).
        fold sel in H1, H2. rewrite <- H1 in H. lia. }
    assert (fst (fst (rename_selected E all_files custom dry w))
            <= List.length (filter not_pdf all_files)) as Hr.
    { destruct dry.
      - destruct (rename_selected_dry E all_files custom w) as (H & _). lia.
      - destruct (rename_selected_live E all_files custom w) as (H1 & H2).
        pose proof (failures_issue E
                      (map rename_call
                         (plan_of (rename_selected E all_files custom false w)))
                      (remote_trace w)).
        rewrite <- H1 in H. lia. }
    pose proof (filter_length is_pdf all_files) as Hlen.
    fold sel in Hlen. fold not_pdf in Hlen. unfold not_pdf in Hr at 1.
    unfold not_pdf in Hlen. lia.
Qed.

(** ** The backup *)

Lemma store_In fname b d : In (fname, b) (store fname b d).
Proof.
  induction d as [|[k v] d IH]; simpl; [now left|].
  destruct (String.eqb_spec k fname) as [->|_]; [now left|now right].
Qed.

Lemma save_backup_disk E dry n b w :
  if negb dry && (0 <? n) then
    match open_w E (disk w)
            ("backup_" ++ compact (now E (clock_reads w)) ++ ".json") with
    | Returned =>
        disk (save_backup E dry n b w)
        = store ("backup_" ++ compact (now E (clock_reads w)) ++ ".json") b
                (disk w)
    | Raised e =>
        disk (save_backup E dry n b w) = disk w
        /\ exists l0, log (save_backup E dry n b w)
                      = l0 ++ [(ERROR, ("Error saving backup: " ++ e)%string)]
    end
  else save_backup E dry n b w = w.
Proof.
  unfold save_backup. destruct (negb dry && (0 <? n)); [|reflexivity].
  unfold read_clock, write_json. simpl.
  destruct (open_w E (disk w) _) as [|e]; simpl; [reflexivity|].
  split; [reflexivity|]. now exists (log w).
Qed.

(** C6, as amended.  In both modes the backup artifact has one entry for
    each planned rename, whatever the remote calls do.  A write of the
    artifact is attempted exactly in a live pass with at least one
    successful rename; its file is named [backup_], the time of saving,
    [.json].  When the file opens, the artifact is stored under that name,
    in place of a file of that name if there is one; when opening raises,
    the disk is unchanged and the error is logged.  A dry run, and a live
    pass without a success, leave the disk as it was. *)
Theorem backup_built_and_saved E all_files custom dry_run w :
  let kept := filter not_pdf all_files in
  let r := rename_selected E all_files custom dry_run w in
  let fname := backup_file_name E (clock_reads w) in
  match snd (fst r) with
  | None => kept = [] /\ fst (fst r) = 0 /\ snd r = w
  | Some b =>
      backup_files b = numbered custom 1 (sort_by_name kept)
      /\ List.length (backup_files b) = List.length kept
      /\ custom_name b = custom
      /\ timestamp b = isoformat (now E (clock_reads w))
      /\ if negb dry_run && (0 <? fst (fst r)) then
           match open_w E (disk w) fname with
           | Returned =>
               disk (snd r) = store fname b (disk w)
               /\ In (fname, b) (disk (snd r))
           | Raised e =>
               disk (snd r) = disk w
               /\ exists l0,
                    log (snd r)
                    = l0 ++ [(ERROR, ("Error saving backup: " ++ e)%string)]
           end
         else disk (snd r) = disk w
  end.
Proof.
  intros kept r fname.
  pose proof (rename_selected_plan E all_files custom dry_run w) as Hplan.
  fold r kept in Hplan. unfold plan_of in Hplan.
  destruct (rename_selected_shape E all_files custom dry_run w)
    as [[Hk Hr]|[Hk (es & c & w2 & Hl & Hr)]]; fold kept r in Hk, Hr.
  - rewrite Hr. simpl. auto.
  - fold kept in Hl. rewrite Hr in Hplan |- *. simpl in Hplan. simpl.
    split; [assumption|]. rewrite Hplan, numbered_length, sort_by_name_length.
    repeat (split; [reflexivity|]).
    assert (disk w2 = disk w /\ clock_reads w2 = S (clock_reads w)) as [Hd Hc].
    { destruct dry_run.
      - apply rename_loop_dry in Hl. simpl in Hl. tauto.
      - apply rename_loop_live in Hl. simpl in Hl. tauto. }
    pose proof (save_backup_disk E dry_run c
                  {| timestamp := isoformat (now E (clock_reads w));
                     custom_name := custom;
                     backup_files := numbered custom 1 (sort_by_name kept) |}
                  w2) as Hs.
    rewrite Hc, Hd in Hs. fold (backup_file_name E (clock_reads w)) in Hs.
    fold fname in Hs.
    destruct (negb dry_run && (0 <? c)).
    + destruct (open_w E (disk w) fname) as [|e].
      * split; [assumption|]. rewrite Hs. apply store_In.
      * assumption.
    + now rewrite Hs.
Qed.

(** C6 as stated fails twice.  With a disk that cannot be written, a live
    pass renames both files and no backup file exists afterwards.  With a
    disk that already holds a file of the name made from the clock, the
    live pass writes over it: the disk holds the same single file name as
    before, now with the new artifact. *)
Lemma backup_not_always_a_fresh_file :
  (fst (fst (rename_selected read_only scenario "doc" false start)) = 2
   /\ disk (snd (rename_selected read_only scenario "doc" false start)) = [])
  /\ (fst (fst (rename_selected calm scenario "doc" false crowded)) = 2
      /\ map fst (disk crowded) = ["backup_20240101_120000.json"]
      /\ map fst (disk (snd (rename_selected calm scenario "doc" false crowded)))
         = ["backup_20240101_120000.json"]
      /\ map (fun kv => custom_name (snd kv))
             (disk (snd (rename_selected calm scenario "doc" false crowded)))
         = ["doc"]).
Proof. repeat split. Qed.

(** ** The analyzer *)

Lemma analyze_fold fs :
  forall st,
    let st' := fold_left analyze_step fs st in
    total_files st' = total_files st
    /\ pdf_files st' = pdf_files st + List.length (filter counted_as_pdf fs)
    /\ other_files st'
       = other_files st
         + List.length (filter (fun f => negb (counted_as_pdf f)) fs).
Proof.
  induction fs as [|f fs IH]; intros st; simpl.
  - repeat split; lia.
  - destruct (IH (analyze_step st f)) as (H1 & H2 & H3).
    rewrite H1, H2, H3. unfold analyze_step, counted_as_pdf. simpl.
    destruct (String.eqb (PyStr.lower (PyPath.suffix (file_name f))) ".pdf");
      simpl; repeat split; lia.
Qed.

(** C9.  The analyzer counts a file as PDF when the lowercased suffix of
    its name is [.pdf]; the deleter selects a file when its lowercased
    name ends in [.pdf], and the renamer leaves those files out.  For a
    file named [.pdf] or [.PDF] the suffix is empty: the analyzer counts
    it among the other files, under the empty extension, while the deleter
    selects it and the rename plan is empty, so the reported PDF count is
    smaller than the number of files selected for deletion. *)
Theorem analyzer_and_deleter_differ :
  (forall all_files,
      total_files (analyze_files all_files) = List.length all_files
      /\ pdf_files (analyze_files all_files)
         = List.length (filter counted_as_pdf all_files)
      /\ other_files (analyze_files all_files)
         = List.length (filter (fun f => negb (counted_as_pdf f)) all_files))
  /\ (forall E all_files w,
        fst (delete_selected E all_files true w)
        = List.length
            (filter (fun f => PyStr.endswith (PyStr.lower (file_name f)) ".pdf")
                    all_files))
  /\ (forall E all_files custom dry w,
        Forall (fun e => PyStr.endswith (PyStr.lower (original_name e)) ".pdf"
                         = false)
               (plan_of (rename_selected E all_files custom dry w)))
  /\ Forall (fun nm =>
       let fs := [mk_file "h" nm] in
       PyPath.suffix nm = ""
       /\ analyze_files fs
          = {| total_files := 1; pdf_files := 0; other_files := 1;
               file_types := [("", 1)] |}
       /\ filter is_pdf fs = fs
       /\ (forall E custom dry w,
             plan_of (rename_selected E fs custom dry w) = [])
       /\ pdf_files (analyze_files fs) < List.length (filter is_pdf fs))
     [".pdf"; ".PDF"].
Proof.
  split; [|split; [|split]].
  - intros all_files. unfold analyze_files.
    destruct (analyze_fold all_files
                {| total_files := List.length all_files; pdf_files := 0;
                   other_files := 0; file_types := [] |}) as (H1 & H2 & H3).
    simpl in *. auto.
  - intros E all_files w. apply delete_selected_dry.
  - intros E all_files custom dry w.
    apply plan_names_not_pdf.
  - repeat constructor.
Qed.

(** ** The folder lookup *)

Lemma find_exact_find folder_path files :
  find_exact folder_path files = find (is_exact folder_path) files.
Proof.
  induction files as [|[fid fdata] rest IH]; simpl; [reflexivity|].
  unfold is_exact at 1. simpl.
  destruct (attr_n (node_a fdata)) as [nm|]; [|exact IH].
  destruct (String.eqb nm folder_path && (node_t fdata =? 1)%Z);
    [reflexivity|exact IH].
Qed.

Lemma find_confirmed_ask E folder_path files :
  forall w, find_confirmed E folder_path files w
            = ask E (filter (is_candidate folder_path) files) w.
Proof.
  induction files as [|[fid fdata] rest IH]; intros w; simpl; [reflexivity|].
  unfold is_candidate at 1. simpl.
  destruct (attr_n (node_a fdata)) as [nm|] eqn:En; [|apply IH].
  destruct (PyStr.contains folder_path nm && (node_t fdata =? 1)%Z);
    [|apply IH].
  simpl. unfold prompt_for, name_or_unknown. simpl. rewrite En.
  unfold confirms.
  destruct (String.eqb (PyStr.lower (answers E (List.length (prompts w)))) "y");
    [reflexivity|apply IH].
Qed.

Lemma ask_first_confirmed E cands :
  forall w,
    match fst (ask E cands w) with
    | Some c =>
        exists k,
          nth_error cands k = Some c
          /\ confirms (answers E (List.length (prompts w) + k)) = true
          /\ (forall j, j < k ->
                confirms (answers E (List.length (prompts w) + j)) = false)
          /\ List.length (prompts (snd (ask E cands w)))
             = List.length (prompts w) + k + 1
    | None =>
        (forall j, j < List.length cands ->
           confirms (answers E (List.length (prompts w) + j)) = false)
        /\ List.length (prompts (snd (ask E cands w)))
           = List.length (prompts w) + List.length cands
    end.
Proof.
  induction cands as [|c rest IH]; intros w; simpl.
  - split; [intros j Hj; lia|lia].
  - destruct (confirms (answers E (List.length (prompts w)))) eqn:Ec; simpl.
    + exists 0. rewrite Nat.add_0_r. split; [reflexivity|].
      split; [assumption|]. split; [intros j Hj; lia|].
      rewrite length_app. simpl. lia.
    + match goal with
      | |- context [ask E rest ?w1] => specialize (IH w1); set (w1' := w1) in *
      end.
      assert (List.length (prompts w1') = S (List.length (prompts w))) as Hp.
      { unfold w1'. simpl. rewrite length_app. simpl. lia. }
      rewrite Hp in IH.
      destruct (fst (ask E rest w1')) as [c'|].
      * destruct IH as (k & Hk & Hy & Hn & Hl). exists (S k).
        split; [exact Hk|].
        split; [now rewrite Nat.add_succ_r|].
        split; [|lia]. intros j Hj. destruct j as [|j].
        -- now rewrite Nat.add_0_r.
        -- rewrite Nat.add_succ_r. apply Hn. lia.
      * destruct IH as (Hn & Hl). split; [|lia].
        intros j Hj. destruct j as [|j].
        -- now rewrite Nat.add_0_r.
        -- rewrite Nat.add_succ_r. apply Hn. lia.
Qed.

(** C7.  The lookup returns the first folder of the listing whose name is
    the query, without asking anything.  When there is none, the folders
    whose name contains the query are put to the user in listing order,
    one prompt each, and the first one confirmed is returned; nothing is
    returned when every candidate is declined or there is none. *)
Theorem find_folder_two_passes E files folder_path w :
  find_folder E files folder_path w
  = match find (is_exact folder_path) files with
    | Some r => (Some r, w)
    | None => ask E (filter (is_candidate folder_path) files) w
    end
  /\ forall cands,
       match fst (ask E cands w) with
       | Some c =>
           exists k,
             nth_error cands k = Some c
             /\ confirms (answers E (List.length (prompts w) + k)) = true
             /\ (forall j, j < k ->
                   confirms (answers E (List.length (prompts w) + j)) = false)
             /\ List.length (prompts (snd (ask E cands w)))
                = List.length (prompts w) + k + 1
       | None =>
           (forall j, j < List.length cands ->
              confirms (answers E (List.length (prompts w) + j)) = false)
           /\ List.length (prompts (snd (ask E cands w)))
              = List.length (prompts w) + List.length cands
       end.
Proof.
  split.
  - unfold find_folder. rewrite find_exact_find.
    destruct (find (is_exact folder_path) files); [reflexivity|].
    apply find_confirmed_ask.
  - intros cands. apply ask_first_confirmed.
Qed.

Lemma find_folder_two_passes_witness :
  fst (find_folder picky sample "Reports" start)
  = Some ("F", mk_node "root" 1 "Reports")
  /\ fst (find_folder picky sample "Rep" start)
     = Some ("G", mk_node "F" 1 "Reports 2020")
  /\ fst (find_folder calm sample "Rep" start) = None
  /\ fst (find_folder calm sample "txt" start) = None.
Proof.
  rewrite (proj1 (find_folder_two_passes picky sample "Reports" start)).
  rewrite (proj1 (find_folder_two_passes picky sample "Rep" start)).
  rewrite (proj1 (find_folder_two_passes calm sample "Rep" start)).
  rewrite (proj1 (find_folder_two_passes calm sample "txt" start)).
  repeat split.
Defined.

(** * Further properties *)

(** ** The walk: folders without sub-folders, and the accumulator *)

Lemma gather_flat rec root items :
  existsb (folder_child root) items = false ->
  gather rec root items
  = Some (map (fun e => file_record (fst e) (snd e))
              (filter (file_child root) items)).
Proof.
  induction items as [|[fid fdata] rest IH]; simpl; [reflexivity|].
  unfold folder_child at 1, file_child at 1. simpl. intros H.
  apply orb_false_iff in H. destruct H as [Hh Hr]. rewrite (IH Hr).
  destruct (String.eqb (node_p fdata) root); simpl in *; [|reflexivity].
  destruct (node_t fdata =? 0)%Z; [reflexivity|]. now rewrite Hh.
Qed.

(** X1.  From a folder none of whose children is a folder, the walk
    returns the file children in the order of the listing; from an id
    that has no child it returns the empty list.  One level of recursion
    is enough. *)
Theorem walk_of_flat_folder files root fuel :
  existsb (folder_child root) files = false ->
  get_all_files_recursive (S fuel) files root
  = Some (map (fun e => file_record (fst e) (snd e))
              (filter (file_child root) files)).
Proof.
  intros H. rewrite get_all_files_collect. simpl. now apply gather_flat.
Qed.

Lemma walk_of_flat_folder_witness :
  existsb (folder_child "G") sample = false
  /\ get_all_files_recursive 1 sample "G"
     = Some [file_record "f4" (mk_node "G" 0 "old.TXT")].
Proof.
  split; [reflexivity|].
  exact (walk_of_flat_folder sample "G" 0 eq_refl).
Defined.

(** X2.  A call of [traverse] only appends to the shared list: the files
    collected before the call stay where they are, and what is appended
    does not depend on them. *)
Theorem traverse_appends fuel files parent_id all_files :
  traverse fuel files parent_id all_files
  = option_map (app all_files) (traverse fuel files parent_id []).
Proof.
  rewrite (traverse_collect fuel files parent_id all_files).
  rewrite (traverse_collect fuel files parent_id []).
  destruct (collect fuel files parent_id); reflexivity.
Qed.

(** ** Files without a name *)

Lemma suffix_unknown : PyPath.suffix "unknown" = "".
Proof. reflexivity. Qed.

Lemma append_empty_r (s : string) : (s ++ "")%string = s.
Proof. induction s as [|c s IH]; simpl; [reflexivity|now rewrite IH]. Qed.

(** X3.  A file node whose attributes have no name is collected under the
    name [unknown]; it is never selected for deletion, and the rename plan
    gives it the custom name and an index with no extension. *)
Theorem unnamed_file_is_renamed_bare E all_files custom dry_run w fid fdata :
  attr_n (node_a fdata) = None ->
  In (file_record fid fdata) all_files ->
  file_name (file_record fid fdata) = "unknown"
  /\ ~ In (file_record fid fdata) (filter is_pdf all_files)
  /\ exists idx,
       In {| entry_file_id := fid; original_name := "unknown";
             new_name := (custom ++ "_" ++ PyStr.format_03d idx)%string |}
          (plan_of (rename_selected E all_files custom dry_run w)).
Proof.
  intros Hn Hin.
  assert (file_name (file_record fid fdata) = "unknown") as Hname
      by (unfold file_record, name_or_unknown; simpl; now rewrite Hn).
  assert (is_pdf (file_record fid fdata) = false) as Hp
      by (unfold is_pdf; now rewrite Hname).
  split; [assumption|]. split.
  - intros H. apply filter_In in H. destruct H. congruence.
  - rewrite rename_selected_plan.
    assert (In (file_record fid fdata)
               (sort_by_name (filter not_pdf all_files))) as Hs.
    { apply (Permutation_in _ (sort_by_name_perm _)). apply filter_In.
      split; [assumption|]. unfold not_pdf. now rewrite Hp. }
    apply In_nth_error in Hs. destruct Hs as [k Hk].
    exists (1 + k). apply (nth_error_In _ k).
    rewrite (numbered_nth custom _ 1 k _ Hk). unfold entry_for.
    rewrite Hname. simpl file_id. rewrite suffix_unknown, append_empty_r.
    reflexivity.
Qed.

Lemma unnamed_file_is_renamed_bare_witness :
  let nd := {| node_p := "F"; node_t := 0%Z; node_a := {| attr_n := None |} |} in
  exists idx,
    In {| entry_file_id := "u"; original_name := "unknown";
          new_name := ("doc" ++ "_" ++ PyStr.format_03d idx)%string |}
       (plan_of (rename_selected calm [file_record "u" nd] "doc" true start)).
Proof.
  intros nd.
  exact (proj2 (proj2 (unnamed_file_is_renamed_bare calm [file_record "u" nd]
                         "doc" true start "u" nd eq_refl
                         (or_introl eq_refl)))).
Defined.

(** ** The statistics of the analyzer *)







(** X4.  The two counters of the analyzer share out the collected files:
    PDF files and other files add up to the total, which is the number of
    files collected. *)
Theorem analyze_counts_add_up all_files :
  total_files (analyze_files all_files) = List.length all_files
  /\ pdf_files (analyze_files all_files) + other_files (analyze_files all_files)
     = total_files (analyze_files all_files).
Proof.
  unfold analyze_files.
  destruct (analyze_fold all_files
              {| total_files := List.length all_files; pdf_files := 0;
                 other_files := 0; file_types := [] |}) as (H1 & H2 & H3).
  simpl in *. rewrite H1, H2, H3. split; [reflexivity|].
  apply (filter_length counted_as_pdf).
Qed.


Example histogram_sample :
  file_types (analyze_files
                [mk_file "1" "a.TXT"; mk_file "2" "b.pdf"; mk_file "3" "c.txt";
                 mk_file "4" "README"])
  = [(".txt", 2); (".pdf", 1); ("", 1)].
Proof. reflexivity. Qed.

(** ** More on strings *)

Lemma lower_append a b :
  PyStr.lower (a ++ b) = (PyStr.lower a ++ PyStr.lower b)%string.
Proof. induction a as [|c a IH]; simpl; [reflexivity|now rewrite IH]. Qed.

Lemma lower_length s : String.length (PyStr.lower s) = String.length s.
Proof. induction s as [|c s IH]; simpl; [reflexivity|now rewrite IH]. Qed.

Lemma lower_ascii_is_dot c :
  Ascii.eqb (PyStr.lower_ascii c) "." = Ascii.eqb c ".".
Proof.
  destruct c as [[] [] [] [] [] [] [] []]; reflexivity.
Qed.

Lemma rfind_dot_lower s : PyStr.rfind_dot (PyStr.lower s) = PyStr.rfind_dot s.
Proof.
  induction s as [|c s IH]; simpl; [reflexivity|].
  now rewrite IH, lower_ascii_is_dot.
Qed.

Lemma rfind_dot_app a b :
  PyStr.rfind_dot (a ++ b)
  = match PyStr.rfind_dot b with
    | Some i => Some (String.length a + i)
    | None => PyStr.rfind_dot a
    end.
Proof.
  induction a as [|c a IH]; simpl.
  - destruct (PyStr.rfind_dot b); reflexivity.
  - rewrite IH. destruct (PyStr.rfind_dot b); reflexivity.
Qed.

Lemma slice_from_app a b : PyStr.slice_from (String.length a) (a ++ b) = b.
Proof.
  unfold PyStr.slice_from. rewrite append_length.
  replace (String.length a + String.length b - String.length a)
    with (String.length b) by lia.
  induction a as [|c a IH]; simpl; [|exact IH].
  induction b as [|d b IHb]; simpl; [reflexivity|now rewrite IHb].
Qed.

Lemma endswith_iff s suf :
  PyStr.endswith s suf = true <-> exists pre, s = (pre ++ suf)%string.
Proof.
  unfold PyStr.endswith. split.
  - intros H. apply andb_true_iff in H. destruct H as [Hl He].
    apply Nat.leb_le in Hl. apply String.eqb_eq in He.
    exists (substring 0 (String.length s - String.length suf) s).
    rewrite (substring_split s (String.length s - String.length suf)) at 1
      by lia.
    f_equal. unfold PyStr.slice_from.
    replace (String.length s - (String.length s - String.length suf))
      with (String.length suf) by lia.
    exact He.
  - intros [pre ->]. rewrite append_length. apply andb_true_iff. split.
    + apply Nat.leb_le. lia.
    + replace (String.length pre + String.length suf - String.length suf)
        with (String.length pre) by lia.
      pose proof (slice_from_app pre suf) as H. unfold PyStr.slice_from in H.
      rewrite append_length in H.
      replace (String.length pre + String.length suf - String.length pre)
        with (String.length suf) in H by lia.
      rewrite H. apply String.eqb_refl.
Qed.

Lemma lower_split s :
  forall a b, PyStr.lower s = (a ++ b)%string ->
              exists a' b', s = (a' ++ b')%string
                            /\ PyStr.lower a' = a /\ PyStr.lower b' = b.
Proof.
  induction s as [|c s IH]; intros a b H.
  - destruct a; [|discriminate]. simpl in H. subst b.
    exists "", "". auto.
  - destruct a as [|d a].
    + exists "", (String c s). simpl in *. auto.
    + simpl in H. injection H as Hd Hs.
      destruct (IH _ _ Hs) as (a' & b' & -> & Ha & Hb).
      exists (String c a'), b'. simpl. rewrite Ha, Hd. auto.
Qed.

Lemma append_inj_length a :
  forall a' b b',
    String.length a = String.length a' ->
    (a ++ b)%string = (a' ++ b')%string -> b = b'.
Proof.
  induction a as [|c a IH]; intros a' b b' Hl H; destruct a' as [|c' a'];
    simpl in *; try discriminate; [assumption|].
  injection H as _ H. injection Hl as Hl. eauto.
Qed.

(** ** Names without a path separator *)

Lemma split_no_slash s : no_slash s = true -> PyStr.split "/" s = [s].
Proof.
  unfold no_slash. induction s as [|c s IH]; simpl; [reflexivity|].
  intros H. apply negb_true_iff in H. apply orb_false_iff in H.
  destruct H as [Hc Hs]. rewrite Hc, IH; [reflexivity|].
  now rewrite Hs.
Qed.

(** Without a separator the suffix is read off the name itself. *)
Lemma suffix_no_slash s :
  no_slash s = true ->
  PyPath.suffix s
  = match PyStr.rfind_dot s with
    | Some i =>
        if (0 <? i) && (i <? String.length s - 1)
        then PyStr.slice_from i s else ""
    | None => ""
    end.
Proof.
  intros H. unfold PyPath.suffix, PyPath.name, PyPath.parts.
  rewrite (split_no_slash s H). simpl.
  destruct (String.eqb_spec s "") as [->|_]; [reflexivity|].
  destruct (String.eqb_spec s ".") as [->|_]; reflexivity.
Qed.

Lemma rfind_dot_of_slice s :
  forall i, PyStr.rfind_dot s = Some i ->
            PyStr.rfind_dot (PyStr.slice_from i s) = Some 0.
Proof.
  unfold PyStr.slice_from.
  induction s as [|c s IH]; simpl; intros i; [discriminate|].
  destruct (PyStr.rfind_dot s) as [j|] eqn:E.
  - intros [= <-]. simpl. now apply IH.
  - destruct (Ascii.eqb_spec c "."); [|discriminate]. intros [= <-]. subst c.
    simpl.
    assert (substring 0 (String.length s) s = s) as ->.
    { clear. induction s as [|d s IH]; simpl; [reflexivity|now rewrite IH]. }
    now rewrite E.
Qed.

(** ** The analyzer and the deleter on names without a separator *)

Lemma counted_then_selected f :
  no_slash (file_name f) = true -> counted_as_pdf f = true ->
  is_pdf f = true /\ bare_pdf f = false.
Proof.
  unfold counted_as_pdf, is_pdf, bare_pdf. intros Hs Hc.
  apply String.eqb_eq in Hc. rewrite (suffix_no_slash _ Hs) in Hc.
  destruct (PyStr.rfind_dot (file_name f)) as [i|] eqn:Er; [|discriminate].
  destruct ((0 <? i) && (i <? String.length (file_name f) - 1)) eqn:Ec;
    [|discriminate].
  apply andb_true_iff in Ec. destruct Ec as [Hi _]. apply Nat.ltb_lt in Hi.
  split.
  - apply endswith_iff.
    exists (PyStr.lower (substring 0 i (file_name f))).
    rewrite <- Hc, <- lower_append. f_equal. apply substring_split.
    apply rfind_dot_lt in Er. lia.
  - apply String.eqb_neq. intros Hb.
    rewrite <- rfind_dot_lower, Hb in Er. simpl in Er.
    injection Er as <-. lia.
Qed.

Lemma selected_then_counted f :
  no_slash (file_name f) = true -> is_pdf f = true -> bare_pdf f = false ->
  counted_as_pdf f = true.
Proof.
  unfold counted_as_pdf, is_pdf, bare_pdf. intros Hs Hp Hb.
  apply endswith_iff in Hp. destruct Hp as [pre' Hp].
  destruct (lower_split _ _ _ Hp) as (pre & e & Hn & Hpre & He).
  assert (PyStr.rfind_dot e = Some 0) as Hre
      by (rewrite <- rfind_dot_lower, He; reflexivity).
  assert (String.length e = 4) as Hle
      by (rewrite <- lower_length, He; reflexivity).
  assert (0 < String.length pre) as Hpos.
  { destruct pre as [|c pre]; [|simpl; lia]. simpl in Hn.
    rewrite Hn, He, String.eqb_refl in Hb. discriminate. }
  rewrite (suffix_no_slash _ Hs), Hn, rfind_dot_app, Hre, Nat.add_0_r.
  rewrite append_length, Hle.
  replace (0 <? String.length pre) with true
    by (symmetry; apply Nat.ltb_lt; lia).
  replace (String.length pre <? String.length pre + 4 - 1) with true
    by (symmetry; apply Nat.ltb_lt; lia).
  simpl. rewrite slice_from_app, He. reflexivity.
Qed.

Lemma pdf_count_gap fs :
  Forall (fun f => no_slash (file_name f) = true) fs ->
  List.length (filter counted_as_pdf fs) + List.length (filter bare_pdf fs)
  = List.length (filter is_pdf fs).
Proof.
  induction fs as [|f fs IH]; intros H; [reflexivity|].
  inversion H as [|? ? Hf Hfs]; subst. specialize (IH Hfs). simpl.
  destruct (counted_as_pdf f) eqn:Ec.
  - destruct (counted_then_selected f Hf Ec) as [-> ->]. simpl. lia.
  - destruct (bare_pdf f) eqn:Eb.
    + assert (is_pdf f = true) as ->.
      { unfold bare_pdf in Eb. apply String.eqb_eq in Eb. unfold is_pdf.
        rewrite Eb. reflexivity. }
      simpl. lia.
    + destruct (is_pdf f) eqn:Ep; [|simpl; lia].
      rewrite (selected_then_counted f Hf Ep Eb) in Ec. discriminate.
Qed.

(** X6.  For a file whose name has no [/], the analyzer counts it as PDF
    exactly when the deleter selects it and its lowercased name is not
    just [.pdf].  So, over files with such names, the PDF count reported
    by the analyzer plus the number of files named [.pdf] (in any case) is
    the number of files the deleter selects. *)
Theorem analyzer_counts_selected_but_bare fs :
  Forall (fun f => no_slash (file_name f) = true) fs ->
  Forall (fun f => counted_as_pdf f = is_pdf f && negb (bare_pdf f)) fs
  /\ pdf_files (analyze_files fs) + List.length (filter bare_pdf fs)
     = List.length (filter is_pdf fs).
Proof.
  intros H. split.
  - apply Forall_forall. intros f Hf. rewrite Forall_forall in H.
    specialize (H f Hf). destruct (counted_as_pdf f) eqn:Ec.
    + destruct (counted_then_selected f H Ec) as [-> ->]. reflexivity.
    + destruct (is_pdf f) eqn:Ep; [|reflexivity].
      destruct (bare_pdf f) eqn:Eb; [reflexivity|].
      rewrite (selected_then_counted f H Ep Eb) in Ec. discriminate.
  - unfold analyze_files.
    destruct (analyze_fold fs
                {| total_files := List.length fs; pdf_files := 0;
                   other_files := 0; file_types := [] |}) as (_ & H2 & _).
    simpl in H2. rewrite H2. now apply pdf_count_gap.
Qed.

Lemma analyzer_counts_selected_but_bare_witness :
  let fs := [mk_file "1" "a.PDF"; mk_file "2" ".pdf"; mk_file "3" "b.txt"] in
  Forall (fun f => no_slash (file_name f) = true) fs
  /\ pdf_files (analyze_files fs) + List.length (filter bare_pdf fs)
     = List.length (filter is_pdf fs).
Proof.
  intros fs. split; [repeat constructor|].
  apply (analyzer_counts_selected_but_bare fs). repeat constructor.
Defined.

(** With a separator the two tests part the other way: the name [x.pdf/]
    is counted as PDF and is not selected for deletion. *)
Example trailing_slash_counted_not_selected :
  counted_as_pdf (mk_file "1" "x.pdf/") = true
  /\ is_pdf (mk_file "1" "x.pdf/") = false.
Proof. split; reflexivity. Qed.

(** ** New names and the deleter *)

Lemma append_assoc (a b c : string) :
  ((a ++ b) ++ c)%string = (a ++ (b ++ c))%string.
Proof. induction a as [|x a IH]; simpl; [reflexivity|now rewrite IH]. Qed.

Lemma last_char_app a b :
  last_char (a ++ b)
  = match last_char b with
    | Some c => Some c
    | None => last_char a
    end.
Proof.
  induction a as [|x a IH]; simpl.
  - destruct (last_char b); reflexivity.
  - rewrite IH. destruct (last_char b); reflexivity.
Qed.

Lemma last_char_lower s :
  last_char (PyStr.lower s) = option_map PyStr.lower_ascii (last_char s).
Proof.
  induction s as [|c s IH]; simpl; [reflexivity|].
  rewrite IH. destruct (last_char s); reflexivity.
Qed.

Lemma last_char_digits s :
  all_digits s = true -> s <> "" ->
  exists c, last_char s = Some c /\ is_digit c = true.
Proof.
  induction s as [|c s IH]; simpl; intros H Hne; [congruence|].
  apply andb_true_iff in H. destruct H as [Hc Hs].
  destruct s as [|d s]; [exists c; auto|].
  destruct (IH Hs) as (x & Hx & Hd); [discriminate|].
  exists x. now rewrite Hx.
Qed.

Lemma digit_lower_not_f c :
  is_digit c = true -> PyStr.lower_ascii c <> "f"%char.
Proof.
  destruct c as [[] [] [] [] [] [] [] []]; vm_compute; congruence.
Qed.

Lemma format_03d_nonempty i : PyStr.format_03d i <> "".
Proof.
  intros H. pose proof (format_03d_length i) as Hl. rewrite H in Hl.
  simpl in Hl. lia.
Qed.

Lemma planned_name_not_pdf custom idx f :
  no_slash (file_name f) = true -> is_pdf f = false ->
  PyStr.endswith (PyStr.lower (planned_name custom idx (file_name f))) ".pdf"
  = false.
Proof.
  intros Hs Hp.
  destruct (PyStr.endswith _ ".pdf") eqn:He; [exfalso|reflexivity].
  apply endswith_iff in He. destruct He as [pre He]. unfold planned_name in He.
  destruct (PyPath.suffix (file_name f)) as [|c t] eqn:Esuf.
  - (* no suffix: the new name ends with a digit *)
    rewrite append_empty_r in He.
    assert (last_char (PyStr.lower (custom ++ "_" ++ PyStr.format_03d idx))
            = Some "f"%char) as Hl by (rewrite He, last_char_app; reflexivity).
    rewrite last_char_lower, last_char_app, last_char_app in Hl.
    destruct (last_char_digits _ (format_03d_digits idx)
                (format_03d_nonempty idx)) as (d & Hd & Hdig).
    rewrite Hd in Hl. simpl in Hl. injection Hl as Hl.
    exact (digit_lower_not_f d Hdig Hl).
  - (* a suffix: it would be [.pdf] *)
    assert (PyStr.rfind_dot (String c t) = Some 0) as Hr.
    { rewrite <- Esuf, (suffix_no_slash _ Hs).
      rewrite (suffix_no_slash _ Hs) in Esuf.
      destruct (PyStr.rfind_dot (file_name f)) as [i|] eqn:Er; [|discriminate].
      destruct ((0 <? i) && (i <? String.length (file_name f) - 1));
        [|discriminate].
      now apply rfind_dot_of_slice. }
    set (B := (custom ++ "_" ++ PyStr.format_03d idx)%string).
    assert ((custom ++ "_" ++ PyStr.format_03d idx ++ String c t)%string
            = (B ++ String c t)%string) as HB
        by (unfold B; now rewrite !append_assoc).
    rewrite HB in He.
    assert (String.length B = String.length pre) as Hlen.
    { pose proof (f_equal PyStr.rfind_dot He) as H.
      rewrite rfind_dot_lower, !rfind_dot_app, Hr in H. simpl in H.
      injection H as H. lia. }
    rewrite lower_append in He.
    apply append_inj_length in He; [|now rewrite lower_length].
    assert (counted_as_pdf f = true) as Hc.
    { unfold counted_as_pdf. rewrite Esuf, He. reflexivity. }
    destruct (counted_then_selected f Hs Hc) as [Hsel _]. congruence.
Qed.

(** X7.  When no collected file has a [/] in its name, no new name of the
    rename plan ends in [.pdf] (in any case): a file that has been renamed
    is not selected by a later deletion pass. *)
Theorem renamed_files_escape_deletion E all_files custom dry_run w :
  Forall (fun f => no_slash (file_name f) = true) all_files ->
  Forall (fun e => PyStr.endswith (PyStr.lower (new_name e)) ".pdf" = false)
         (plan_of (rename_selected E all_files custom dry_run w)).
Proof.
  intros Hs. apply Forall_forall. intros e He.
  rewrite rename_selected_plan in He.
  destruct (numbered_In _ _ _ _ He) as (k & f & Hk & ->).
  apply nth_error_In in Hk.
  apply (Permutation_in _ (Permutation_sym (sort_by_name_perm _))) in Hk.
  apply filter_In in Hk. destruct Hk as [Hin Hp].
  unfold not_pdf in Hp. apply negb_true_iff in Hp.
  rewrite Forall_forall in Hs.
  exact (planned_name_not_pdf custom (1 + k) f (Hs f Hin) Hp).
Qed.

Lemma renamed_files_escape_deletion_witness :
  Forall (fun f => no_slash (file_name f) = true) scenario
  /\ Forall (fun e => PyStr.endswith (PyStr.lower (new_name e)) ".pdf" = false)
            (plan_of (rename_selected calm scenario "x.pdf" false start)).
Proof.
  split; [repeat constructor|].
  apply (renamed_files_escape_deletion calm scenario "x.pdf" false start).
  repeat constructor.
Defined.

(** With a separator at the end of the name this fails: [x.pdf/] is kept
    for renaming and its new name ends in [.pdf]. *)
Example trailing_slash_renamed_to_pdf :
  map new_name
      (plan_of (rename_selected calm [mk_file "1" "x.pdf/"] "doc" true start))
  = ["doc_001.pdf"].
Proof. reflexivity. Qed.

(** ** What the folder lookup returns and touches *)



Lemma find_confirmed_sound E folder_path files :
  forall w,
    let r := find_confirmed E folder_path files w in
    remote_trace (snd r) = remote_trace w
    /\ log (snd r) = log w
    /\ disk (snd r) = disk w
    /\ clock_reads (snd r) = clock_reads w
    /\ (exists extra, prompts (snd r) = prompts w ++ extra)
    /\ match fst r with
       | Some c =>
           In c files /\ node_t (snd c) = 1%Z
           /\ exists nm, attr_n (node_a (snd c)) = Some nm
                         /\ PyStr.contains folder_path nm = true
       | None => True
       end.
Proof.
  induction files as [|[fid fdata] rest IH]; intros w; simpl.
  - repeat split; auto. exists []. now rewrite app_nil_r.
  - assert (forall w1 : World,
              remote_trace w1 = remote_trace w -> log w1 = log w ->
              disk w1 = disk w -> clock_reads w1 = clock_reads w ->
              (exists extra, prompts w1 = prompts w ++ extra) ->
              let r := find_confirmed E folder_path rest w1 in
              remote_trace (snd r) = remote_trace w
              /\ log (snd r) = log w
              /\ disk (snd r) = disk w
              /\ clock_reads (snd r) = clock_reads w
              /\ (exists extra, prompts (snd r) = prompts w ++ extra)
              /\ match fst r with
                 | Some c =>
                     ((fid, fdata) = c \/ In c rest) /\ node_t (snd c) = 1%Z
                     /\ exists nm, attr_n (node_a (snd c)) = Some nm
                                   /\ PyStr.contains folder_path nm = true
                 | None => True
                 end) as Hrest.
    { intros w1 H1 H2 H3 H4 [x Hx]. cbv zeta.
      destruct (IH w1) as (G1 & G2 & G3 & G4 & [y Hy] & G6).
      rewrite G1, G2, G3, G4, Hy, Hx.
      repeat (split; [congruence|]). split.
      - exists (x ++ y). now rewrite app_assoc.
      - destruct (fst (find_confirmed E folder_path rest w1)); [|exact I].
        destruct G6 as (? & ? & ?). auto. }
    destruct (attr_n (node_a fdata)) as [nm|] eqn:En.
    + destruct (PyStr.contains folder_path nm) eqn:Ec; simpl.
      * destruct (Z.eqb_spec (node_t fdata) 1) as [Ht|_].
        -- destruct (String.eqb _ "y").
           ++ simpl. repeat split; auto.
              ** eexists. reflexivity.
              ** exists nm. auto.
           ++ apply Hrest; auto. eexists. reflexivity.
        -- apply Hrest; auto. exists []. now rewrite app_nil_r.
      * apply Hrest; auto. exists []. now rewrite app_nil_r.
    + apply Hrest; auto. exists []. now rewrite app_nil_r.
Qed.


(** ** The log of a live pass *)

Lemma delete_loop_log E items :
  forall n w c w',
    delete_loop E false items n w = (c, w') ->
    exists outs,
      List.length outs = List.length items
      /\ remote_trace w'
         = remote_trace w ++ combine (map destroy_call items) outs
      /\ log w' = log w ++ map delete_line (combine items outs)
      /\ c = n + List.length (filter returned outs)
      /\ prompts w' = prompts w /\ clock_reads w' = clock_reads w
      /\ disk w' = disk w.
Proof.
  induction items as [|f rest IH]; intros n w c w' H; simpl in H.
  - injection H as <- <-. exists []. simpl. rewrite !app_nil_r.
    repeat split; auto.
  - destruct (remote E (remote_trace w) (Destroy (file_id f))) as [|e] eqn:Er;
      apply IH in H; destruct H as (outs & H1 & H2 & H3 & H4 & H5 & H6 & H7);
      simpl in *.
    + exists (Returned :: outs). simpl.
      rewrite H2, H3, <- !app_assoc. repeat split; auto; lia.
    + exists (Raised e :: outs). simpl.
      rewrite H2, H3, <- !app_assoc. repeat split; auto; lia.
Qed.

(** X9.  A live deletion issues one [destroy] call for each selected file,
    in order, and logs one line for each: an INFO line when the call
    returned, an ERROR line with the text of the exception when it raised.
    The returned count is the number of calls that returned.  The pass
    prompts nothing, reads no clock and writes no file. *)
Theorem live_deletion_log E all_files w :
  let sel := filter is_pdf all_files in
  let r := delete_selected E all_files false w in
  exists outs,
    List.length outs = List.length sel
    /\ remote_trace (snd r)
       = remote_trace w ++ combine (map destroy_call sel) outs
    /\ log (snd r) = log w ++ map delete_line (combine sel outs)
    /\ fst r = List.length (filter returned outs)
    /\ prompts (snd r) = prompts w /\ clock_reads (snd r) = clock_reads w
    /\ disk (snd r) = disk w.
Proof.
  intros sel r. unfold r, delete_selected. fold sel.
  destruct sel as [|f rest] eqn:Es.
  - exists []. simpl. rewrite !app_nil_r. repeat split; auto.
  - destruct (delete_loop E false (f :: rest) 0 w) as [c w'] eqn:El.
    apply delete_loop_log in El. exact El.
Qed.

Lemma rename_loop_log E custom items :
  forall idx entries n w es c w',
    rename_loop E custom false items idx entries n w = (es, c, w') ->
    exists outs,
      List.length outs = List.length items
      /\ remote_trace w'
         = remote_trace w
           ++ combine (map rename_call (numbered custom idx items)) outs
      /\ log w'
         = log w ++ map rename_line (combine (numbered custom idx items) outs)
      /\ c = n + List.length (filter returned outs)
      /\ prompts w' = prompts w.
Proof.
  induction items as [|f rest IH]; intros idx entries n w es c w' H;
    simpl in H.
  - injection H as <- <- <-. exists []. simpl. rewrite !app_nil_r.
    repeat split; auto.
  - rewrite numbered_cons.
    destruct (remote E (remote_trace w)
                (Rename (file_id f) (planned_name custom idx (file_name f))))
      as [|e] eqn:Er;
      apply IH in H; destruct H as (outs & H1 & H2 & H3 & H4 & H5);
      simpl in *.
    + exists (Returned :: outs). simpl.
      rewrite H2, H3, <- !app_assoc. repeat split; auto; lia.
    + exists (Raised e :: outs). simpl.
      rewrite H2, H3, <- !app_assoc. repeat split; auto; lia.
Qed.

Lemma save_backup_log E dry n b w :
  prompts (save_backup E dry n b w) = prompts w
  /\ exists tail,
       log (save_backup E dry n b w) = log w ++ tail
       /\ (tail = []
           \/ exists e, tail = [(ERROR, ("Error saving backup: " ++ e)%string)]).
Proof.
  unfold save_backup. destruct (negb dry && (0 <? n)).
  - unfold write_json, read_clock. simpl.
    destruct (open_w E (disk w) _) as [|e]; simpl.
    + split; [reflexivity|]. exists []. rewrite app_nil_r. auto.
    + split; [reflexivity|]. eexists. split; [reflexivity|]. right. eauto.
  - split; [reflexivity|]. exists []. rewrite app_nil_r. auto.
Qed.

(** X10.  A live rename pass issues one [rename] call for each entry of
    its plan, in order, with the planned new name, and logs one line for
    each: an INFO line when the call returned, an ERROR line with the text
    of the exception when it raised; the only line it may log after these
    is the error of saving the backup.  The returned count is the number
    of calls that returned.  The pass prompts nothing. *)
Theorem live_rename_log E all_files custom w :
  let r := rename_selected E all_files custom false w in
  let plan := plan_of r in
  exists outs tail,
    List.length outs = List.length plan
    /\ remote_trace (snd r)
       = remote_trace w ++ combine (map rename_call plan) outs
    /\ log (snd r) = log w ++ map rename_line (combine plan outs) ++ tail
    /\ (tail = []
        \/ exists e, tail = [(ERROR, ("Error saving backup: " ++ e)%string)])
    /\ fst (fst r) = List.length (filter returned outs)
    /\ prompts (snd r) = prompts w.
Proof.
  intros r plan.
  assert (plan = numbered custom 1 (sort_by_name (filter not_pdf all_files)))
    as Hplan by apply rename_selected_plan.
  destruct (rename_selected_shape E all_files custom false w)
    as [[Hk Hr]|[Hk (es & c & w2 & Hl & Hr)]]; fold r in Hr.
  - exists [], []. rewrite Hplan, Hk, Hr. simpl. rewrite !app_nil_r.
    repeat split; auto.
  - apply rename_loop_log in Hl.
    destruct Hl as (outs & H1 & H2 & H3 & H4 & H5). simpl in *.
    match type of Hr with
    | _ = (_, _, save_backup E false c ?b w2) =>
        destruct (save_backup_log E false c b w2) as (Hp & tail & Ht & Hcase);
        pose proof (save_backup_trace E false c b w2) as Htr
    end.
    exists outs, tail. rewrite Hplan, Hr. simpl fst. simpl snd.
    rewrite numbered_length, Htr, Ht, Hp, H2, H3, H5, <- app_assoc.
    repeat split; auto.
Qed.

(** ** The calls of a pass stay below the folder *)

Lemma walk_sound fuel files folder_id all_files :
  unique_ids files = true ->
  get_all_files_recursive fuel files folder_id = Some all_files ->
  Forall (fun f =>
            exists fid fdata,
              f = file_record fid fdata /\ In (fid, fdata) files
              /\ node_t fdata = 0%Z
              /\ reaches fuel files folder_id fid = true) all_files.
Proof.
  intros Hu H. apply nodupb_NoDup in Hu. rewrite get_all_files_collect in H.
  apply Forall_forall. intros f Hf.
  destruct (collect_sound files Hu _ _ _ _ H Hf) as (fid & fdata & ? & ? & ? & ?).
  exists fid, fdata. auto.
Qed.

(** X11.  Every remote call of a live pass is for a type=file node of the
    listing whose parent chain arrives at the given folder through
    folders: a live deletion only destroys such nodes whose lowercased
    name ends in [.pdf], and a live rename only renames such nodes whose
    name does not.  Nothing outside the folder is touched. *)
Theorem live_calls_stay_below_folder E fuel files folder_id custom w :
  unique_ids files = true ->
  match delete_pdfs E fuel files folder_id false w,
        rename_files E fuel files folder_id custom false w with
  | Some d, Some r =>
      exists dcalls rcalls,
        map fst (remote_trace (snd d)) = map fst (remote_trace w) ++ dcalls
        /\ map fst (remote_trace (snd r)) = map fst (remote_trace w) ++ rcalls
        /\ Forall (fun c =>
                     exists fid fdata,
                       c = Destroy fid /\ In (fid, fdata) files
                       /\ node_t fdata = 0%Z
                       /\ reaches fuel files folder_id fid = true
                       /\ is_pdf (file_record fid fdata) = true) dcalls
        /\ Forall (fun c =>
                     exists fid fdata new,
                       c = Rename fid new /\ In (fid, fdata) files
                       /\ node_t fdata = 0%Z
                       /\ reaches fuel files folder_id fid = true
                       /\ is_pdf (file_record fid fdata) = false) rcalls
  | None, None => get_all_files_recursive fuel files folder_id = None
  | _, _ => False
  end.
Proof.
  intros Hu. unfold delete_pdfs, rename_files.
  destruct (get_all_files_recursive fuel files folder_id) as [all_files|] eqn:Ew;
    [|reflexivity].
  pose proof (walk_sound _ _ _ _ Hu Ew) as Hs. rewrite Forall_forall in Hs.
  destruct (delete_selected_live E all_files w) as (Hd & _ & _).
  destruct (rename_selected_live E all_files custom w) as (Hr & _).
  exists (map destroy_call (filter is_pdf all_files)),
         (map rename_call
              (plan_of (rename_selected E all_files custom false w))).
  split; [rewrite Hd; apply issue_calls|].
  split; [rewrite Hr; apply issue_calls|]. split.
  - apply Forall_forall. intros c Hc. apply in_map_iff in Hc.
    destruct Hc as (f & <- & Hf). apply filter_In in Hf. destruct Hf as [Hin Hp].
    destruct (Hs f Hin) as (fid & fdata & -> & ? & ? & ?).
    exists fid, fdata. auto.
  - apply Forall_forall. intros c Hc. apply in_map_iff in Hc.
    destruct Hc as (e & <- & He). rewrite rename_selected_plan in He.
    destruct (numbered_In _ _ _ _ He) as (k & f & Hk & ->).
    apply nth_error_In in Hk.
    apply (Permutation_in _ (Permutation_sym (sort_by_name_perm _))) in Hk.
    apply filter_In in Hk. destruct Hk as [Hin Hp].
    unfold not_pdf in Hp. apply negb_true_iff in Hp.
    destruct (Hs f Hin) as (fid & fdata & -> & ? & ? & ?).
    exists fid, fdata. eexists. split; [reflexivity|]. auto.
Qed.

Lemma live_calls_stay_below_folder_witness :
  unique_ids sample = true
  /\ match delete_pdfs calm 3 sample "F" false start,
           rename_files calm 3 sample "F" "doc" false start with
     | Some d, Some r =>
         exists dcalls rcalls,
           map fst (remote_trace (snd d)) = map fst (remote_trace start) ++ dcalls
           /\ map fst (remote_trace (snd r))
              = map fst (remote_trace start) ++ rcalls
           /\ Forall (fun c =>
                        exists fid fdata,
                          c = Destroy fid /\ In (fid, fdata) sample
                          /\ node_t fdata = 0%Z
                          /\ reaches 3 sample "F" fid = true
                          /\ is_pdf (file_record fid fdata) = true) dcalls
           /\ Forall (fun c =>
                        exists fid fdata new,
                          c = Rename fid new /\ In (fid, fdata) sample
                          /\ node_t fdata = 0%Z
                          /\ reaches 3 sample "F" fid = true
                          /\ is_pdf (file_record fid fdata) = false) rcalls
     | None, None => get_all_files_recursive 3 sample "F" = None
     | _, _ => False
     end.
Proof.
  split; [reflexivity|].
  exact (live_calls_stay_below_folder calm 3 sample "F" "doc" start eq_refl).
Defined.

(** ** The breakdown printed by [display_stats] *)

Lemma insert_by_count_perm x l : Permutation (x :: l) (insert_by_count x l).
Proof.
  induction l as [|y l IH]; simpl; [reflexivity|].
  destruct (snd y <=? snd x); [reflexivity|].
  rewrite perm_swap. now constructor.
Qed.

Lemma sort_by_count_perm l : Permutation l (sort_by_count l).
Proof.
  induction l as [|x l IH]; simpl; [constructor|].
  rewrite <- insert_by_count_perm. now constructor.
Qed.

Lemma insert_by_count_sorted x l :
  Sorted count_ge l -> Sorted count_ge (insert_by_count x l).
Proof.
  induction l as [|y l IH]; simpl; intros Hs.
  - repeat constructor.
  - destruct (snd y <=? snd x) eqn:E.
    + constructor; [assumption|]. constructor. now apply Nat.leb_le.
    + apply Nat.leb_gt in E.
      inversion Hs as [|? ? Hl Hhd]; subst. constructor; [auto|].
      destruct l as [|z l]; simpl.
      * constructor. unfold count_ge. lia.
      * destruct (snd z <=? snd x); constructor.
        -- unfold count_ge. lia.
        -- now inversion Hhd.
Qed.

Lemma sort_by_count_sorted l : StronglySorted count_ge (sort_by_count l).
Proof.
  apply Sorted_StronglySorted.
  - intros x y z. unfold count_ge. lia.
  - induction l as [|x l IH]; simpl; [constructor|].
    now apply insert_by_count_sorted.
Qed.

Lemma insert_by_count_stable n x l :
  filter (fun kv => snd kv =? n) (insert_by_count x l)
  = filter (fun kv => snd kv =? n) (x :: l).
Proof.
  induction l as [|y l IH]; [reflexivity|]. simpl insert_by_count.
  destruct (snd y <=? snd x) eqn:E; [reflexivity|].
  apply Nat.leb_gt in E. simpl in *. rewrite IH.
  destruct (Nat.eqb_spec (snd x) n) as [Hx|_]; [|reflexivity].
  destruct (Nat.eqb_spec (snd y) n) as [Hy|_]; [|reflexivity]. lia.
Qed.

Lemma sort_by_count_stable n l :
  filter (fun kv => snd kv =? n) (sort_by_count l)
  = filter (fun kv => snd kv =? n) l.
Proof.
  induction l as [|x l IH]; [reflexivity|]. simpl sort_by_count.
  rewrite insert_by_count_stable. simpl. now rewrite IH.
Qed.

(** X12.  After its five heading lines, [display_stats] prints one line
    for each extension of the histogram, each once, by descending count,
    extensions of equal count in the order in which the histogram has
    them; the empty extension is shown as [(no extension)]. *)
Theorem display_stats_breakdown st :
  exists order,
    Permutation (file_types st) order
    /\ StronglySorted count_ge order
    /\ (forall n, filter (fun kv => snd kv =? n) order
                  = filter (fun kv => snd kv =? n) (file_types st))
    /\ skipn 5 (display_stats st) = map breakdown_line order
    /\ List.length (display_stats st) = 5 + List.length (file_types st)
    /\ forall n,
         breakdown_line ("", n)
         = ("  (no extension): " ++ PyStr.str_of_nat n)%string.
Proof.
  exists (sort_by_count (file_types st)).
  split; [apply sort_by_count_perm|].
  split; [apply sort_by_count_sorted|].
  split; [intros n; apply sort_by_count_stable|].
  split; [reflexivity|]. split; [|reflexivity].
  unfold display_stats. rewrite length_app, length_map.
  rewrite <- (Permutation_length (sort_by_count_perm _)). reflexivity.
Qed.

Example display_sample :
  display_stats (analyze_files
                   [mk_file "1" "a.TXT"; mk_file "2" "b.pdf";
                    mk_file "3" "README"; mk_file "4" "c.txt"])
  = [ (nl ++ "=== FOLDER STATISTICS ===")%string;
      "Total files: 4";
      "PDF files: 1 (will be deleted)";
      "Other files: 3 (will be renamed)";
      (nl ++ "File types breakdown:")%string;
      "  .txt: 2"; "  .pdf: 1"; "  (no extension): 1" ].
Proof. reflexivity. Qed.

(** ** Login and the saved sessions *)

Lemma session_of_assign_same k v d : session_of k (assign k v d) = Some v.
Proof.
  induction d as [|[k' v'] d IH]; simpl.
  - now rewrite String.eqb_refl.
  - destruct (String.eqb_spec k' k) as [->|Hne]; simpl.
    + now rewrite String.eqb_refl.
    + destruct (String.eqb_spec k' k); [contradiction|exact IH].
Qed.

Lemma session_of_assign_other k k0 v d :
  k0 <> k -> session_of k0 (assign k v d) = session_of k0 d.
Proof.
  intros Hne. induction d as [|[k' v'] d IH]; simpl.
  - destruct (String.eqb_spec k k0); [congruence|reflexivity].
  - destruct (String.eqb_spec k' k) as [->|Hk]; simpl.
    + destruct (String.eqb_spec k k0); [congruence|reflexivity].
    + destruct (String.eqb k' k0); [reflexivity|exact IH].
Qed.

(** X13.  A login that the service refuses returns [False] and changes
    nothing but the log, which gets one error line: the sessions, the
    configuration file and the current account stay as they were.  A login
    that succeeds returns [True], makes the account current and records
    the password as typed and the time under the email, leaving the other
    accounts as they were; when the configuration file can be written it
    then holds the sessions of the manager, so that loading it gives them
    back, and when it cannot the login still succeeds and the file is as
    before.  No file is destroyed or renamed by a login. *)
Theorem login_outcomes H email pw m :
  let r := login H email pw m in
  quiet m (snd r)
  /\ prompts (world (snd r)) = prompts (world m)
  /\ match mega_login H email pw with
     | Raised e =>
         fst r = false
         /\ sessions (snd r) = sessions m
         /\ config_file (snd r) = config_file m
         /\ current_account (snd r) = current_account m
         /\ mega_instance (snd r) = mega_instance m
         /\ log (world (snd r))
            = log (world m)
              ++ [(ERROR, ("Login failed for " ++ email ++ ": " ++ e)%string)]
     | Returned =>
         fst r = true
         /\ current_account (snd r) = Some email
         /\ mega_instance (snd r) = Some email
         /\ session_of email (sessions (snd r))
            = Some {| password := pw;
                      last_used :=
                        long_stamp H (now (env H) (clock_reads (world m))) |}
         /\ (forall other, other <> email ->
               session_of other (sessions (snd r))
               = session_of other (sessions m))
         /\ match config_open_w H (config_file m) with
            | Returned =>
                config_file (snd r) = Some (Parsed (sessions (snd r)))
                /\ fst (load_sessions (snd r)) = sessions (snd r)
            | Raised _ => config_file (snd r) = config_file m
            end
     end.
Proof.
  unfold login, quiet. destruct (mega_login H email pw) as [|e]; simpl.
  - unfold save_sessions. simpl.
    destruct (config_open_w H (config_file m)) as [|e]; simpl.
    + repeat split; auto using session_of_assign_same.
      intros other Hne. now apply session_of_assign_other.
    + repeat split; auto using session_of_assign_same.
      intros other Hne. now apply session_of_assign_other.
  - repeat split; reflexivity.
Qed.

Example login_round_trip :
  let m := snd (login cooperative "bob@example.org" "hunter2" manager0) in
  map fst (sessions m) = ["ann@example.org"; "bob@example.org"]
  /\ sessions (init (config_file m) start) = sessions m.
Proof. split; reflexivity. Qed.

(** ** The selection of an account *)

Lemma only_prompted_refl w : only_prompted w w.
Proof.
  unfold only_prompted. repeat split; auto. exists []. now rewrite app_nil_r.
Qed.

Lemma only_prompted_trans w1 w2 w3 :
  only_prompted w1 w2 -> only_prompted w2 w3 -> only_prompted w1 w3.
Proof.
  unfold only_prompted.
  intros (A1 & A2 & A3 & A4 & [x Hx]) (B1 & B2 & B3 & B4 & [y Hy]).
  repeat split; try congruence. exists (x ++ y).
  now rewrite Hy, Hx, app_assoc.
Qed.

Lemma input_only_prompted E p w : only_prompted w (snd (input E p w)).
Proof.
  unfold only_prompted, input. simpl. repeat split; auto. now exists [p].
Qed.

Lemma nth_error_kept {A} (l extra : list A) k x :
  nth_error l k = Some x -> nth_error (l ++ extra) k = Some x.
Proof.
  intros H. rewrite nth_error_app1; [assumption|].
  apply nth_error_Some. congruence.
Qed.

Lemma nth_error_last {A} (l : list A) x rest :
  nth_error (l ++ x :: rest) (List.length l) = Some x.
Proof. rewrite nth_error_app2 by lia. now rewrite Nat.sub_diag. Qed.

Lemma session_of_In k d :
  In k (map fst d) -> exists v, session_of k d = Some v.
Proof.
  induction d as [|[k' v] d IH]; simpl; [contradiction|].
  destruct (String.eqb_spec k' k) as [->|Hne]; [eauto|].
  intros [H|H]; [contradiction|auto].
Qed.

Lemma selection_justified_later H s w w1 w' r turns :
  (exists p, prompts w1 = prompts w ++ [p]) ->
  selection_justified H s w1 w' r turns ->
  selection_justified H s w w' r (S turns).
Proof.
  intros [p Hp]. destruct r; simpl; auto.
  rewrite Hp, length_app. simpl. lia.
Qed.

Lemma add_new_account_eq H w :
  add_new_account H w
  = (Credentials
       (strip H (answers (env H) (List.length (prompts w))))
       (answers (env H) (List.length (prompts w ++ ["Enter Mega email: "]))),
     {| remote_trace := remote_trace w; log := log w; disk := disk w;
        clock_reads := clock_reads w;
        prompts := (prompts w ++ ["Enter Mega email: "])
                   ++ ["Enter Mega password: "] |}).
Proof. reflexivity. Qed.

Lemma add_new_account_spec H w :
  only_prompted w (snd (add_new_account H w))
  /\ forall s turns,
       selection_justified H s w (snd (add_new_account H w))
                           (fst (add_new_account H w)) turns.
Proof.
  rewrite add_new_account_eq. cbn [fst snd]. split.
  - unfold only_prompted. cbn [remote_trace log disk clock_reads prompts].
    repeat split; auto.
    exists ["Enter Mega email: "; "Enter Mega password: "].
    now rewrite <- app_assoc.
  - intros s turns. right. exists (List.length (prompts w)).
    cbn [prompts]. split.
    + rewrite <- app_assoc. apply nth_error_last.
    + split; [|split; [reflexivity|]].
      * replace (S (List.length (prompts w)))
          with (List.length (prompts w ++ ["Enter Mega email: "]))
          by (rewrite length_app; simpl; lia).
        apply nth_error_last.
      * now rewrite length_app, Nat.add_1_r.
Qed.

Lemma select_loop_spec H s :
  forall turns w,
    only_prompted w (snd (select_loop H turns s w))
    /\ selection_justified H s w (snd (select_loop H turns s w))
                           (fst (select_loop H turns s w)) turns.
Proof.
  induction turns as [|k IH]; intros w.
  - simpl. split; [apply only_prompted_refl|lia].
  - cbn [select_loop].
    set (w1 := snd (input (env H) (nl ++ "Select option: ") w)).
    assert (only_prompted w w1) as Hw1 by apply input_only_prompted.
    assert (exists p, prompts w1 = prompts w ++ [p]) as Hp1
        by (eexists; reflexivity).
    change (input (env H) (nl ++ "Select option: ") w)
      with (answers (env H) (List.length (prompts w)), w1).
    cbv beta iota.
    destruct (int_of H (strip H (answers (env H) (List.length (prompts w)))))
      as [c|] eqn:Ec.
    2:{ destruct (IH w1) as [Ho Hj]. split.
        - eapply only_prompted_trans; eauto.
        - eapply selection_justified_later; eauto. }
    destruct (Z.eqb_spec c 0) as [->|Hc0].
    { split; [assumption|]. simpl. exists (List.length (prompts w)).
      split; [apply nth_error_last|assumption]. }
    destruct ((1 <=? c)%Z && (c <=? Z.of_nat (List.length (map fst s)))%Z)
      eqn:Eb.
    + apply andb_true_iff in Eb. destruct Eb as [Hlo Hhi].
      apply Z.leb_le in Hlo, Hhi.
      destruct (nth_error (map fst s) (Z.to_nat (c - 1))) as [email|] eqn:En.
      2:{ exfalso. apply nth_error_None in En. lia. }
      set (w2 := snd (input (env H) (use_account_prompt email) w1)).
      assert (only_prompted w w2) as Hw2.
      { eapply only_prompted_trans; [exact Hw1|apply input_only_prompted]. }
      change (input (env H) (use_account_prompt email) w1)
        with (answers (env H) (List.length (prompts w1)), w2).
      cbv beta iota.
      destruct (String.eqb (PyStr.lower (answers (env H) (List.length (prompts w1)))) "y")
        eqn:Ey.
      * destruct (session_of_In email s (nth_error_In _ _ En)) as [se Hse].
        rewrite Hse. split; [assumption|]. left.
        exists se, (List.length (prompts w1)). repeat split; auto.
        apply nth_error_last.
      * assert (List.length (prompts w2) = List.length (prompts w) + 2) as Hl2.
        { unfold w2, w1, input. cbn [snd prompts]. rewrite !length_app.
          simpl. lia. }
        destruct (IH w2) as [Ho Hj]. split.
        -- eapply only_prompted_trans; eauto.
        -- destruct (fst (select_loop H k s w2)); cbn [selection_justified] in *;
             auto. lia.
    + destruct (c =? Z.of_nat (List.length (map fst s)) + 1)%Z.
      * destruct (add_new_account_spec H w1) as [Ho Hj]. split.
        -- eapply only_prompted_trans; eauto.
        -- specialize (Hj s k). destruct Hp1 as [p Hp].
           destruct (fst (add_new_account H w1));
             cbn [selection_justified] in *; auto.
           rewrite Hp, length_app in Hj. cbn [List.length] in Hj. lia.
      * destruct (IH w1) as [Ho Hj]. split.
        -- eapply only_prompted_trans; eauto.
        -- eapply selection_justified_later; eauto.
Qed.

(** X14.  The selection of an account only prompts: it logs nothing,
    calls nothing and leaves the manager's fields alone.  Credentials
    that it returns are either those of a saved account, with the stored
    password, for which the user answered [y] to the prompt naming that
    account, or the email (stripped) and the password typed at the two
    prompts for a new account.  It ends the program only when the user
    typed a number that reads as 0.  It is still asking only when every
    turn that was followed has prompted. *)
Theorem select_or_add_account_justified H m :
  let r := select_or_add_account H m in
  only_prompted (world m) (world (snd r))
  /\ sessions (snd r) = sessions m
  /\ config_file (snd r) = config_file m
  /\ current_account (snd r) = current_account m
  /\ selection_justified H (sessions m) (world m) (world (snd r)) (fst r)
                         (match sessions m with
                          | [] => 0
                          | _ => patience H
                          end).
Proof.
  unfold select_or_add_account. destruct (sessions m) as [|a s] eqn:Es.
  - destruct (add_new_account_spec H (world m)) as [Ho Hj].
    specialize (Hj [] 0).
    destruct (add_new_account H (world m)) as [r w]. simpl in *.
    split; [exact Ho|]. repeat split; auto.
  - destruct (select_loop_spec H (a :: s) (patience H) (world m)) as [Ho Hj].
    destruct (select_loop H (patience H) (a :: s) (world m)) as [r w].
    simpl in *. split; [exact Ho|]. repeat split; auto.
Qed.

Example select_saved_account :
  fst (select_or_add_account cooperative manager0)
  = Credentials "ann@example.org" "s3cret".
Proof. reflexivity. Qed.

(** ** The gate of [run] *)

Lemma quiet_refl m : quiet m m.
Proof. split; reflexivity. Qed.

Lemma quiet_trans m1 m2 m3 : quiet m1 m2 -> quiet m2 m3 -> quiet m1 m3.
Proof. unfold quiet. intros [A B] [C D]. split; congruence. Qed.

Lemma gated_shift H m m1 r : quiet m m1 -> gated H m1 r -> gated H m r.
Proof.
  intros Hq (G1 & G2 & G3). split; [|split].
  - destruct G1 as [G1|G1]; [left; eapply quiet_trans; eauto|now right].
  - intros He. eapply quiet_trans; eauto.
  - exact G3.
Qed.

Lemma gated_early H m e m' :
  early e = true -> quiet m m' -> gated H m (e, m').
Proof.
  intros He Hq. split; [now left|]. split; [auto|].
  intros n Hn. simpl in Hn. subst e. discriminate.
Qed.

Lemma gated_crashed H m m' : quiet m m' -> gated H m (Crashed, m').
Proof.
  intros Hq. split; [now left|]. split; [discriminate|]. discriminate.
Qed.

Lemma delete_loop_prompts E dry items :
  forall n w, prompts (snd (delete_loop E dry items n w)) = prompts w.
Proof.
  induction items as [|f rest IH]; intros n w; simpl; [reflexivity|].
  destruct dry; [now rewrite IH|].
  destruct (remote E (remote_trace w) (Destroy (file_id f)));
    now rewrite IH.
Qed.

Lemma rename_loop_prompts E custom dry items :
  forall idx entries n w,
    prompts (snd (rename_loop E custom dry items idx entries n w)) = prompts w.
Proof.
  induction items as [|f rest IH]; intros idx entries n w; simpl;
    [reflexivity|].
  destruct dry; [now rewrite IH|].
  destruct (remote E (remote_trace w) _); now rewrite IH.
Qed.

Lemma delete_selected_prompts E all_files dry w :
  prompts (snd (delete_selected E all_files dry w)) = prompts w.
Proof.
  unfold delete_selected. destruct (filter is_pdf all_files); [reflexivity|].
  apply delete_loop_prompts.
Qed.

Lemma rename_selected_prompts E all_files custom dry w :
  prompts (snd (rename_selected E all_files custom dry w)) = prompts w.
Proof.
  destruct (rename_selected_shape E all_files custom dry w)
    as [[_ Hr]|[_ (es & c & w2 & Hl & Hr)]]; rewrite Hr; [reflexivity|].
  simpl. destruct (save_backup_log E dry c
                     {| timestamp := isoformat (now E (clock_reads w));
                        custom_name := custom; backup_files := es |} w2)
    as [Hp _].
  rewrite Hp.
  pose proof (rename_loop_prompts E custom dry
                (sort_by_name (filter not_pdf all_files)) 1 [] 0
                (snd (read_clock E w))) as H.
  rewrite Hl in H. exact H.
Qed.

Lemma ask_line_spec H p m :
  quiet m (snd (ask_line H p m))
  /\ prompts (world (snd (ask_line H p m))) = prompts (world m) ++ [p]
  /\ fst (ask_line H p m) = answers (env H) (List.length (prompts (world m))).
Proof. unfold ask_line, quiet. simpl. auto. Qed.

Lemma run_delete_spec H folder_id dry m :
  prompts (world (snd (run_delete H folder_id dry m))) = prompts (world m)
  /\ (dry = true -> quiet m (snd (run_delete H folder_id dry m))).
Proof.
  unfold run_delete, fetch, delete_pdfs. simpl.
  destruct (get_all_files_recursive _ _ _) as [all_files|]; simpl.
  - pose proof (delete_selected_prompts (env H) all_files dry (world m)) as Hp.
    destruct (delete_selected (env H) all_files dry (world m)) as [c w] eqn:Ed.
    simpl in *. split; [assumption|]. intros ->.
    destruct (delete_selected_dry (env H) all_files (world m)) as (_ & H2 & H3 & _).
    rewrite Ed in H2, H3. split; assumption.
  - split; [reflexivity|]. intros _. split; reflexivity.
Qed.

Lemma run_rename_spec H folder_id custom dry m :
  prompts (world (snd (run_rename H folder_id custom dry m)))
  = prompts (world m)
  /\ (dry = true -> quiet m (snd (run_rename H folder_id custom dry m))).
Proof.
  unfold run_rename, fetch, rename_files. simpl.
  destruct (get_all_files_recursive _ _ _) as [all_files|]; simpl.
  - pose proof (rename_selected_prompts (env H) all_files custom dry (world m))
      as Hp.
    destruct (rename_selected (env H) all_files custom dry (world m))
      as [[c b] w] eqn:Ed.
    simpl in *. split; [assumption|]. intros ->.
    destruct (rename_selected_dry (env H) all_files custom (world m))
      as (_ & H2 & H3 & _).
    rewrite Ed in H2, H3. split; assumption.
  - split; [reflexivity|]. intros _. split; reflexivity.
Qed.

Lemma run_live_spec H folder_id custom st m :
  prompts (world (snd (run_live H folder_id custom st m))) = prompts (world m)
  /\ early (fst (run_live H folder_id custom st m)) = false.
Proof.
  unfold run_live, read_clock. cbn [fst snd].
  set (m0 := set_world _ m).
  assert (prompts (world m0) = prompts (world m)) as H0 by reflexivity.
  assert (exists d m1,
             (if 0 <? pdf_files st then run_delete H folder_id false m0
              else (Some 0, m0)) = (d, m1)
             /\ prompts (world m1) = prompts (world m)) as (d & m1 & -> & H1).
  { destruct (0 <? pdf_files st).
    - destruct (run_delete_spec H folder_id false m0) as [Hp _].
      destruct (run_delete H folder_id false m0) as [d m1]. exists d, m1.
      split; [reflexivity|]. simpl in Hp. congruence.
    - exists (Some 0), m0. auto. }
  destruct d as [d|]; [|auto].
  destruct (run_rename_spec H folder_id custom false m1) as [Hp _].
  destruct (run_rename H folder_id custom false m1) as [[renamed|] m2];
    simpl in *; split; congruence.
Qed.

Lemma run_confirmed_gated H folder_id custom st m :
  gated H m (run_confirmed H folder_id custom st m).
Proof.
  unfold run_confirmed.
  destruct (ask_line_spec H final_prompt m) as (Hq & Hp & Ha).
  destruct (ask_line H final_prompt m) as [a m1]. simpl in Hq, Hp, Ha.
  destruct (String.eqb (PyStr.lower a) "y") eqn:Ey.
  - destruct (run_live_spec H folder_id custom st m1) as [Hl He].
    assert (confirmed_at_end H (snd (run_live H folder_id custom st m1)))
      as Hc.
    { exists (List.length (prompts (world m))). rewrite Hl, Hp.
      split; [apply nth_error_last|]. unfold confirms. now rewrite <- Ha. }
    split; [now right|]. split; [|auto]. intros He'. congruence.
  - now apply gated_early.
Qed.

Lemma run_dry_gated H folder_id custom st m :
  gated H m (run_dry H folder_id custom st m).
Proof.
  unfold run_dry.
  assert (exists d m1,
             (if 0 <? pdf_files st then run_delete H folder_id true m
              else (Some 0, m)) = (d, m1)
             /\ quiet m m1) as (d & m1 & -> & Q1).
  { destruct (0 <? pdf_files st).
    - destruct (run_delete_spec H folder_id true m) as [_ Hq].
      destruct (run_delete H folder_id true m) as [d m1]. exists d, m1.
      split; [reflexivity|]. now apply Hq.
    - exists (Some 0), m. split; [reflexivity|apply quiet_refl]. }
  destruct d as [d|]; [|now apply gated_crashed].
  destruct (run_rename_spec H folder_id custom true m1) as [_ Hq].
  destruct (run_rename H folder_id custom true m1) as [[c|] m2]; simpl in Hq.
  - destruct (ask_line_spec H proceed_prompt m2) as (Hq3 & _ & _).
    destruct (ask_line H proceed_prompt m2) as [a m3]. simpl in Hq3.
    assert (quiet m m3) as Q3.
    { eapply quiet_trans; [exact Q1|]. eapply quiet_trans; [now apply Hq|].
      exact Hq3. }
    destruct (String.eqb (PyStr.lower a) "y").
    + eapply gated_shift; [exact Q3|apply run_confirmed_gated].
    + now apply gated_early.
  - apply gated_crashed.
    eapply quiet_trans; [exact Q1|now apply Hq].
Qed.

Lemma run_operation_gated H folder_id st m :
  gated H m (run_operation H folder_id st m).
Proof.
  unfold run_operation.
  destruct (ask_line_spec H "Enter custom name for files: " m) as (Q1 & _ & _).
  destruct (ask_line H "Enter custom name for files: " m) as [typed m1].
  simpl in Q1.
  destruct (String.eqb (strip H typed) ""); [now apply gated_early|].
  destruct (ask_line_spec H "Perform dry run first? (recommended) (y/n): " m1)
    as (Q2 & _ & _).
  destruct (ask_line H "Perform dry run first? (recommended) (y/n): " m1)
    as [choice m2].
  simpl in Q2.
  assert (quiet m m2) as Q by (eapply quiet_trans; eauto).
  destruct (String.eqb (PyStr.lower choice) "y").
  - eapply gated_shift; [exact Q|apply run_dry_gated].
  - eapply gated_shift; [exact Q|apply run_confirmed_gated].
Qed.

Lemma only_prompted_quiet m m' :
  only_prompted (world m) (world m') -> quiet m m'.
Proof. intros (H1 & _ & H3 & _). split; assumption. Qed.

Lemma select_quiet H m : quiet m (snd (select_or_add_account H m)).
Proof.
  apply only_prompted_quiet. unfold select_or_add_account.
  destruct (sessions m) as [|a s].
  - destruct (add_new_account_spec H (world m)) as [Ho _].
    destruct (add_new_account H (world m)). exact Ho.
  - destruct (select_loop_spec H (a :: s) (patience H) (world m)) as [Ho _].
    destruct (select_loop H (patience H) (a :: s) (world m)). exact Ho.
Qed.

Lemma login_quiet H email pw m : quiet m (snd (login H email pw m)).
Proof.
  unfold login, quiet. destruct (mega_login H email pw); simpl.
  - unfold save_sessions. simpl.
    destruct (config_open_w H (config_file m)); simpl; auto.
  - auto.
Qed.

Lemma find_folder_quiet E files folder_path w :
  remote_trace (snd (find_folder E files folder_path w)) = remote_trace w
  /\ disk (snd (find_folder E files folder_path w)) = disk w.
Proof.
  unfold find_folder. destruct (find_exact folder_path files); [auto|].
  destruct (find_confirmed_sound E folder_path files w) as (H1 & _ & H3 & _).
  auto.
Qed.

(** X15.  [run] destroys or renames a file, or writes a backup file, only
    after the prompt [This will modify your Mega files. Continue?] has
    been shown and answered [y] or [Y]: when the run ends by any of its
    early returns, by the exit of the account selection, or while still
    asking, the trace of remote calls and the disk are as before; a run
    that reaches its summary was confirmed. *)
Theorem run_gated H m : gated H m (run H m).
Proof.
  unfold run.
  pose proof (select_quiet H m) as Q1.
  destruct (select_or_add_account H m) as [[email pw| |] m1]; simpl in Q1;
    [|now apply gated_early..].
  pose proof (login_quiet H email pw m1) as Q2.
  destruct (login H email pw m1) as [[|] m2]; simpl in Q2;
    [|apply gated_early; [reflexivity|eapply quiet_trans; eauto]].
  destruct (ask_line_spec H "Enter Mega folder path: " m2) as (Q3 & _ & _).
  destruct (ask_line H "Enter Mega folder path: " m2) as [typed m3].
  simpl in Q3. unfold fetch. cbn [fst snd world].
  destruct (find_folder_quiet (env H) (get_files H (fetches m3))
              (strip H typed) (world m3)) as [F1 F2].
  assert (quiet m m3) as Q by (repeat (eapply quiet_trans; eauto)).
  destruct (find_folder (env H) (get_files H (fetches m3)) (strip H typed)
              (world m3)) as [[folder|] w5]; simpl in F1, F2.
  - assert (forall m6, world m6 = w5 -> quiet m m6) as Q6.
    { intros m6 E6. destruct Q as [A B]. split; rewrite E6; congruence. }
    destruct (analyze_folder (depth H) _ (fst folder)) as [st|].
    + destruct (total_files st =? 0).
      * apply gated_early; [reflexivity|]. now apply Q6.
      * eapply gated_shift; [|apply run_operation_gated]. now apply Q6.
    + apply gated_crashed. now apply Q6.
  - apply gated_early; [reflexivity|].
    destruct Q as [A B]. split; simpl; congruence.
Qed.

Example cooperative_run :
  fst (run cooperative manager0) = Summarized 3
  /\ map fst (remote_trace (world (snd (run cooperative manager0))))
     = [ Destroy "f3"; Rename "f2" "doc_001.txt"; Rename "f1" "doc_002.txt";
         Rename "f4" "doc_003.TXT" ]
  /\ fst (run refusing manager0) = LoginFailed.
Proof. repeat split. Qed.

(** ** The deletion inside [run] depends on the analyzer *)






Lemma login_outcomes_witness :
  "ann@example.org" <> "bob@example.org"
  /\ session_of "ann@example.org"
       (sessions (snd (login cooperative "bob@example.org" "hunter2" manager0)))
     = session_of "ann@example.org" (sessions manager0).
Proof.
  split; [discriminate|].
  destruct (login_outcomes cooperative "bob@example.org" "hunter2" manager0)
    as (_ & _ & Hm).
  simpl mega_login in Hm. cbv beta iota in Hm.
  destruct Hm as (_ & _ & _ & _ & Hother & _).
  apply Hother. discriminate.
Defined.

Lemma run_gated_witness :
  early (fst (run refusing manager0)) = true
  /\ quiet manager0 (snd (run refusing manager0)).
Proof.
  split; [reflexivity|].
  exact (proj1 (proj2 (run_gated refusing manager0)) eq_refl).
Defined.

